(** * mobile-mcp: the Android robot and the tool front end

    A shallow embedding of [src/android.ts] (class [AndroidRobot]) and of the
    tool callbacks of [src/server.ts], with the properties of the element
    extractor, the gesture synthesizer, the log filter and the element
    matcher.

    Modelling conventions.
    - A JavaScript string is a [string] of ASCII characters; [toLowerCase],
      [trim] and the regular-expression classes [\s], [\d] and [.] are the
      ASCII restrictions of the ECMAScript ones.
    - A JavaScript number is a rational or [NaN] (type [number]); rounding of
      IEEE doubles is not modelled, so [Math.floor (h * 0.80)] is the floor of
      the exact product.
    - An optional property ([text?: string]) is an [option]; [undefined] is
      [None].
    - A thrown exception is the left injection of a sum ([Result]); code that
      talks to the device runs in a state-and-exception monad over the list
      of native commands spawned so far. *)

From Stdlib Require Import ZArith QArith Qround Bool List Lia Lqa.
From Stdlib Require Import Strings.String Strings.Ascii.
From Stdlib Require Import Numbers.DecimalString Numbers.DecimalN.
Import ListNotations.

Set Warnings "-register-all".

Open Scope list_scope.
Open Scope string_scope.

(* ================================================================== *)
(** * Part I: definitions                                              *)
(* ================================================================== *)

(** ** The JavaScript primitives the program uses *)

Module JS.

(** *** Characters and strings *)

Definition LF : ascii := "010"%char.

Definition isWhiteSpace (c : ascii) : bool :=
  let n := N_of_ascii c in
  (((9 <=? n) && (n <=? 13)) || (n =? 32))%N.

Definition isLineTerminator (c : ascii) : bool :=
  let n := N_of_ascii c in
  ((n =? 10) || (n =? 13))%N.

Definition isDigit (c : ascii) : bool :=
  let n := N_of_ascii c in
  ((48 <=? n) && (n <=? 57))%N.

Definition toLowerChar (c : ascii) : ascii :=
  let n := N_of_ascii c in
  if ((65 <=? n) && (n <=? 90))%N then ascii_of_N (n + 32) else c.

(** [s.toLowerCase()] *)
Fixpoint toLowerCase (s : string) : string :=
  match s with
  | EmptyString => EmptyString
  | String c r => String (toLowerChar c) (toLowerCase r)
  end.

Fixpoint trimStart (s : string) : string :=
  match s with
  | EmptyString => EmptyString
  | String c r => if isWhiteSpace c then trimStart r else s
  end.

Fixpoint trimEnd (s : string) : string :=
  match s with
  | EmptyString => EmptyString
  | String c r =>
      match trimEnd r with
      | EmptyString => if isWhiteSpace c then EmptyString else String c EmptyString
      | r' => String c r'
      end
  end.

(** [s.trim()] *)
Definition trim (s : string) : string := trimEnd (trimStart s).

(** [s.startsWith(p)] *)
Definition startsWith (s p : string) : bool := String.prefix p s.

(** [s.includes(p)] *)
Fixpoint includes (s p : string) : bool :=
  String.prefix p s ||
  match s with
  | EmptyString => false
  | String _ r => includes r p
  end.

Fixpoint skip (n : nat) (s : string) : string :=
  match n, s with
  | O, _ => s
  | S _, EmptyString => EmptyString
  | S k, String _ r => skip k r
  end.

(** [s.replace(pat, rep)] for a string pattern: the first occurrence only *)
Fixpoint replace (s pat rep : string) : string :=
  if String.prefix pat s then rep ++ skip (String.length pat) s
  else match s with
       | EmptyString => EmptyString
       | String c r => String c (replace r pat rep)
       end.

(** [s.split(sep)] for a one-character separator *)
Fixpoint split (sep : ascii) (s : string) : list string :=
  match s with
  | EmptyString => [EmptyString]
  | String c r =>
      if Ascii.eqb c sep then EmptyString :: split sep r
      else match split sep r with
           | h :: t => String c h :: t
           | [] => [String c EmptyString]
           end
  end.

(** [l.join(sep)] *)
Definition join (sep : string) (l : list string) : string := String.concat sep l.

(** [s.padStart(n, "0")] *)
Fixpoint zeros (n : nat) : string :=
  match n with
  | O => EmptyString
  | S k => String "0"%char (zeros k)
  end.

Definition padStart0 (n : nat) (s : string) : string :=
  zeros (n - String.length s) ++ s.

(** Truthiness of an optional string: [undefined] and [""] are falsy. *)
Definition truthy (o : option string) : bool :=
  match o with
  | Some (String _ _) => true
  | _ => false
  end.

(** [a || b] on optional strings *)
Definition or_else (a b : option string) : option string :=
  if truthy a then a else b.

(** [a || "lit"] where the right operand is a string literal *)
Definition or_lit (a : option string) (b : string) : string :=
  match a with
  | Some (String c r) => String c r
  | _ => b
  end.

(** [a === "lit"] on an optional string *)
Definition strict_eq (a : option string) (lit : string) : bool :=
  match a with
  | Some s => String.eqb s lit
  | None => false
  end.

(** *** Numbers *)

Inductive number : Type :=
| Num (q : Q)
| NaN.

Definition int (z : Z) : number := Num (inject_Z z).

Definition num_add (a b : number) : number :=
  match a, b with
  | Num p, Num q => Num (p + q)
  | _, _ => NaN
  end.

Definition num_sub (a b : number) : number :=
  match a, b with
  | Num p, Num q => Num (p - q)
  | _, _ => NaN
  end.

Definition num_mul (a b : number) : number :=
  match a, b with
  | Num p, Num q => Num (p * q)
  | _, _ => NaN
  end.

(** [a / b]; the infinities of a division by zero are not modelled *)
Definition num_div (a b : number) : number :=
  match a, b with
  | Num p, Num q => if Qeq_bool q 0 then NaN else Num (p / q)
  | _, _ => NaN
  end.

(** [a > b]; any comparison with [NaN] is false *)
Definition num_gt (a b : number) : bool :=
  match a, b with
  | Num p, Num q => negb (Qle_bool p q)
  | _, _ => false
  end.

(** [a <= b]; any comparison with [NaN] is false *)
Definition num_le (a b : number) : bool :=
  match a, b with
  | Num p, Num q => Qle_bool p q
  | _, _ => false
  end.

(** [Math.floor(a)] *)
Definition Math_floor (a : number) : number :=
  match a with
  | Num p => int (Qfloor p)
  | NaN => NaN
  end.

(** [Math.max(a, b)] *)
Definition Math_max (a b : number) : number :=
  match a, b with
  | Num p, Num q => if Qle_bool p q then Num q else Num p
  | _, _ => NaN
  end.

(** [Math.min(a, b)] *)
Definition Math_min (a b : number) : number :=
  match a, b with
  | Num p, Num q => if Qle_bool p q then Num p else Num q
  | _, _ => NaN
  end.

(** [ToInt32]: truncate towards zero, then wrap into [-2^31, 2^31) *)
Definition truncate (q : Q) : Z :=
  if Qle_bool 0 q then Qfloor q else Qceiling q.

Definition wrap32 (z : Z) : Z :=
  let m := (z mod 2 ^ 32)%Z in
  if (m <? 2 ^ 31)%Z then m else (m - 2 ^ 32)%Z.

Definition ToInt32 (a : number) : Z :=
  match a with
  | Num q => wrap32 (truncate q)
  | NaN => 0%Z
  end.

(** [a >> k] *)
Definition shr (a : number) (k : Z) : number :=
  int (Z.shiftr (ToInt32 a) k).

(** Truthiness of a number: [0] and [NaN] are falsy. *)
Definition truthy_num (a : number) : bool :=
  match a with
  | Num q => negb (Qeq_bool q 0)
  | NaN => false
  end.

(** [a || b] where [a] is an optional number *)
Definition or_num (a : option number) (b : number) : number :=
  match a with
  | Some n => if truthy_num n then n else b
  | None => b
  end.

(** [Number(s)] and [parseInt(s, 10)] on a string the regular expression
    has matched against [\d+]: the decimal value. *)
Definition decimal (s : string) : option N :=
  match NilEmpty.uint_of_string s with
  | Some u => Some (N.of_uint u)
  | None => None
  end.

Definition Number_of_digits (s : string) : number :=
  match decimal s with
  | Some n => int (Z.of_N n)
  | None => NaN
  end.

(** The decimal numeral of a natural number, as [String(n)] prints it. *)
Definition numeral (n : N) : string := NilEmpty.string_of_uint (N.to_uint n).

(** *** Values handed to [JSON.stringify] *)

Inductive json : Type :=
| JUndefined
| JBool (b : bool)
| JNum (n : number)
| JStr (s : string)
| JArr (l : list json)
| JObj (l : list (string * json)).

Definition JOpt (o : option string) : json :=
  match o with
  | Some s => JStr s
  | None => JUndefined
  end.

(** [s.split(/\s+/)]: cut at every maximal run of white space *)
Fixpoint split_ws_from (after_ws : bool) (s : string) : list string :=
  match s with
  | EmptyString => [EmptyString]
  | String c r =>
      if isWhiteSpace c then
        if after_ws then split_ws_from true r
        else EmptyString :: split_ws_from true r
      else match split_ws_from false r with
           | h :: t => String c h :: t
           | [] => [String c EmptyString]
           end
  end.

Definition split_ws (s : string) : list string := split_ws_from false s.

(** [Number(s)] as the program uses it, on the fields of [wm size]: white
    space is trimmed, the empty string is [0], an unsigned decimal numeral
    is its value and anything else is [NaN] (signs, fractions, exponents and
    hexadecimal numerals are not modelled). *)
Definition Number (s : string) : number :=
  match trim s with
  | EmptyString => int 0
  | t => Number_of_digits t
  end.

(** *** Exceptions *)

(** [ActionableError] (from [robot.ts]) is a subclass of [Error]; every other
    exception is an [Error]. *)
Inductive exn : Type :=
| ActionableError (message : string)
| Error (message : string).

Definition message_of (e : exn) : string :=
  match e with
  | ActionableError m => m
  | Error m => m
  end.

Definition Result (A : Type) : Type := (exn + A)%type.

End JS.

Import JS.

(** ** The runtime outside the repository

    Library functions the program calls and whose results it only passes on:
    they are parameters of the development. *)

Record DateFields : Type := {
  getMonth : N;          (* 0-based, as [Date.prototype.getMonth] *)
  getDate : N;
  getHours : N;
  getMinutes : N;
  getSeconds : N;
  getMilliseconds : N
}.

Definition Buffer : Type := string.

Class Runtime : Type := {
  (** [String(n)], the rendering of a number inside a template literal *)
  Number_toString : number -> string;
  (** [JSON.stringify(v)] and, with [pretty], [JSON.stringify(v, null, 2)] *)
  JSON_stringify : json -> bool -> string;
  (** the local calendar fields of [new Date(ms)] *)
  Date_fields : Z -> DateFields;
  (** [new PNG(buffer).getDimensions()], which throws on a buffer that is
      not a PNG image *)
  PNG_getDimensions : Buffer -> Result (number * number);
  isImageMagickInstalled : bool;
  Image_resize_jpeg : Buffer -> number -> Buffer;
  tmpFilename : string;
  Buffer_base64 : Buffer -> string;
  formatBytes : number -> string;
  (** [String(Object.prototype[name])] for a property [name] of
      [Object.prototype]: the text of a native function or, for
      [__proto__], of an object *)
  Object_prototype_String : string -> string
}.

(** ** Native commands and the monad of device code *)

(** A native command is the argument vector handed to [execFileSync],
    executable first.  The state threaded through device code is the list of
    the commands spawned so far, oldest first. *)
Definition NativeCommand : Type := list string.
Definition Trace : Type := list NativeCommand.

Definition M (A : Type) : Type := Trace -> Result A * Trace.

Definition ret {A : Type} (a : A) : M A := fun t => (inr a, t).

Definition throw {A : Type} (e : exn) : M A := fun t => (inl e, t).

Definition bind {A B : Type} (m : M A) (k : A -> M B) : M B :=
  fun t =>
    match m t with
    | (inr a, t') => k a t'
    | (inl e, t') => (inl e, t')
    end.

(** [try { m } catch (e) { h e }] *)
Definition try_catch {A : Type} (m : M A) (h : exn -> M A) : M A :=
  fun t =>
    match m t with
    | (inr a, t') => (inr a, t')
    | (inl e, t') => h e t'
    end.

Notation "'let*' x ':=' m 'in' k" := (bind m (fun x => k))
  (at level 10, x name, m at level 100, k at level 200).
Notation "m ;; k" := (bind m (fun _ => k))
  (at level 100, k at level 200, right associativity).

(** ** The types of [robot.ts], as the two source files use them *)

Module ScreenSize.
Record t : Type := mk { width : number; height : number; scale : number }.
End ScreenSize.

Module ScreenElementRect.
Record t : Type := mk { x : number; y : number; width : number; height : number }.
End ScreenElementRect.

Module ScreenElement.
Record t : Type := mk {
  type : string;
  text : option string;
  label : option string;
  name : option string;
  value : option string;
  identifier : option string;
  rect : ScreenElementRect.t;
  focused : option bool
}.
End ScreenElement.

Record InstalledApp : Type := { packageName : string; appName : string }.

(** The [options] object of [getDeviceLogs]. *)
Module LogOptions.
Record t : Type := mk {
  timeWindow : option string;
  filter : option string;
  iosUseBooted : option bool;
  process : option string
}.
End LogOptions.

(** ** [android.ts] *)

Module UiAutomatorXmlNode.

(** The attributes of a [<node>] of the UiAutomator dump; the parser is
    configured with [attributeNamePrefix: ""], so each is a string property
    when present. *)
Record attributes : Type := mkAttributes {
  class : option string;
  text : option string;
  bounds : option string;
  hint : option string;
  focused : option string;
  clickable : option string;
  focusable : option string;
  enabled : option string;
  selected : option string;
  package : option string;
  content_desc : option string;
  resource_id : option string
}.

(** The [node] property: absent, one child object, or an array of them. *)
Inductive children (T : Type) : Type :=
| Absent
| Single (child : T)
| Array (childNodes : list T).

Arguments Absent {T}.
Arguments Single {T} child.
Arguments Array {T} childNodes.

Inductive t : Type :=
| Node (attrs : attributes) (node : children t).

Definition attrs_of (n : t) : attributes := match n with Node a _ => a end.
Definition node_of (n : t) : children t := match n with Node _ k => k end.

(** A node that carries no attribute at all. *)
Definition no_attributes : attributes :=
  mkAttributes None None None None None None None None None None None None.

End UiAutomatorXmlNode.

Module Android.

Import UiAutomatorXmlNode.

(** *** The regular expressions of the file *)

(** the longest prefix matched by [\d*], and what follows it *)
Fixpoint span_digits (s : string) : string * string :=
  match s with
  | EmptyString => (EmptyString, EmptyString)
  | String c r =>
      if isDigit c then
        let (d, rest) := span_digits r in (String c d, rest)
      else (EmptyString, s)
  end.

(** [(\d+)] followed by something that is not a digit *)
Definition digits1 (s : string) : option (string * string) :=
  match span_digits s with
  | (EmptyString, _) => None
  | (d, rest) => Some (d, rest)
  end.

(** one literal character *)
Definition expect (c : ascii) (s : string) : option string :=
  match s with
  | String c' r => if Ascii.eqb c' c then Some r else None
  | EmptyString => None
  end.

(** [s.match(/^\[(\d+),(\d+)\]\[(\d+),(\d+)\]$/)]: the four groups *)
Definition match_bounds (s : string) : option (string * string * string * string) :=
  match expect "["%char s with
  | None => None
  | Some s1 =>
  match digits1 s1 with
  | None => None
  | Some (gleft, s2) =>
  match expect ","%char s2 with
  | None => None
  | Some s3 =>
  match digits1 s3 with
  | None => None
  | Some (gtop, s4) =>
  match expect "]"%char s4 with
  | None => None
  | Some s5 =>
  match expect "["%char s5 with
  | None => None
  | Some s6 =>
  match digits1 s6 with
  | None => None
  | Some (gright, s7) =>
  match expect ","%char s7 with
  | None => None
  | Some s8 =>
  match digits1 s8 with
  | None => None
  | Some (gbottom, s9) =>
  match expect "]"%char s9 with
  | Some EmptyString => Some (gleft, gtop, gright, gbottom)
  | _ => None
  end end end end end end end end end end.

(** [s.match(/^(\d+)([smh])$/)]: the two groups *)
Definition match_timeWindow (s : string) : option (string * ascii) :=
  match digits1 s with
  | Some (value, String unit EmptyString) =>
      if (Ascii.eqb unit "s" || Ascii.eqb unit "m" || Ascii.eqb unit "h")%bool
      then Some (value, unit) else None
  | _ => None
  end.

(** the longest prefix without white space ([[^\s]*]), and what follows *)
Fixpoint span_nonspace (s : string) : string * string :=
  match s with
  | EmptyString => (EmptyString, EmptyString)
  | String c r =>
      if isWhiteSpace c then (EmptyString, s)
      else let (d, rest) := span_nonspace r in (String c d, rest)
  end.

(** the longest prefix without a line terminator ([.*]) *)
Fixpoint span_dots (s : string) : string :=
  match s with
  | EmptyString => EmptyString
  | String c r => if isLineTerminator c then EmptyString else String c (span_dots r)
  end.

(** [(?:\s+(.+))?] at the head of [s]: the engine gives [\s+] the longest
    run of white space that leaves [(.+)] something to match, and skips the
    whole group when there is none.  The result is group 2. *)
Fixpoint match_tail (s : string) : option string :=
  match s with
  | EmptyString => None
  | String c r =>
      if isWhiteSpace c then
        match match_tail r with
        | Some g => Some g
        | None =>
            match span_dots r with
            | EmptyString => None
            | g => Some g
            end
        end
      else None
  end.

(** [/package:([^\s]+)(?:\s+(.+))?/] tried at the head of [s] *)
Definition match_package_here (s : string) : option (string * option string) :=
  if String.prefix "package:" s then
    match span_nonspace (skip 8 s) with
    | (EmptyString, _) => None
    | (g1, rest) => Some (g1, match_tail rest)
    end
  else None.

(** [s.match(/package:([^\s]+)(?:\s+(.+))?/)]: the leftmost match, groups 1
    and 2 *)
Fixpoint match_package (s : string) : option (string * option string) :=
  match match_package_here s with
  | Some m => Some m
  | None =>
      match s with
      | EmptyString => None
      | String _ r => match_package r
      end
  end.

(** *** [getScreenElementRect] *)

(** When the pattern does not match, the destructured array is empty and
    the four variables are [undefined]; [x] and [y] are then [undefined] and
    the two differences [NaN].  The model writes [NaN] for all four. *)
Definition getScreenElementRect (node : attributes) : ScreenElementRect.t :=
  let bounds := match bounds node with Some s => s | None => "undefined" end in
  match match_bounds bounds with
  | Some (gleft, gtop, gright, gbottom) =>
      let left := Number_of_digits gleft in
      let top := Number_of_digits gtop in
      let right := Number_of_digits gright in
      let bottom := Number_of_digits gbottom in
      ScreenElementRect.mk left top (num_sub right left) (num_sub bottom top)
  | None => ScreenElementRect.mk NaN NaN NaN NaN
  end.

(** *** [collectElements] *)

Definition hasTextOrLabel (node : attributes) : bool :=
  truthy (text node) || truthy (content_desc node) || truthy (hint node)
  || truthy (resource_id node).

Definition isInteractive (node : attributes) : bool :=
  strict_eq (clickable node) "true" || strict_eq (focusable node) "true" ||
  match class node with
  | Some (String c r) =>
      let cls := String c r in
      includes cls "Button" || includes cls "ImageView" ||
      includes cls "ImageButton" || includes cls "View"
  | _ => false
  end.

(** The object literal [element], after the two conditional assignments. *)
Definition element_of (node : attributes) : ScreenElement.t :=
  ScreenElement.mk
    (or_lit (class node) "element")
    (text node)
    (Some (or_lit (or_else (content_desc node) (hint node)) ""))
    None
    None
    (match resource_id node with
     | Some EmptyString => None
     | resourceId => resourceId
     end)
    (getScreenElementRect node)
    (if strict_eq (focused node) "true" then Some true else None).

(** What the second half of [collectElements] pushes for the node itself. *)
Definition own_elements (node : attributes) : list ScreenElement.t :=
  if hasTextOrLabel node || isInteractive node then
    let element := element_of node in
    if num_gt (ScreenElementRect.width (ScreenElement.rect element)) (int 0)
       && num_gt (ScreenElementRect.height (ScreenElement.rect element)) (int 0)
    then [element] else []
  else [].

Fixpoint collectElements (n : UiAutomatorXmlNode.t) : list ScreenElement.t :=
  match n with
  | Node attrs kids =>
      (match kids with
       | Absent => []
       | Single childNode => collectElements childNode
       | Array childNodes =>
           (fix each (l : list UiAutomatorXmlNode.t) : list ScreenElement.t :=
              match l with
              | [] => []
              | childNode :: rest => collectElements childNode ++ each rest
              end) childNodes
       end ++ own_elements attrs)%list
  end.

(** The nodes of a tree in the order [collectElements] evaluates them:
    children first, left to right, then the node itself. *)
Fixpoint postorder (n : UiAutomatorXmlNode.t) : list attributes :=
  match n with
  | Node attrs kids =>
      (match kids with
       | Absent => []
       | Single childNode => postorder childNode
       | Array childNodes =>
           (fix each (l : list UiAutomatorXmlNode.t) : list attributes :=
              match l with
              | [] => []
              | childNode :: rest => postorder childNode ++ each rest
              end) childNodes
       end ++ [attrs])%list
  end.

(** *** Gestures: the coordinate computations of [swipe] and
    [swipeFromCoordinate] *)

Definition quote : string := String "034"%char EmptyString.

Definition unsupported_direction (direction : string) : exn :=
  ActionableError ("Swipe direction " ++ quote ++ direction ++ quote ++ " is not supported").

(** The [switch] of [swipe]: [(x0, y0, x1, y1)], or the exception of the
    [default] branch. *)
Definition swipe_coordinates (screenSize : ScreenSize.t) (direction : string)
  : Result (number * number * number * number) :=
  let centerX := shr (ScreenSize.width screenSize) 1 in
  if String.eqb direction "up" then
    inr (centerX,
         Math_floor (num_mul (ScreenSize.height screenSize) (Num 0.80)),
         centerX,
         Math_floor (num_mul (ScreenSize.height screenSize) (Num 0.20)))
  else if String.eqb direction "down" then
    inr (centerX,
         Math_floor (num_mul (ScreenSize.height screenSize) (Num 0.20)),
         centerX,
         Math_floor (num_mul (ScreenSize.height screenSize) (Num 0.80)))
  else if String.eqb direction "left" then
    inr (Math_floor (num_mul (ScreenSize.width screenSize) (Num 0.80)),
         Math_floor (num_mul (ScreenSize.height screenSize) (Num 0.50)),
         Math_floor (num_mul (ScreenSize.width screenSize) (Num 0.20)),
         Math_floor (num_mul (ScreenSize.height screenSize) (Num 0.50)))
  else if String.eqb direction "right" then
    inr (Math_floor (num_mul (ScreenSize.width screenSize) (Num 0.20)),
         Math_floor (num_mul (ScreenSize.height screenSize) (Num 0.50)),
         Math_floor (num_mul (ScreenSize.width screenSize) (Num 0.80)),
         Math_floor (num_mul (ScreenSize.height screenSize) (Num 0.50)))
  else inl (unsupported_direction direction).

(** [distance || defaultDistanceY] and [distance || defaultDistanceX] *)
Definition swipeDistanceY (screenSize : ScreenSize.t) (distance : option number) : number :=
  let defaultDistanceY := Math_floor (num_mul (ScreenSize.height screenSize) (Num 0.3)) in
  or_num distance defaultDistanceY.

Definition swipeDistanceX (screenSize : ScreenSize.t) (distance : option number) : number :=
  let defaultDistanceX := Math_floor (num_mul (ScreenSize.width screenSize) (Num 0.3)) in
  or_num distance defaultDistanceX.

(** The [switch] of [swipeFromCoordinate]: [(x0, y0, x1, y1)]. *)
Definition swipeFromCoordinate_coordinates
  (screenSize : ScreenSize.t) (x y : number) (direction : string)
  (distance : option number) : Result (number * number * number * number) :=
  let swipeDistanceY := swipeDistanceY screenSize distance in
  let swipeDistanceX := swipeDistanceX screenSize distance in
  if String.eqb direction "up" then
    inr (x, y, x, Math_max (int 0) (num_sub y swipeDistanceY))
  else if String.eqb direction "down" then
    inr (x, y, x, Math_min (ScreenSize.height screenSize) (num_add y swipeDistanceY))
  else if String.eqb direction "left" then
    inr (x, y, Math_max (int 0) (num_sub x swipeDistanceX), y)
  else if String.eqb direction "right" then
    inr (x, y, Math_min (ScreenSize.width screenSize) (num_add x swipeDistanceX), y)
  else inl (unsupported_direction direction).

(** *** Logs: the pure parts of [getDeviceLogs] *)

Definition parseTimeWindow (timeWindow : string) : Z :=
  match match_timeWindow timeWindow with
  | None => 60
  | Some (digits, unit) =>
      let value := match decimal digits with Some n => Z.of_N n | None => 0 end in
      if Ascii.eqb unit "s" then value
      else if Ascii.eqb unit "m" then value * 60
      else if Ascii.eqb unit "h" then value * 3600
      else 60
  end%Z.

(** The folding of [process] into the filter (lines 299-305). *)
Definition effectiveFilter_of (filter processFilter : option string) : option string :=
  match processFilter, filter with
  | Some (String pc pr), Some (String fc fr) =>
      let p := String pc pr in
      let f := String fc fr in
      if negb (includes f "package:") then Some ("package:" ++ p ++ " " ++ f)
      else filter
  | Some (String pc pr), _ => Some ("package:" ++ String pc pr)
  | _, _ => filter
  end.

Definition nonempty (s : string) : option string :=
  match s with
  | EmptyString => None
  | _ => Some s
  end.

(** The filter grammar (lines 306-324): [(packageFilter, searchQuery)]. *)
Definition parse_filter (effectiveFilter : option string) : option string * option string :=
  match effectiveFilter with
  | Some (String c r) =>
      let effectiveFilter := String c r in
      if startsWith effectiveFilter "package:mine" then
        let query := trim (replace effectiveFilter "package:mine" "") in
        (None, nonempty query)
      else if includes effectiveFilter "package:" then
        match match_package effectiveFilter with
        | Some (g1, g2) => (Some g1, g2)
        | None => (None, None)
        end
      else (None, Some effectiveFilter)
  | _ => (None, None)
  end.

(** [packageFilter && packageFilter !== "mine"] *)
Definition specific_package (packageFilter : option string) : option string :=
  match packageFilter with
  | Some (String c r) =>
      if String.eqb (String c r) "mine" then None else Some (String c r)
  | _ => None
  end.

(** The line predicate of the [package:mine] filter (lines 375-378). *)
Definition is_user_line (line : string) : bool :=
  negb (includes line "com.android.") &&
  negb (includes line "android.") &&
  negb (includes line "system_") &&
  (includes line "com." || includes line "io." || includes line "net." ||
   includes line "app.").

(** Post-processing of the log output (lines 362-387). *)
Definition post_process (filter packageFilter searchQuery : option string)
  (output : string) : string :=
  let lines := List.filter (fun line => negb (String.eqb (trim line) "")) (split LF output) in
  let filteredLines := lines in
  let filteredLines :=
    match specific_package packageFilter with
    | Some packageFilter =>
        List.filter (fun line => includes line packageFilter) filteredLines
    | None => filteredLines
    end in
  let filteredLines :=
    match filter with
    | Some (String c r) =>
        if startsWith (String c r) "package:mine"
        then List.filter is_user_line filteredLines
        else filteredLines
    | _ => filteredLines
    end in
  let filteredLines :=
    match searchQuery with
    | Some (String c r) =>
        List.filter
          (fun line => includes (toLowerCase line) (toLowerCase (String c r)))
          filteredLines
    | _ => filteredLines
    end in
  join (String LF EmptyString) filteredLines.

(** *** The class [AndroidRobot] *)

(** The own properties of the object literal [BUTTON_MAP] (lines 44-55) *)
Definition BUTTON_MAP (button : string) : option string :=
  if String.eqb button "BACK" then Some "KEYCODE_BACK"
  else if String.eqb button "HOME" then Some "KEYCODE_HOME"
  else if String.eqb button "VOLUME_UP" then Some "KEYCODE_VOLUME_UP"
  else if String.eqb button "VOLUME_DOWN" then Some "KEYCODE_VOLUME_DOWN"
  else if String.eqb button "ENTER" then Some "KEYCODE_ENTER"
  else if String.eqb button "DPAD_CENTER" then Some "KEYCODE_DPAD_CENTER"
  else if String.eqb button "DPAD_UP" then Some "KEYCODE_DPAD_UP"
  else if String.eqb button "DPAD_DOWN" then Some "KEYCODE_DPAD_DOWN"
  else if String.eqb button "DPAD_LEFT" then Some "KEYCODE_DPAD_LEFT"
  else if String.eqb button "DPAD_RIGHT" then Some "KEYCODE_DPAD_RIGHT"
  else None.

(** The properties every object literal inherits from [Object.prototype] *)
Definition Object_prototype : list string :=
  ["constructor"; "hasOwnProperty"; "isPrototypeOf"; "propertyIsEnumerable";
   "toLocaleString"; "toString"; "valueOf"; "__proto__";
   "__defineGetter__"; "__defineSetter__"; "__lookupGetter__"; "__lookupSetter__"].

(** [BUTTON_MAP[button]] (line 269): the own property of the literal or,
    for a name that the literal inherits from [Object.prototype], the
    inherited value, a function or an object and so truthy; [execFileSync]
    receives it among the arguments, where it counts as [String] prints
    it.  Any other name gives [undefined]. *)
Definition BUTTON_MAP_get {RT : Runtime} (button : string) : option string :=
  match BUTTON_MAP button with
  | Some keycode => Some keycode
  | None =>
      if List.existsb (String.eqb button) Object_prototype
      then Some (Object_prototype_String button)
      else None
  end.

(** [text.replace(/ /g, "\\ ")] *)
Fixpoint escape_spaces (s : string) : string :=
  match s with
  | EmptyString => EmptyString
  | String c r =>
      if Ascii.eqb c " " then String "\" (String " " (escape_spaces r))
      else String c (escape_spaces r)
  end.

(** [dump.substring(dump.indexOf(pat))]; [indexOf] is [-1] when there is
    no occurrence and [substring(-1)] is the whole string. *)
Fixpoint from_first (pat s : string) : option string :=
  if String.prefix pat s then Some s
  else match s with
       | EmptyString => None
       | String _ r => from_first pat r
       end.

Definition substring_from_indexOf (s pat : string) : string :=
  match from_first pat s with
  | Some r => r
  | None => s
  end.

(** [self.indexOf(value) === index] over a whole array: keep the first
    occurrence of every value. *)
Fixpoint first_occurrences (seen l : list string) : list string :=
  match l with
  | [] => []
  | v :: r =>
      if List.existsb (String.eqb v) seen then first_occurrences seen r
      else v :: first_occurrences (v :: seen) r
  end.

Section AndroidRobot.

Context {RT : Runtime}.

(** [getAdbPath()], which reads [ANDROID_HOME] *)
Variable adbPath : string.

(** [execFileSync]: what the spawned command prints, or the exception it
    throws, given the commands spawned before it. *)
Variable execFileSync : Trace -> NativeCommand -> Result Buffer.

(** [fast-xml-parser]'s [parser.parse(dump).hierarchy.node] *)
Variable XMLParser_parse : string -> Result UiAutomatorXmlNode.t.

(** [Date.now()], read once by [getDeviceLogs] *)
Variable Date_now : Z.

Variable deviceId : string.

Definition adb (args : list string) : M Buffer :=
  fun t =>
    let command := (adbPath :: "-s" :: deviceId :: args)%list in
    (execFileSync t command, (t ++ [command])%list).

Definition getScreenSize : M ScreenSize.t :=
  let* out := adb ["shell"; "wm"; "size"] in
  let screenSize := List.last (split " " out) "" in
  match screenSize with
  | EmptyString => throw (Error "Failed to get screen size")
  | _ =>
      let fields := List.map Number (split "x" screenSize) in
      ret (ScreenSize.mk (List.nth 0 fields NaN) (List.nth 1 fields NaN) (int 1))
  end.

Definition listApps : M (list InstalledApp) :=
  let* out := adb ["shell"; "cmd"; "package"; "query-activities"; "-a";
              "android.intent.action.MAIN"; "-c"; "android.intent.category.LAUNCHER"] in
  let lines := List.map trim (split LF out) in
  let lines := List.filter (fun line => startsWith line "packageName=") lines in
  let names := List.map (skip (String.length "packageName=")) lines in
  let names := first_occurrences [] names in
  ret (List.map (fun packageName => Build_InstalledApp packageName packageName) names).

Definition launchApp (packageName : string) : M unit :=
  adb ["shell"; "monkey"; "-p"; packageName; "-c";
       "android.intent.category.LAUNCHER"; "1"] ;;
  ret tt.

Definition swipe (direction : string) : M unit :=
  let* screenSize := getScreenSize in
  match swipe_coordinates screenSize direction with
  | inl e => throw e
  | inr (x0, y0, x1, y1) =>
      adb ["shell"; "input"; "swipe"; Number_toString x0; Number_toString y0;
           Number_toString x1; Number_toString y1; "1000"] ;;
      ret tt
  end.

Definition swipeFromCoordinate (x y : number) (direction : string)
  (distance : option number) : M unit :=
  let* screenSize := getScreenSize in
  match swipeFromCoordinate_coordinates screenSize x y direction distance with
  | inl e => throw e
  | inr (x0, y0, x1, y1) =>
      adb ["shell"; "input"; "swipe"; Number_toString x0; Number_toString y0;
           Number_toString x1; Number_toString y1; "1000"] ;;
      ret tt
  end.

Definition getScreenshot : M Buffer :=
  adb ["exec-out"; "screencap"; "-p"].

Fixpoint getUiAutomatorDump_from (tries : nat) : M string :=
  match tries with
  | O => throw (ActionableError "Failed to get UIAutomator XML")
  | S remaining =>
      let* dump := adb ["exec-out"; "uiautomator"; "dump"; "/dev/tty"] in
      if includes dump "null root node returned by UiTestAutomationBridge"
      then getUiAutomatorDump_from remaining
      else ret (substring_from_indexOf dump "<?xml")
  end.

Definition getUiAutomatorDump : M string := getUiAutomatorDump_from 10.

Definition getUiAutomatorXml : M UiAutomatorXmlNode.t :=
  let* dump := getUiAutomatorDump in
  match XMLParser_parse dump with
  | inl e => throw e
  | inr root => ret root
  end.

Definition getElementsOnScreen : M (list ScreenElement.t) :=
  let* root := getUiAutomatorXml in
  ret (collectElements root).

Definition terminateApp (packageName : string) : M unit :=
  adb ["shell"; "am"; "force-stop"; packageName] ;;
  ret tt.

Definition openUrl (url : string) : M unit :=
  adb ["shell"; "am"; "start"; "-a"; "android.intent.action.VIEW"; "-d"; url] ;;
  ret tt.

Definition sendKeys (text : string) : M unit :=
  adb ["shell"; "input"; "text"; escape_spaces text] ;;
  ret tt.

Definition pressButton (button : string) : M unit :=
  match BUTTON_MAP_get button with
  | None => throw (ActionableError ("Button " ++ quote ++ button ++ quote ++ " is not supported"))
  | Some keycode =>
      adb ["shell"; "input"; "keyevent"; keycode] ;;
      ret tt
  end.

Definition tap (x y : number) : M unit :=
  adb ["shell"; "input"; "tap"; Number_toString x; Number_toString y] ;;
  ret tt.

Definition setOrientation (orientation : string) : M unit :=
  let orientationValue := if String.eqb orientation "portrait" then "0" else "1" in
  adb ["shell"; "settings"; "put"; "system"; "accelerometer_rotation"; "0"] ;;
  adb ["shell"; "content"; "insert"; "--uri"; "content://settings/system";
       "--bind"; "name:s:user_rotation"; "--bind"; "value:i:" ++ orientationValue] ;;
  ret tt.

Definition getOrientation : M string :=
  let* out := adb ["shell"; "settings"; "get"; "system"; "user_rotation"] in
  ret (if String.eqb (trim out) "0" then "portrait" else "landscape").

(** [MM-dd HH:mm:ss.mmm] of the instant [ms] (lines 330-339) *)
Definition timeFormat (ms : Z) : string :=
  let startTime := Date_fields ms in
  let month := padStart0 2 (numeral (getMonth startTime + 1)) in
  let day := padStart0 2 (numeral (getDate startTime)) in
  let hours := padStart0 2 (numeral (getHours startTime)) in
  let minutes := padStart0 2 (numeral (getMinutes startTime)) in
  let seconds := padStart0 2 (numeral (getSeconds startTime)) in
  let milliseconds := padStart0 3 (numeral (getMilliseconds startTime)) in
  month ++ "-" ++ day ++ " " ++ hours ++ ":" ++ minutes ++ ":" ++ seconds ++ "." ++ milliseconds.

(** The time arguments of [logcat] (lines 326-343); [timeWindow] is the
    constant of line 294. *)
Definition time_args (timeWindow : string) : list string :=
  match timeWindow with
  | String _ _ =>
      let timeInSeconds := parseTimeWindow timeWindow in
      ["-T"; timeFormat (Date_now - timeInSeconds * 1000)]
  | EmptyString => ["-d"]
  end.

(** [--pid] arguments (lines 345-359) *)
Definition pid_args (packageFilter : option string) : M (list string) :=
  match specific_package packageFilter with
  | Some packageFilter =>
      try_catch
        (let* out := adb ["shell"; "pidof"; packageFilter] in
         let pidOutput := trim out in
         match pidOutput with
         | EmptyString => ret []
         | _ => ret (List.flat_map (fun pid => ["--pid"; pid]) (split_ws pidOutput))
         end)
        (fun error => ret [])
  | None => ret []
  end.

Definition getDeviceLogs (options : option LogOptions.t) : M string :=
  let timeWindow :=
    or_lit (match options with Some o => LogOptions.timeWindow o | None => None end) "1m" in
  let filter := match options with Some o => LogOptions.filter o | None => None end in
  let processFilter := match options with Some o => LogOptions.process o | None => None end in
  let effectiveFilter := effectiveFilter_of filter processFilter in
  let (packageFilter, searchQuery) := parse_filter effectiveFilter in
  let* pids := pid_args packageFilter in
  let args := (["shell"; "logcat"] ++ time_args timeWindow ++ pids)%list in
  let* output := adb args in
  ret (post_process filter packageFilter searchQuery output).

End AndroidRobot.

End Android.

(** ** [server.ts] *)

(** The interface [Robot] of [robot.ts], read off its uses: the methods a
    tool callback calls on the selected device.  The [...Booted] variants
    are optional members. *)
Module Robot.
Record t : Type := mk {
  listApps : M (list InstalledApp);
  listAppsBooted : option (M (list InstalledApp));
  launchApp : string -> M unit;
  launchAppBooted : option (string -> M unit);
  terminateApp : string -> M unit;
  terminateAppBooted : option (string -> M unit);
  getScreenSize : M ScreenSize.t;
  tap : number -> number -> M unit;
  getElementsOnScreen : M (list ScreenElement.t);
  pressButton : string -> M unit;
  openUrl : string -> M unit;
  swipe : string -> M unit;
  swipeFromCoordinate : number -> number -> string -> option number -> M unit;
  sendKeys : string -> M unit;
  getScreenshot : M Buffer;
  getScreenshotBooted : option (M Buffer);
  setOrientation : string -> M unit;
  getOrientation : M string;
  getDeviceLogs : LogOptions.t -> M string
}.
End Robot.

(** [new AndroidRobot(device)] as a [Robot] *)
Definition AndroidRobot {RT : Runtime} (adbPath : string)
  (execFileSync : Trace -> NativeCommand -> Result Buffer)
  (XMLParser_parse : string -> Result UiAutomatorXmlNode.t)
  (Date_now : Z) (deviceId : string) : Robot.t :=
  Robot.mk
    (Android.listApps adbPath execFileSync deviceId)
    None
    (Android.launchApp adbPath execFileSync deviceId)
    None
    (Android.terminateApp adbPath execFileSync deviceId)
    None
    (Android.getScreenSize adbPath execFileSync deviceId)
    (Android.tap adbPath execFileSync deviceId)
    (Android.getElementsOnScreen adbPath execFileSync XMLParser_parse deviceId)
    (Android.pressButton adbPath execFileSync deviceId)
    (Android.openUrl adbPath execFileSync deviceId)
    (Android.swipe adbPath execFileSync deviceId)
    (Android.swipeFromCoordinate adbPath execFileSync deviceId)
    (Android.sendKeys adbPath execFileSync deviceId)
    (Android.getScreenshot adbPath execFileSync deviceId)
    None
    (Android.setOrientation adbPath execFileSync deviceId)
    (Android.getOrientation adbPath execFileSync deviceId)
    (fun options => Android.getDeviceLogs adbPath execFileSync Date_now deviceId (Some options)).

Module Server.

Import Android.

(** The result of a tool call *)
Inductive Content : Type :=
| TextContent (text : string)
| ImageContent (data : string) (mimeType : string).

Record CallToolResult : Type := {
  content : list Content;
  isError : bool
}.

(** [wrappedCb] of the helper [tool] (lines 64-86) *)
Definition wrappedCb (cb : M string) : Trace -> CallToolResult * Trace :=
  fun t =>
    match cb t with
    | (inr response, t') =>
        (Build_CallToolResult [TextContent response] false, t')
    | (inl (ActionableError message), t') =>
        (Build_CallToolResult
           [TextContent (message ++ ". Please fix the issue and try again.")] false, t')
    | (inl (Error message), t') =>
        (Build_CallToolResult [TextContent ("Error: " ++ message)] true, t')
    end.

Definition no_device_selected : exn :=
  ActionableError "No device selected. Use the mobile_use_device tool to select a device.".

(** [requireRobot()]; the model hands the robot to the rest of the callback,
    where the source dereferences [robot!]. *)
Definition requireRobot (robot : option Robot.t) : M Robot.t :=
  match robot with
  | None => throw no_device_selected
  | Some r => ret r
  end.

(** *** The element matcher of [mobile_tap_element] *)

(** [[...].filter(field => field && field.trim() !== "")] *)
Definition searchFields (element : ScreenElement.t) : list string :=
  List.flat_map
    (fun field =>
       match field with
       | Some (String c r) =>
           if negb (String.eqb (trim (String c r)) "") then [String c r] else []
       | _ => []
       end)
    [ScreenElement.text element; ScreenElement.label element;
     ScreenElement.name element; ScreenElement.value element;
     ScreenElement.identifier element].

Definition element_matches (query : string) (element : ScreenElement.t) : bool :=
  List.existsb
    (fun field => includes (toLowerCase field) (toLowerCase query))
    (searchFields element).

(** [e.text || e.label || e.name || e.value || e.identifier] *)
Definition display (e : ScreenElement.t) : option string :=
  or_else (ScreenElement.text e)
    (or_else (ScreenElement.label e)
       (or_else (ScreenElement.name e)
          (or_else (ScreenElement.value e) (ScreenElement.identifier e)))).

(** [rect.x + (rect.width / 2)] and [rect.y + (rect.height / 2)] *)
Definition centerX (rect : ScreenElementRect.t) : number :=
  num_add (ScreenElementRect.x rect) (num_div (ScreenElementRect.width rect) (int 2)).

Definition centerY (rect : ScreenElementRect.t) : number :=
  num_add (ScreenElementRect.y rect) (num_div (ScreenElementRect.height rect) (int 2)).

Definition rect_json (rect : ScreenElementRect.t) : json :=
  JObj [("x", JNum (ScreenElementRect.x rect));
        ("y", JNum (ScreenElementRect.y rect));
        ("width", JNum (ScreenElementRect.width rect));
        ("height", JNum (ScreenElementRect.height rect))].

(** One entry of [matchingElementsJson] (lines 481-493) *)
Definition matchingElementJson (element : ScreenElement.t) : json :=
  JObj [("type", JStr (ScreenElement.type element));
        ("text", JOpt (ScreenElement.text element));
        ("label", JOpt (ScreenElement.label element));
        ("name", JOpt (ScreenElement.name element));
        ("value", JOpt (ScreenElement.value element));
        ("identifier", JOpt (ScreenElement.identifier element));
        ("coordinates",
         JObj [("x", JNum (centerX (ScreenElement.rect element)));
               ("y", JNum (centerY (ScreenElement.rect element)))]);
        ("rect", rect_json (ScreenElement.rect element))].

(** [elements.map(e => e.text || ...).filter(t => t)] *)
Definition available_elements (elements : list ScreenElement.t) : list string :=
  List.flat_map
    (fun e => match display e with
              | Some (String c r) => [String c r]
              | _ => []
              end)
    elements.

Definition interpolate (o : option string) : string :=
  match o with
  | Some s => s
  | None => "undefined"
  end.

Section Tools.

Context {RT : Runtime}.

(** The module-level variable [robot] *)
Variable robot : option Robot.t.

Definition no_element_found (query : string) (elements : list ScreenElement.t) : exn :=
  ActionableError
    ("No element found matching query: " ++ quote ++ query ++ quote ++
     ". Available elements: " ++ join ", " (available_elements elements)).

Definition multiple_elements_found (query : string)
  (matchingElements : list ScreenElement.t) : exn :=
  ActionableError
    ("Multiple elements found matching query: " ++ quote ++ query ++ quote ++
     ". Found " ++ Number_toString (int (Z.of_nat (List.length matchingElements))) ++
     " matches:" ++ String LF EmptyString ++
     JSON_stringify (JArr (List.map matchingElementJson matchingElements)) true).

Definition mobile_tap_element (query : string) : M string :=
  let* r := requireRobot robot in
  let* elements := Robot.getElementsOnScreen r in
  let matchingElements := List.filter (element_matches query) elements in
  match matchingElements with
  | [] => throw (no_element_found query elements)
  | _ :: _ :: _ => throw (multiple_elements_found query matchingElements)
  | [matchingElement] =>
      let centerX := centerX (ScreenElement.rect matchingElement) in
      let centerY := centerY (ScreenElement.rect matchingElement) in
      Robot.tap r centerX centerY ;;
      ret ("Tapped element " ++ quote ++ interpolate (display matchingElement) ++ quote ++
           " at coordinates: " ++ Number_toString centerX ++ ", " ++ Number_toString centerY)
  end.

(** *** The other tool callbacks *)

Definition mobile_list_apps (ios_use_booted : option bool) : M string :=
  let ios_use_booted := match ios_use_booted with Some b => b | None => false end in
  let* r := requireRobot robot in
  let* result := match ios_use_booted, Robot.listAppsBooted r with
    | true, Some listAppsBooted => listAppsBooted
    | _, _ => Robot.listApps r
    end in
  ret ("Found these apps on device: " ++
       join ", " (List.map (fun app => appName app ++ " (" ++ packageName app ++ ")") result)).

Definition mobile_launch_app (packageName : string) (ios_use_booted : option bool) : M string :=
  let ios_use_booted := match ios_use_booted with Some b => b | None => true end in
  let* r := requireRobot robot in
  match ios_use_booted, Robot.launchAppBooted r with
  | true, Some launchAppBooted => launchAppBooted packageName
  | _, _ => Robot.launchApp r packageName
  end ;;
  ret ("Launched app " ++ packageName).

Definition mobile_terminate_app (packageName : string) (ios_use_booted : option bool) : M string :=
  let ios_use_booted := match ios_use_booted with Some b => b | None => true end in
  let* r := requireRobot robot in
  match ios_use_booted, Robot.terminateAppBooted r with
  | true, Some terminateAppBooted => terminateAppBooted packageName
  | _, _ => Robot.terminateApp r packageName
  end ;;
  ret ("Terminated app " ++ packageName).

Definition mobile_get_screen_size : M string :=
  let* r := requireRobot robot in
  let* screenSize := Robot.getScreenSize r in
  ret ("Screen size is " ++ Number_toString (ScreenSize.width screenSize) ++ "x" ++
       Number_toString (ScreenSize.height screenSize) ++ " pixels").

Definition mobile_click_on_screen_at_coordinates (x y : number) : M string :=
  let* r := requireRobot robot in
  Robot.tap r x y ;;
  ret ("Clicked on screen at coordinates: " ++ Number_toString x ++ ", " ++ Number_toString y).

(** One entry of the listing of [mobile_list_elements_on_screen] *)
Definition listedElementJson (element : ScreenElement.t) : json :=
  JObj ([("type", JStr (ScreenElement.type element));
         ("text", JOpt (ScreenElement.text element));
         ("label", JOpt (ScreenElement.label element));
         ("name", JOpt (ScreenElement.name element));
         ("value", JOpt (ScreenElement.value element));
         ("identifier", JOpt (ScreenElement.identifier element));
         ("coordinates", rect_json (ScreenElement.rect element))] ++
        match ScreenElement.focused element with
        | Some true => [("focused", JBool true)]
        | _ => []
        end)%list.

Definition mobile_list_elements_on_screen : M string :=
  let* r := requireRobot robot in
  let* elements := Robot.getElementsOnScreen r in
  let result := List.map listedElementJson elements in
  ret ("Found these elements on screen: " ++ JSON_stringify (JArr result) false).

Definition mobile_press_button (button : string) : M string :=
  let* r := requireRobot robot in
  Robot.pressButton r button ;;
  ret ("Pressed the button: " ++ button).

Definition mobile_open_url (url : string) : M string :=
  let* r := requireRobot robot in
  Robot.openUrl r url ;;
  ret ("Opened URL: " ++ url).

Definition swipe_on_screen (direction : string) (x y distance : option number) : M string :=
  let* r := requireRobot robot in
  match x, y with
  | Some x, Some y =>
      Robot.swipeFromCoordinate r x y direction distance ;;
      let distanceText :=
        match distance with
        | Some d => if truthy_num d then " " ++ Number_toString d ++ " pixels" else ""
        | None => ""
        end in
      ret ("Swiped " ++ direction ++ distanceText ++ " from coordinates: " ++
           Number_toString x ++ ", " ++ Number_toString y)
  | _, _ =>
      Robot.swipe r direction ;;
      ret ("Swiped " ++ direction ++ " on screen")
  end.

Definition mobile_type_keys (text : string) (submit : bool) : M string :=
  let* r := requireRobot robot in
  Robot.sendKeys r text ;;
  (if submit then Robot.pressButton r "ENTER" else ret tt) ;;
  ret ("Typed text: " ++ text).

(** The [try] block of [mobile_take_screenshot] (lines 362-414).  Writing
    the compressed image to [tmpFilename] when [save] is set is a write to
    the local disk and leaves no mark in the trace.  [isImageMagickInstalled]
    and the resizing belong to [./image-utils], which is not among the source
    files: they are members of the runtime, and a program they run is not
    recorded in the trace, which holds the commands of the robot only. *)
Definition take_screenshot (r : Robot.t) (ios_use_booted save : bool) : M CallToolResult :=
  let* screenSize := Robot.getScreenSize r in
  let* screenshot := match ios_use_booted, Robot.getScreenshotBooted r with
    | true, Some getScreenshotBooted => getScreenshotBooted
    | _, _ => Robot.getScreenshot r
    end in
  match PNG_getDimensions screenshot with
  | inl e => throw e
  | inr (pngWidth, pngHeight) =>
      if num_le pngWidth (int 0) || num_le pngHeight (int 0)
      then throw (ActionableError "Screenshot is invalid. Please try again.")
      else
        let resized := isImageMagickInstalled in
        let screenshot :=
          if resized
          then Image_resize_jpeg screenshot
                 (Math_floor (num_div pngWidth (ScreenSize.scale screenSize)))
          else screenshot in
        let mimeType := if resized then "image/jpeg" else "image/png" in
        let savedPath := if resized && save then Some tmpFilename else None in
        let summary :=
          "Screenshot: " ++ Number_toString pngWidth ++ "x" ++ Number_toString pngHeight ++
          "px, " ++ formatBytes (int (Z.of_nat (String.length screenshot))) in
        let textContent :=
          match savedPath with
          | Some path => summary ++ ", saved to: " ++ path
          | None => summary
          end in
        ret (Build_CallToolResult
               [TextContent textContent; ImageContent (Buffer_base64 screenshot) mimeType]
               false)
  end.

(** [mobile_take_screenshot] is registered with [server.tool] directly:
    [requireRobot()] runs before the [try], so its exception leaves the
    callback. *)
Definition mobile_take_screenshot (ios_use_booted save : option bool) : M CallToolResult :=
  let ios_use_booted := match ios_use_booted with Some b => b | None => true end in
  let save := match save with Some b => b | None => false end in
  let* r := requireRobot robot in
  try_catch (take_screenshot r ios_use_booted save)
    (fun err => ret (Build_CallToolResult [TextContent ("Error: " ++ message_of err)] true)).

Definition mobile_set_orientation (orientation : string) : M string :=
  let* r := requireRobot robot in
  Robot.setOrientation r orientation ;;
  ret ("Changed device orientation to " ++ orientation).

Definition mobile_get_orientation : M string :=
  let* r := requireRobot robot in
  let* orientation := Robot.getOrientation r in
  ret ("Current device orientation is " ++ orientation).

Definition mobile_get_log (timeWindow filter : option string) (iosUseBooted : option bool)
  (process : option string) : M string :=
  let* r := requireRobot robot in
  let* logs := Robot.getDeviceLogs r (LogOptions.mk timeWindow filter iosUseBooted process) in
  let filterText :=
    match filter with
    | Some (String c s) => " (filtered by: " ++ String c s ++ ")"
    | _ => ""
    end in
  let processText :=
    match process with
    | Some (String c s) => " (process: " ++ String c s ++ ")"
    | _ => ""
    end in
  let timeText :=
    match timeWindow with
    | Some (String c s) => " from last " ++ String c s
    | _ => ""
    end in
  ret ("Device logs" ++ timeText ++ filterText ++ processText ++ ":" ++
       String LF EmptyString ++ logs).

(** *** The control-interface operations, as one family *)

(** A call of a tool, with its validated arguments. *)
Inductive ToolCall : Type :=
| Call_list_apps (ios_use_booted : option bool)
| Call_launch_app (packageName : string) (ios_use_booted : option bool)
| Call_terminate_app (packageName : string) (ios_use_booted : option bool)
| Call_get_screen_size
| Call_click_on_screen_at_coordinates (x y : number)
| Call_list_elements_on_screen
| Call_press_button (button : string)
| Call_open_url (url : string)
| Call_swipe_on_screen (direction : string) (x y distance : option number)
| Call_type_keys (text : string) (submit : bool)
| Call_take_screenshot (ios_use_booted save : option bool)
| Call_set_orientation (orientation : string)
| Call_get_orientation
| Call_tap_element (query : string)
| Call_get_log (timeWindow filter : option string) (iosUseBooted : option bool)
    (process : option string).

(** The callback registered for a call.  The helper [tool] registers a
    callback that returns a string (left); [mobile_take_screenshot] is
    registered with [server.tool] itself and returns a whole result
    (right). *)
Definition callback_of (c : ToolCall) : M string + M CallToolResult :=
  match c with
  | Call_list_apps b => inl (mobile_list_apps b)
  | Call_launch_app p b => inl (mobile_launch_app p b)
  | Call_terminate_app p b => inl (mobile_terminate_app p b)
  | Call_get_screen_size => inl mobile_get_screen_size
  | Call_click_on_screen_at_coordinates x y => inl (mobile_click_on_screen_at_coordinates x y)
  | Call_list_elements_on_screen => inl mobile_list_elements_on_screen
  | Call_press_button b => inl (mobile_press_button b)
  | Call_open_url u => inl (mobile_open_url u)
  | Call_swipe_on_screen d x y dist => inl (swipe_on_screen d x y dist)
  | Call_type_keys s b => inl (mobile_type_keys s b)
  | Call_take_screenshot b s => inr (mobile_take_screenshot b s)
  | Call_set_orientation o => inl (mobile_set_orientation o)
  | Call_get_orientation => inl mobile_get_orientation
  | Call_tap_element q => inl (mobile_tap_element q)
  | Call_get_log tw f b p => inl (mobile_get_log tw f b p)
  end.

(** Running the callback itself: its value, or the exception it throws. *)
Definition run_callback (c : ToolCall) : M (string + CallToolResult) :=
  match callback_of c with
  | inl cb => let* s := cb in ret (inl s)
  | inr cb => let* res := cb in ret (inr res)
  end.

(** What the MCP server receives: the answer of [wrappedCb] for a callback
    registered through [tool], the callback's own outcome otherwise. *)
Definition call_tool (c : ToolCall) : M CallToolResult :=
  match callback_of c with
  | inl cb => fun t => let (res, t') := wrappedCb cb t in (inr res, t')
  | inr cb => cb
  end.

End Tools.

(** *** The session: the variable [robot] over a sequence of requests *)

(** The [deviceType] of [mobile_use_device] ([z.enum]) *)
Inductive DeviceType : Type :=
| simulator
| ios
| android.

Inductive Request : Type :=
| Use_device (device : string) (deviceType : DeviceType)
| Operate (c : ToolCall).

Section Session.

Context {RT : Runtime}.

(** [simulatorManager.getSimulator], [new IosRobot] and [new AndroidRobot]
    (the last with its environment): the robot for a device name.  The
    first two are not among the source files; they are taken to return a
    robot, so that nothing is said here of a selection that fails. *)
Variable getSimulator : string -> Robot.t.
Variable IosRobot : string -> Robot.t.
Variable newAndroidRobot : string -> Robot.t.

(** The callback of [mobile_use_device]: the robot it assigns and its
    answer *)
Definition mobile_use_device (device : string) (deviceType : DeviceType)
  : Robot.t * string :=
  (match deviceType with
   | simulator => getSimulator device
   | ios => IosRobot device
   | android => newAndroidRobot device
   end,
   "Selected device: " ++ device).

(** One request: the value of [robot] after it, what the MCP server
    receives, and the trace. *)
Definition handle (robot : option Robot.t) (request : Request) (tr : Trace)
  : option Robot.t * Result CallToolResult * Trace :=
  match request with
  | Use_device device deviceType =>
      let (r, response) := mobile_use_device device deviceType in
      (Some r, inr (Build_CallToolResult [TextContent response] false), tr)
  | Operate c =>
      let (res, tr') := call_tool robot c tr in (robot, res, tr')
  end.

(** A sequence of requests, served one after the other (section 5 of the
    specification: each call runs to completion before the next). *)
Fixpoint serve (robot : option Robot.t) (requests : list Request) (tr : Trace)
  : list (Result CallToolResult) * option Robot.t * Trace :=
  match requests with
  | [] => ([], robot, tr)
  | request :: rest =>
      let '(robot', res, tr') := handle robot request tr in
      let '(answers, robot'', tr'') := serve robot' rest tr' in
      (res :: answers, robot'', tr'')
  end.

End Session.

End Server.

(** ** The vocabulary of the specification

    The notions the properties are stated with, written after the words of
    the specification rather than after the code. *)

Module Spec.

Import UiAutomatorXmlNode.

(** *** Strings *)

(** [p] occurs in [s] *)
Definition Contains (s p : string) : Prop := exists a b, s = a ++ p ++ b.

Fixpoint all_chars (f : ascii -> bool) (s : string) : bool :=
  match s with
  | EmptyString => true
  | String c r => f c && all_chars f r
  end.

(** A decimal numeral: one digit or more *)
Definition is_numeral (s : string) : Prop :=
  s <> "" /\ all_chars isDigit s = true.

Definition starts_nondigit (s : string) : bool :=
  match s with
  | EmptyString => true
  | String c _ => negb (isDigit c)
  end.

(** *** Bounds and rectangles *)

(** The text ["[a,b][c,d]"] *)
Definition bounds_text (a b c d : string) : string :=
  "[" ++ a ++ "," ++ b ++ "][" ++ c ++ "," ++ d ++ "]".

(** The bounds text of the rectangle with corners [(a, b)] and [(c, d)] *)
Definition bounds_of (a b c d : N) : string :=
  bounds_text (numeral a) (numeral b) (numeral c) (numeral d).

Definition valid_bounds (node : attributes) : Prop :=
  exists a b c d, is_numeral a /\ is_numeral b /\ is_numeral c /\ is_numeral d /\
    bounds node = Some (bounds_text a b c d).

Definition rect_positive (r : ScreenElementRect.t) : bool :=
  num_gt (ScreenElementRect.width r) (int 0) && num_gt (ScreenElementRect.height r) (int 0).

(** The parsed rectangle of a node has a positive width and a positive
    height. *)
Definition positive_size (node : attributes) : Prop :=
  num_gt (ScreenElementRect.width (Android.getScreenElementRect node)) (int 0) = true /\
  num_gt (ScreenElementRect.height (Android.getScreenElementRect node)) (int 0) = true.

(** The parsed width or height is zero or less. *)
Definition degenerate (node : attributes) : Prop :=
  num_le (ScreenElementRect.width (Android.getScreenElementRect node)) (int 0) = true \/
  num_le (ScreenElementRect.height (Android.getScreenElementRect node)) (int 0) = true.

(** *** The inclusion rule of the Android extractor *)

Definition nonempty_attribute (o : option string) : Prop :=
  exists s, o = Some s /\ s <> "".

Definition has_text_or_label (node : attributes) : Prop :=
  nonempty_attribute (text node) \/ nonempty_attribute (content_desc node) \/
  nonempty_attribute (hint node) \/ nonempty_attribute (resource_id node).

Definition is_interactive (node : attributes) : Prop :=
  clickable node = Some "true" \/ focusable node = Some "true" \/
  exists cls, class node = Some cls /\
    (Contains cls "Button" \/ Contains cls "ImageView" \/
     Contains cls "ImageButton" \/ Contains cls "View").

Definition satisfies_inclusion_rule (node : attributes) : Prop :=
  has_text_or_label node \/ is_interactive node.

(** *** Gestures *)

Definition supported (direction : string) : Prop :=
  direction = "up" \/ direction = "down" \/ direction = "left" \/ direction = "right".

(** [max(0, v)] and [min(m, v)] on rationals *)
Definition at_least_0 (v : Q) : Q := if Qle_bool 0 v then v else 0.
Definition at_most (m v : Q) : Q := if Qle_bool m v then m else v.

(** The distance travelled along a dimension of size [dim]: the distance
    passed, unless it is absent, zero or [NaN]; 30% of the dimension
    then. *)
Definition travel (dim : Q) (distance : option number) : Q :=
  match distance with
  | Some (Num q) => if Qeq_bool q 0 then inject_Z (Qfloor (dim * 0.3)) else q
  | _ => inject_Z (Qfloor (dim * 0.3))
  end.

(** The [input swipe] command from [(x0, y0)] to [(x1, y1)] *)
Definition gesture_command {RT : Runtime} (adbPath deviceId : string)
  (x0 y0 x1 y1 : number) : NativeCommand :=
  [adbPath; "-s"; deviceId; "shell"; "input"; "swipe";
   Number_toString x0; Number_toString y0; Number_toString x1; Number_toString y1;
   "1000"].

(** Spawning [command] after the trace [tr], for its effect only *)
Definition spawn (execFileSync : Trace -> NativeCommand -> Result Buffer)
  (command : NativeCommand) (tr : Trace) : Result unit * Trace :=
  (match execFileSync tr command with
   | inl e => inl e
   | inr _ => inr tt
   end, (tr ++ [command])%list).

(** *** Logs *)

(** The lines the filter [package:mine t] keeps. *)
Definition mine_keeps (t line : string) : bool :=
  negb (includes line "com.android." || includes line "android." || includes line "system_")
  && (includes line "com." || includes line "io." || includes line "net." ||
      includes line "app.")
  && includes (toLowerCase line) (toLowerCase t).

(** The text search of the last stage of the post-processing *)
Definition search_keeps (searchQuery : option string) (line : string) : bool :=
  match searchQuery with
  | Some (String c r) => includes (toLowerCase line) (toLowerCase (String c r))
  | _ => true
  end.

Definition is_unit (u : ascii) : Prop := u = "s"%char \/ u = "m"%char \/ u = "h"%char.

(** The strings of the shape [<integer><s|m|h>] *)
Definition time_window_syntax (timeWindow : string) : Prop :=
  exists ds u, is_numeral ds /\ is_unit u /\ timeWindow = ds ++ String u "".

Definition seconds_per (u : ascii) : Z :=
  if Ascii.eqb u "s" then 1 else if Ascii.eqb u "m" then 60 else 3600.

(** The members of the [options] object, as [getDeviceLogs] reads them *)
Definition option_timeWindow (options : option LogOptions.t) : string :=
  or_lit (match options with Some o => LogOptions.timeWindow o | None => None end) "1m".

Definition option_filter (options : option LogOptions.t) : option string :=
  match options with Some o => LogOptions.filter o | None => None end.

Definition option_process (options : option LogOptions.t) : option string :=
  match options with Some o => LogOptions.process o | None => None end.

(** The [logcat] command with the start time [start], given the [--pid]
    arguments. *)
Definition logcat_command (adbPath deviceId start : string) (pids : list string)
  : NativeCommand :=
  (adbPath :: "-s" :: deviceId :: "shell" :: "logcat" :: "-T" :: start :: pids)%list.

(** *** The element matcher *)

Definition fields_of (e : ScreenElement.t) : list (option string) :=
  [ScreenElement.text e; ScreenElement.label e; ScreenElement.name e;
   ScreenElement.value e; ScreenElement.identifier e].

(** The match as the specification words it: a non-empty field contains
    the query, whatever the case of the letters. *)
Definition claimed_match (query : string) (e : ScreenElement.t) : bool :=
  List.existsb
    (fun field =>
       match field with
       | Some (String c r) => includes (toLowerCase (String c r)) (toLowerCase query)
       | _ => false
       end)
    (fields_of e).

(** The match of the code: the field must moreover not be blank. *)
Definition matches (query : string) (e : ScreenElement.t) : Prop :=
  exists field, In (Some field) (fields_of e) /\ trim field <> "" /\
    Contains (toLowerCase field) (toLowerCase query).

Fixpoint first_nonempty (l : list (option string)) : option string :=
  match l with
  | [] => None
  | Some (String c r) :: _ => Some (String c r)
  | _ :: rest => first_nonempty rest
  end.

(** What [mobile_tap_element] does once the robot has listed [elements],
    by the number of matches: the zero-match error, the tap at the centre of
    the only match, or the multi-match error. *)
Definition tap_outcome {RT : Runtime} (r : Robot.t) (query : string)
  (elements : list ScreenElement.t) (tr : Trace) : Result string * Trace :=
  match List.filter (Server.element_matches query) elements with
  | [] =>
      (inl (ActionableError
              ("No element found matching query: " ++ Android.quote ++ query ++
               Android.quote ++ ". Available elements: " ++
               join ", " (Server.available_elements elements))), tr)
  | [m] =>
      let x := num_add (ScreenElementRect.x (ScreenElement.rect m))
                 (num_div (ScreenElementRect.width (ScreenElement.rect m)) (int 2)) in
      let y := num_add (ScreenElementRect.y (ScreenElement.rect m))
                 (num_div (ScreenElementRect.height (ScreenElement.rect m)) (int 2)) in
      match Robot.tap r x y tr with
      | (inr _, tr') =>
          (inr ("Tapped element " ++ Android.quote ++
                Server.interpolate (Server.display m) ++ Android.quote ++
                " at coordinates: " ++ Number_toString x ++ ", " ++ Number_toString y), tr')
      | (inl e, tr') => (inl e, tr')
      end
  | m :: m' :: rest =>
      (inl (ActionableError
              ("Multiple elements found matching query: " ++ Android.quote ++ query ++
               Android.quote ++ ". Found " ++
               Number_toString (int (Z.of_nat (List.length (m :: m' :: rest)))) ++
               " matches:" ++ String LF "" ++
               JSON_stringify
                 (JArr (List.map Server.matchingElementJson (m :: m' :: rest))) true)),
       tr)
  end.

(** The answer of [wrappedCb] to an actionable error *)
Definition please_fix (e : exn) : Server.CallToolResult :=
  Server.Build_CallToolResult
    [Server.TextContent (message_of e ++ ". Please fix the issue and try again.")] false.

(** What the MCP server receives from a device tool when no device is
    selected: the error as a text answer from a tool registered through
    [tool], the exception itself from [mobile_take_screenshot]. *)
Definition no_device_answer (c : Server.ToolCall) : Result Server.CallToolResult :=
  match c with
  | Server.Call_take_screenshot _ _ => inl Server.no_device_selected
  | _ => inr (please_fix Server.no_device_selected)
  end.

End Spec.

(** ** A runtime and a scripted device for the worked examples *)

Module Examples.

Definition print_Z (z : Z) : string :=
  (if (z <? 0)%Z then "-" else "") ++ numeral (Z.abs_N z).

Fixpoint fraction_digits (fuel : nat) (r den : Z) : string :=
  match fuel with
  | O => EmptyString
  | S k =>
      if (r =? 0)%Z then EmptyString
      else numeral (Z.to_N (r * 10 / den)) ++ fraction_digits k ((r * 10) mod den) den
  end.

(** Integers print as decimal numerals and halves, quarters and the like
    with their decimal fraction, as [String(n)] prints them. *)
Definition print_number (n : number) : string :=
  match n with
  | NaN => "NaN"
  | Num q =>
      let den := Zpos (Qden q) in
      let a := Z.abs (Qnum q) in
      (if (Qnum q <? 0)%Z then "-" else "") ++ numeral (Z.to_N (a / den)) ++
      (if (a mod den =? 0)%Z then "" else "." ++ fraction_digits 17 (a mod den) den)
  end.

(** The examples never look inside a serialised value, an image or a date:
    these members are placeholders. *)
#[local] Instance runtime : Runtime := {|
  Number_toString := print_number;
  JSON_stringify := fun _ _ => "[json]";
  Date_fields := fun _ => Build_DateFields 0 1 0 0 0 0;
  PNG_getDimensions := fun _ => inl (Error "not a PNG");
  isImageMagickInstalled := false;
  Image_resize_jpeg := fun b _ => b;
  tmpFilename := "/tmp/compressed-screenshot.jpg";
  Buffer_base64 := fun b => b;
  formatBytes := fun n => print_number n ++ " B";
  Object_prototype_String := fun name =>
    if String.eqb name "__proto__" then "[object Object]"
    else "function " ++ (if String.eqb name "constructor" then "Object" else name) ++
         "() { [native code] }"
|}.

(** A device that answers [wm size] with [size] and every other command
    with [out]. *)
Definition device (size out : string) : Trace -> NativeCommand -> Result Buffer :=
  fun _ command =>
    if List.existsb (String.eqb "wm") command then inr ("Physical size: " ++ size ++ String LF EmptyString)
    else inr out.

(** An Android robot on that device whose UiAutomator dump parses to
    [root]. *)
Definition robot_on (size out : string) (root : UiAutomatorXmlNode.t) : Robot.t :=
  AndroidRobot "adb" (device size out) (fun _ => inr root) 0 "emulator-5554".

Definition leaf (a : UiAutomatorXmlNode.attributes) : UiAutomatorXmlNode.t :=
  UiAutomatorXmlNode.Node a UiAutomatorXmlNode.Absent.

Definition hierarchy (l : list UiAutomatorXmlNode.attributes) : UiAutomatorXmlNode.t :=
  UiAutomatorXmlNode.Node UiAutomatorXmlNode.no_attributes
    (UiAutomatorXmlNode.Array (List.map leaf l)).

(** A [<node>] as UiAutomator prints it, with every string attribute
    present (empty when unset). *)
Definition widget (class text content_desc resource_id clickable bounds : string)
  : UiAutomatorXmlNode.attributes :=
  UiAutomatorXmlNode.mkAttributes (Some class) (Some text) (Some bounds) None
    (Some "false") (Some clickable) (Some "false") (Some "true") (Some "false")
    (Some "com.example.app") (Some content_desc) (Some resource_id).

(** A labelled box, and one without height *)
Definition box : UiAutomatorXmlNode.attributes :=
  widget "android.widget.TextView" "Hello" "" "" "false" "[0,12][100,200]".

Definition flat_box : UiAutomatorXmlNode.attributes :=
  widget "android.widget.TextView" "Hello" "" "" "false" "[5,5][5,9]".

(** A leaf that carries the attribute [clickable="true"] and nothing else *)
Definition only_clickable : UiAutomatorXmlNode.attributes :=
  UiAutomatorXmlNode.mkAttributes None None None None None (Some "true")
    None None None None None None.

(** A labelled node whose bounds have no height *)
Definition flat_label : UiAutomatorXmlNode.attributes :=
  UiAutomatorXmlNode.mkAttributes (Some "android.widget.TextView") (Some "OK")
    (Some "[0,40][200,40]") None None None None None None None None None.

(** A clickable container as UiAutomator prints it: every text attribute
    empty, [clickable="true"], a class outside the interactive set *)
Definition clickable_leaf : UiAutomatorXmlNode.attributes :=
  widget "android.widget.FrameLayout" "" "" "" "true" "[0,0][48,48]".

(** The screen of the specification's matcher example: a text
    ["Submit Form"] and a button identified as ["submit_button"] *)
Definition submit_screen : UiAutomatorXmlNode.t :=
  hierarchy
    [widget "android.widget.TextView" "Submit Form" "" "" "false" "[0,0][100,50]";
     widget "android.widget.Button" "" "" "submit_button" "true" "[0,60][101,111]"].

(** A screen whose only element has a blank text *)
Definition blank_screen : UiAutomatorXmlNode.t :=
  hierarchy [widget "android.widget.TextView" " " "" "" "false" "[0,200][100,250]"].

(** The two log lines of the specification's example *)
Definition two_lines : string :=
  "com.android.system: ok" ++ String LF "com.example.app: error seen".

(** Two log lines that both mention an error, one of them a system line *)
Definition two_errors : string :=
  "com.android.system: error" ++ String LF "com.example.app: error seen".

Definition mine_error : LogOptions.t :=
  LogOptions.mk None (Some "package:mine error") None None.

(** [getDeviceLogs] on a device that prints [output] *)
Definition logs_of (output : string) (options : option LogOptions.t)
  : Result string * Trace :=
  Android.getDeviceLogs "adb" (device "1080x1920" output) 0 "emulator-5554" options [].

(** [mobile_tap_element] on a device that shows [root] *)
Definition tap_element_on (root : UiAutomatorXmlNode.t) (query : string)
  : Result string * Trace :=
  Server.mobile_tap_element (Some (robot_on "1080x1920" "<?xml" root)) query [].

End Examples.

(** ** [android.ts], continued: the device list *)

Module AndroidDevices.

Definition TAB : ascii := "009"%char.

(** [AndroidDeviceType] *)
Inductive AndroidDeviceType : Type :=
| tv
| mobile.

(** The interface [AndroidDevice] *)
Record AndroidDevice : Type := {
  deviceId : string;
  deviceType : AndroidDeviceType
}.

(** The names read off the output of [adb devices] (lines 463-468): the
    first tab-separated field of every line that is neither the header nor
    blank. *)
Definition device_names (out : string) : list string :=
  List.map (fun line => List.hd EmptyString (split TAB line))
    (List.filter (fun line => negb (String.eqb (trim line) ""))
       (List.filter (fun line => negb (startsWith line "List of devices attached"))
          (split LF out))).

(** The features read off the output of [pm list features] (lines
    75-80) *)
Definition feature_names (out : string) : list string :=
  List.map (skip (String.length "feature:"))
    (List.filter (fun line => startsWith line "feature:")
       (List.map trim (split LF out))).

(** [features.includes(...) || features.includes(...)] (lines 454-458) *)
Definition type_of_features (features : list string) : AndroidDeviceType :=
  if List.existsb (String.eqb "android.software.leanback") features
     || List.existsb (String.eqb "android.hardware.type.television") features
  then tv else mobile.

Section AndroidDeviceManager.

Variable adbPath : string.
Variable execFileSync : Trace -> NativeCommand -> Result Buffer.

(** [AndroidRobot.getSystemFeatures] of the robot for [deviceId] *)
Definition getSystemFeatures (deviceId : string) : M (list string) :=
  let* out := Android.adb adbPath execFileSync deviceId
                ["shell"; "pm"; "list"; "features"] in
  ret (feature_names out).

(** [AndroidRobot.listRunningProcesses]: the ninth field of every line of
    [ps -e] that begins with "u", [undefined] when the line has fewer
    fields *)
Definition listRunningProcesses (deviceId : string) : M (list (option string)) :=
  let* out := Android.adb adbPath execFileSync deviceId ["shell"; "ps"; "-e"] in
  ret (List.map (fun line => List.nth_error (split_ws line) 8)
         (List.filter (fun line => startsWith line "u")
            (List.map trim (split LF out)))).

Definition getDeviceType (name : string) : M AndroidDeviceType :=
  let* features := getSystemFeatures name in
  ret (type_of_features features).

(** [names.map(name => ({deviceId: name, deviceType: this.getDeviceType(name)}))] *)
Fixpoint describe_devices (names : list string) : M (list AndroidDevice) :=
  match names with
  | [] => ret []
  | name :: rest =>
      let* type := getDeviceType name in
      let* devices := describe_devices rest in
      ret (Build_AndroidDevice name type :: devices)
  end.

(** [execFileSync(getAdbPath(), ["devices"])] *)
Definition adb_devices : M Buffer :=
  fun t => (execFileSync t [adbPath; "devices"], (t ++ [[adbPath; "devices"]])%list).

(** The [catch] logs to the console and answers the empty list. *)
Definition getConnectedDevices : M (list AndroidDevice) :=
  try_catch
    (let* out := adb_devices in describe_devices (device_names out))
    (fun error => ret []).

End AndroidDeviceManager.

End AndroidDevices.

(** ** More vocabulary for the properties *)

Module Props.

Import UiAutomatorXmlNode Spec.

(** The shape of an element of the Android extractor: a type, a label, no
    name and no value, no empty identifier, [focused] only when true, and a
    rectangle of whole numbers with its corner on the screen's quadrant and
    a positive width and height. *)
Definition extracted (e : ScreenElement.t) : Prop :=
  ScreenElement.type e <> "" /\
  (exists l, ScreenElement.label e = Some l) /\
  ScreenElement.name e = None /\
  ScreenElement.value e = None /\
  ScreenElement.identifier e <> Some "" /\
  ScreenElement.focused e <> Some false /\
  exists x y w h : Z,
    (0 <= x)%Z /\ (0 <= y)%Z /\ (0 < w)%Z /\ (0 < h)%Z /\
    ScreenElement.rect e = ScreenElementRect.mk (int x) (int y) (int w) (int h).

(** The command of one UiAutomator dump, and the message of its transient
    failure *)
Definition dump_command (adbPath deviceId : string) : NativeCommand :=
  [adbPath; "-s"; deviceId; "exec-out"; "uiautomator"; "dump"; "/dev/tty"].

Definition null_root : string := "null root node returned by UiTestAutomationBridge".

(** Other commands of the robot *)
Definition list_apps_command (adbPath deviceId : string) : NativeCommand :=
  [adbPath; "-s"; deviceId; "shell"; "cmd"; "package"; "query-activities"; "-a";
   "android.intent.action.MAIN"; "-c"; "android.intent.category.LAUNCHER"].

Definition screen_size_command (adbPath deviceId : string) : NativeCommand :=
  [adbPath; "-s"; deviceId; "shell"; "wm"; "size"].

Definition keyevent_command (adbPath deviceId keycode : string) : NativeCommand :=
  [adbPath; "-s"; deviceId; "shell"; "input"; "keyevent"; keycode].

Definition text_command (adbPath deviceId text : string) : NativeCommand :=
  [adbPath; "-s"; deviceId; "shell"; "input"; "text"; Android.escape_spaces text].

Definition pidof_command (adbPath deviceId package : string) : NativeCommand :=
  [adbPath; "-s"; deviceId; "shell"; "pidof"; package].

(** The [--pid] arguments for what [pidof] answered: a pair for every word
    it printed, none when the lookup failed or printed nothing *)
Definition pid_arguments (answer : Result Buffer) : list string :=
  match answer with
  | inr out =>
      List.flat_map (fun pid => ["--pid"; pid])
        match trim out with
        | EmptyString => []
        | printed => split_ws printed
        end
  | inl _ => []
  end.

(** A word: one character or more, none of them white space *)
Definition word (s : string) : Prop :=
  s <> "" /\ Spec.all_chars (fun c => negb (isWhiteSpace c)) s = true.

(** A phrase: text on one line that begins with a visible character *)
Definition phrase (s : string) : Prop :=
  (exists c r, s = String c r /\ isWhiteSpace c = false) /\
  Spec.all_chars (fun c => negb (isLineTerminator c)) s = true.

(** The filter [package:<p>], or [package:<p> <q>] with a text query *)
Definition package_filter (p : string) (query : option string) : string :=
  "package:" ++ p ++ match query with Some q => " " ++ q | None => "" end.

(** The lines the filter [package:<p> <q>] keeps *)
Definition package_keeps (p : string) (query : option string) (line : string) : bool :=
  negb (String.eqb (trim line) "") && includes line p && Spec.search_keeps query line.

(** The lines a text filter keeps *)
Definition text_keeps (query : option string) (line : string) : bool :=
  negb (String.eqb (trim line) "") && Spec.search_keeps query line.

(** [s] is the number [n] written with [width] digits *)
Definition padded (width : nat) (n : N) (s : string) : Prop :=
  String.length s = width /\ Spec.all_chars isDigit s = true /\ decimal s = Some n.

(** The commands of the orientation *)
Definition rotation_lock_command (adbPath deviceId : string) : NativeCommand :=
  [adbPath; "-s"; deviceId; "shell"; "settings"; "put"; "system";
   "accelerometer_rotation"; "0"].

Definition set_rotation_command (adbPath deviceId value : string) : NativeCommand :=
  [adbPath; "-s"; deviceId; "shell"; "content"; "insert"; "--uri";
   "content://settings/system"; "--bind"; "name:s:user_rotation"; "--bind";
   "value:i:" ++ value].

Definition get_rotation_command (adbPath deviceId : string) : NativeCommand :=
  [adbPath; "-s"; deviceId; "shell"; "settings"; "get"; "system"; "user_rotation"].

(** A command sent to the device [deviceId] through [adbPath] *)
Definition addressed (adbPath deviceId : string) (command : NativeCommand) : Prop :=
  exists args, command = (adbPath :: "-s" :: deviceId :: args)%list.

(** The trace [t'] is [t] followed by commands that all satisfy [P]. *)
Definition extends_with (P : NativeCommand -> Prop) (t t' : Trace) : Prop :=
  exists commands, t' = (t ++ commands)%list /\ List.Forall P commands.

(** A computation that keeps the commands spawned before it and spawns
    only commands that satisfy [P] *)
Definition only_spawns {A : Type} (P : NativeCommand -> Prop) (m : M A) : Prop :=
  forall t, extends_with P t (snd (m t)).

Definition ps_command (adbPath deviceId : string) : NativeCommand :=
  [adbPath; "-s"; deviceId; "shell"; "ps"; "-e"].

(** The blanks between two columns of a table: white space, on one line *)
Definition gap (s : string) : Prop :=
  s <> "" /\ Spec.all_chars isWhiteSpace s = true /\
  Spec.all_chars (fun c => negb (Ascii.eqb c LF)) s = true.

(** A row of a table: the first column, then every other column behind
    its blanks *)
Fixpoint columns (first : string) (others : list (string * string)) : string :=
  match others with
  | [] => first
  | (blank, column) :: others => first ++ blank ++ columns column others
  end.

Definition row_text (row : string * list (string * string)) : string :=
  columns (fst row) (snd row).

Definition row_columns (row : string * list (string * string)) : list string :=
  (fst row :: List.map snd (snd row))%list.

(** Every column of the row is a word and every gap a gap *)
Definition well_formed_row (row : string * list (string * string)) : Prop :=
  word (fst row) /\ List.Forall (fun bc => gap (fst bc) /\ word (snd bc)) (snd row).


(** The commands of the device list *)
Definition devices_command (adbPath : string) : NativeCommand := [adbPath; "devices"].

Definition features_command (adbPath deviceId : string) : NativeCommand :=
  [adbPath; "-s"; deviceId; "shell"; "pm"; "list"; "features"].

(** The keys of [BUTTON_MAP] *)
Definition supported_buttons : list string :=
  ["BACK"; "HOME"; "VOLUME_UP"; "VOLUME_DOWN"; "ENTER";
   "DPAD_CENTER"; "DPAD_UP"; "DPAD_DOWN"; "DPAD_LEFT"; "DPAD_RIGHT"].

(** The answer of a tool to an exception that is not actionable *)
Definition failed (message : string) : Server.CallToolResult :=
  Server.Build_CallToolResult [Server.TextContent ("Error: " ++ message)] true.

(** The answer of [wrappedCb] to an exception *)
Definition reported (e : exn) : Server.CallToolResult :=
  match e with
  | ActionableError message =>
      Server.Build_CallToolResult
        [Server.TextContent (message ++ ". Please fix the issue and try again.")] false
  | Error message => failed message
  end.

(** The answer of a tool that returned [response] *)
Definition answered (response : string) : Server.CallToolResult :=
  Server.Build_CallToolResult [Server.TextContent response] false.

End Props.

(** ** More devices for the examples *)

Module Emulators.

(** A device that stores the rotation: asked for it, it answers what the
    last command inserted. *)
Definition rotating : Trace -> NativeCommand -> Result Buffer :=
  fun t command =>
    if List.existsb (String.eqb "get") command
    then inr (skip 8 (List.last (List.last t []) "") ++ String LF "")
    else inr "".

(** A device that answers every command with [out] *)
Definition answering (out : string) : Trace -> NativeCommand -> Result Buffer :=
  fun _ _ => inr out.

(** Two rows of the table of [ps -e]: the header and an application *)
Definition process_table : list (string * list (string * string)) :=
  [("USER", [("  ", "PID"); (" ", "PPID"); (" ", "VSZ"); (" ", "RSS"); (" ", "WCHAN");
             (" ", "ADDR"); (" ", "S"); (" ", "NAME")]);
   ("u0_a123", [(" ", "4242"); ("   ", "812"); (" ", "14036"); (" ", "9000"); (" ", "0");
                (" ", "0"); (" ", "S"); (" ", "com.example.app")])].

End Emulators.

(* ================================================================== *)
(** * Part II: properties                                              *)
(* ================================================================== *)

Import UiAutomatorXmlNode Android Server Spec.

(** ** Strings *)

Lemma append_assoc (a b c : string) : (a ++ b) ++ c = a ++ (b ++ c).
Proof. induction a; simpl; congruence. Qed.

Lemma append_cancel_l (a x y : string) : a ++ x = a ++ y -> x = y.
Proof. induction a; simpl; [auto | intros [= H]; auto]. Qed.

Lemma prefix_spec (p s : string) :
  String.prefix p s = true <-> exists r, s = p ++ r.
Proof.
  revert s; induction p as [|c p IH]; intros s; simpl.
  - split; [intros _; exists s; reflexivity | intros _; destruct s; reflexivity].
  - destruct s as [|c' s]; [split; [discriminate | intros [r H]; discriminate]|].
    simpl. destruct (ascii_dec c c') as [->|Hne].
    + rewrite IH. split; intros [r H]; exists r; [now rewrite H | now injection H].
    + split; [discriminate | intros [r H]; injection H; congruence].
Qed.

Lemma prefix_app (p r : string) : String.prefix p (p ++ r) = true.
Proof. apply prefix_spec. now exists r. Qed.

Lemma includes_nil (p : string) : includes "" p = String.prefix p "".
Proof. unfold includes. apply orb_false_r. Qed.

Lemma includes_cons (c : ascii) (s p : string) :
  includes (String c s) p = String.prefix p (String c s) || includes s p.
Proof. reflexivity. Qed.

(** [includes] decides the substring relation. *)
Lemma includes_spec (s p : string) : includes s p = true <-> Contains s p.
Proof.
  unfold Contains.
  induction s as [|c s IH]; [rewrite includes_nil | rewrite includes_cons].
  - rewrite prefix_spec. split.
    + intros [r H]. exists "", r. exact H.
    + intros [a [b H]]. destruct a; [exists b; exact H | discriminate].
  - rewrite orb_true_iff, prefix_spec, IH. split.
    + intros [[r H] | [a [b H]]].
      * exists "", r. exact H.
      * exists (String c a), b. simpl. now rewrite H.
    + intros [a [b H]]. destruct a as [|c' a].
      * left. exists b. exact H.
      * right. exists a, b. simpl in H. now injection H.
Qed.

Lemma includes_empty (s : string) : includes s "" = true.
Proof. apply includes_spec. exists "", s. reflexivity. Qed.

Lemma all_chars_app (f : ascii -> bool) (a b : string) :
  all_chars f (a ++ b) = all_chars f a && all_chars f b.
Proof. induction a; simpl; [reflexivity | now rewrite IHa, andb_assoc]. Qed.

Lemma trimEnd_empty (s : string) :
  trimEnd s = "" <-> all_chars isWhiteSpace s = true.
Proof.
  induction s as [|c s IH]; simpl; [tauto|].
  destruct (trimEnd s) eqn:E.
  - destruct (isWhiteSpace c); simpl; [tauto | split; discriminate].
  - split; [discriminate|]. rewrite andb_true_iff. intros [_ H].
    apply IH in H. discriminate.
Qed.

Lemma trimStart_all_ws (s : string) :
  all_chars isWhiteSpace (trimStart s) = all_chars isWhiteSpace s.
Proof.
  induction s as [|c s IH]; simpl; [reflexivity|].
  destruct (isWhiteSpace c) eqn:E; simpl; [exact IH | now rewrite E].
Qed.

(** A string trims to the empty string exactly when it is blank. *)
Lemma trim_empty (s : string) :
  trim s = "" <-> all_chars isWhiteSpace s = true.
Proof. unfold trim. now rewrite trimEnd_empty, trimStart_all_ws. Qed.

(** A blank string has no substring with a visible character. *)
Lemma blank_not_includes (s p : string) :
  all_chars isWhiteSpace s = true -> all_chars isWhiteSpace p = false ->
  includes s p = false.
Proof.
  intros Hs Hp. destruct (includes s p) eqn:E; [|reflexivity].
  apply includes_spec in E. destruct E as [a [b ->]].
  rewrite !all_chars_app, Hp, andb_false_r in Hs. simpl in Hs. discriminate.
Qed.

Lemma skip_app (p r : string) : skip (String.length p) (p ++ r) = r.
Proof. induction p; simpl; auto. Qed.

Lemma replace_eq (s pat rep : string) :
  replace s pat rep =
  if String.prefix pat s then rep ++ skip (String.length pat) s
  else match s with
       | EmptyString => EmptyString
       | String c r => String c (replace r pat rep)
       end.
Proof. destruct s; reflexivity. Qed.

Lemma replace_prefix (p r rep : string) : replace (p ++ r) p rep = rep ++ r.
Proof. now rewrite replace_eq, prefix_app, skip_app. Qed.

Lemma truthy_iff (o : option string) : truthy o = true <-> nonempty_attribute o.
Proof.
  unfold nonempty_attribute. destruct o as [[|c s]|]; simpl; split;
    try discriminate; try (intros (s' & [= <-] & H); congruence);
    try (intros (s' & H & _); discriminate).
  intros _. exists (String c s). split; [reflexivity | discriminate].
Qed.

Lemma strict_eq_iff (o : option string) (lit : string) :
  strict_eq o lit = true <-> o = Some lit.
Proof.
  destruct o as [s|]; simpl; [|split; discriminate].
  rewrite String.eqb_eq. split; [now intros -> | now intros [= ->]].
Qed.

Lemma filter_filter {A : Type} (f g : A -> bool) (l : list A) :
  List.filter f (List.filter g l) = List.filter (fun x => g x && f x) l.
Proof.
  induction l as [|x l IH]; simpl; [reflexivity|].
  destruct (g x); simpl; [destruct (f x)|]; now rewrite IH.
Qed.

Lemma filter_true {A : Type} (l : list A) : List.filter (fun _ => true) l = l.
Proof. induction l; simpl; congruence. Qed.

(** ** Digit strings and numerals *)

Lemma span_digits_app (ds rest : string) :
  all_chars isDigit ds = true -> starts_nondigit rest = true ->
  span_digits (ds ++ rest) = (ds, rest).
Proof.
  intros Hds Hrest. induction ds as [|c ds IH]; simpl in *.
  - destruct rest as [|c r]; [reflexivity|]. simpl in *.
    now destruct (isDigit c).
  - apply andb_true_iff in Hds. destruct Hds as [Hc Hds].
    now rewrite Hc, (IH Hds).
Qed.

Lemma span_digits_sound (s d r : string) :
  span_digits s = (d, r) ->
  s = d ++ r /\ all_chars isDigit d = true /\ starts_nondigit r = true.
Proof.
  revert d r. induction s as [|c s IH]; intros d r; simpl.
  - intros [= <- <-]. now repeat split.
  - destruct (isDigit c) eqn:Hc.
    + destruct (span_digits s) as [d' r'] eqn:E. intros [= <- <-].
      destruct (IH d' r' eq_refl) as (-> & Hd & Hr). simpl. rewrite Hc. now repeat split.
    + intros [= <- <-]. simpl. rewrite Hc. now repeat split.
Qed.

Lemma digits1_app (ds rest : string) :
  ds <> "" -> all_chars isDigit ds = true -> starts_nondigit rest = true ->
  digits1 (ds ++ rest) = Some (ds, rest).
Proof.
  intros Hne Hds Hrest. unfold digits1. rewrite span_digits_app by assumption.
  destruct ds; [contradiction | reflexivity].
Qed.

Lemma digits1_sound (s d r : string) :
  digits1 s = Some (d, r) ->
  s = d ++ r /\ d <> "" /\ all_chars isDigit d = true /\ starts_nondigit r = true.
Proof.
  unfold digits1. destruct (span_digits s) as [d' r'] eqn:E.
  destruct d' as [|c d']; [discriminate|]. intros [= <- <-].
  destruct (span_digits_sound _ _ _ E) as (H1 & H2 & H3). now repeat split.
Qed.

Lemma string_of_uint_digits (u : Decimal.uint) :
  all_chars isDigit (NilEmpty.string_of_uint u) = true.
Proof. induction u; simpl; auto. Qed.

Lemma numeral_nonempty (n : N) : numeral n <> "".
Proof.
  unfold numeral. destruct n as [|p]; [discriminate|].
  simpl. pose proof (DecimalPos.Unsigned.to_uint_nonnil p) as H.
  destruct (Pos.to_uint p); [contradiction | discriminate ..].
Qed.

Lemma is_numeral_numeral (n : N) : is_numeral (numeral n).
Proof. split; [apply numeral_nonempty | apply string_of_uint_digits]. Qed.

(** Reading back the numeral of [n] gives [n]. *)
Lemma decimal_numeral (n : N) : decimal (numeral n) = Some n.
Proof.
  unfold decimal, numeral. now rewrite NilEmpty.usu, DecimalN.Unsigned.of_to.
Qed.

Lemma Number_of_digits_numeral (n : N) : Number_of_digits (numeral n) = int (Z.of_N n).
Proof. unfold Number_of_digits. now rewrite decimal_numeral. Qed.

(** ** Numbers *)

Lemma wrap32_small (z : Z) : (0 <= z < 2 ^ 31)%Z -> wrap32 z = z.
Proof.
  intros H. unfold wrap32. rewrite Z.mod_small by lia.
  destruct (Z.ltb_spec z (2 ^ 31)); lia.
Qed.

Lemma truncate_int (z : Z) : truncate (inject_Z z) = z.
Proof.
  unfold truncate. destruct (Qle_bool 0 (inject_Z z)).
  - apply Qfloor_Z.
  - apply Qceiling_Z.
Qed.

(** On a non-negative 32-bit integer, [>> 1] halves. *)
Lemma shr_1_int (z : Z) : (0 <= z < 2 ^ 31)%Z -> shr (int z) 1 = int (z / 2).
Proof.
  intros H. unfold shr, ToInt32, int.
  rewrite truncate_int, wrap32_small by exact H.
  now rewrite Z.shiftr_div_pow2 by lia.
Qed.

(** The floor of a fraction of an integer *)
Lemma floor_fraction (z : Z) (p : Z) (q : positive) :
  Math_floor (num_mul (int z) (Num (p # q))) = int (z * p / Zpos q).
Proof. reflexivity. Qed.

Lemma percent_80 (z : Z) : (z * 80 / 100 = z * 4 / 5)%Z.
Proof.
  replace (z * 80)%Z with ((z * 4) * 20)%Z by lia.
  replace 100%Z with (5 * 20)%Z by lia.
  now rewrite Z.div_mul_cancel_r by lia.
Qed.

Lemma percent_20 (z : Z) : (z * 20 / 100 = z / 5)%Z.
Proof.
  replace 100%Z with (5 * 20)%Z by lia.
  now rewrite Z.div_mul_cancel_r by lia.
Qed.

Lemma percent_50 (z : Z) : (z * 50 / 100 = z / 2)%Z.
Proof.
  replace 100%Z with (2 * 50)%Z by lia.
  now rewrite Z.div_mul_cancel_r by lia.
Qed.

Lemma num_gt_sub_int (c a : Z) :
  num_gt (num_sub (int c) (int a)) (int 0) = (a <? c)%Z.
Proof.
  unfold num_gt, num_sub, int, Qle_bool. simpl.
  rewrite Z.ltb_antisym. f_equal.
  destruct (Z.leb_spec c a), (Z.leb_spec ((c * 1 + - a * 1) * 1) 0); auto; lia.
Qed.

(** The difference of two integers, computed on rationals, is their integer
    difference. *)
Lemma sub_int (c a : Z) : (inject_Z c - inject_Z a == inject_Z (c - a))%Q.
Proof. unfold Qeq. simpl. lia. Qed.

Lemma Math_max_0 (v : Q) : Math_max (int 0) (Num v) = Num (at_least_0 v).
Proof.
  unfold Math_max, at_least_0, int. change (inject_Z 0) with 0%Q.
  now destruct (Qle_bool 0 v).
Qed.

Lemma Math_min_Num (m v : Q) : Math_min (Num m) (Num v) = Num (at_most m v).
Proof. unfold Math_min, at_most. now destruct (Qle_bool m v). Qed.

Lemma at_least_0_nonneg (v : Q) : (0 <= at_least_0 v)%Q.
Proof.
  unfold at_least_0. destruct (Qle_bool 0 v) eqn:E.
  - now apply Qle_bool_iff.
  - apply Qle_refl.
Qed.

Lemma at_most_le (m v : Q) : (at_most m v <= m)%Q.
Proof.
  unfold at_most. destruct (Qle_bool m v) eqn:E.
  - apply Qle_refl.
  - apply Qnot_lt_le. intros H. apply Qlt_le_weak in H.
    apply Qle_bool_iff in H. congruence.
Qed.

Lemma at_least_0_le (m v : Q) : (0 <= m)%Q -> (v <= m)%Q -> (at_least_0 v <= m)%Q.
Proof. unfold at_least_0. now destruct (Qle_bool 0 v). Qed.

Lemma at_most_nonneg (m v : Q) : (0 <= m)%Q -> (0 <= v)%Q -> (0 <= at_most m v)%Q.
Proof. unfold at_most. now destruct (Qle_bool m v). Qed.

(** ** Bounds strings *)

Lemma match_bounds_text (a b c d : string) :
  is_numeral a -> is_numeral b -> is_numeral c -> is_numeral d ->
  match_bounds (bounds_text a b c d) = Some (a, b, c, d).
Proof.
  intros [Ha Ha'] [Hb Hb'] [Hc Hc'] [Hd Hd'].
  unfold match_bounds, bounds_text. simpl.
  rewrite (digits1_app a) by (auto; reflexivity). simpl.
  rewrite (digits1_app b) by (auto; reflexivity). simpl.
  rewrite (digits1_app c) by (auto; reflexivity). simpl.
  rewrite (digits1_app d) by (auto; reflexivity). reflexivity.
Qed.

Lemma expect_sound (c : ascii) (s r : string) :
  expect c s = Some r -> s = String c r.
Proof.
  destruct s as [|c' s]; simpl; [discriminate|].
  destruct (Ascii.eqb_spec c' c) as [->|]; [now intros [= ->] | discriminate].
Qed.

(** Only texts of the shape ["[a,b][c,d]"] match. *)
Lemma match_bounds_sound (s a b c d : string) :
  match_bounds s = Some (a, b, c, d) ->
  s = bounds_text a b c d /\ is_numeral a /\ is_numeral b /\ is_numeral c /\ is_numeral d.
Proof.
  unfold match_bounds.
  destruct (expect "[" s) as [s1|] eqn:E1; [|discriminate].
  destruct (digits1 s1) as [[l s2]|] eqn:E2; [|discriminate].
  destruct (expect "," s2) as [s3|] eqn:E3; [|discriminate].
  destruct (digits1 s3) as [[t s4]|] eqn:E4; [|discriminate].
  destruct (expect "]" s4) as [s5|] eqn:E5; [|discriminate].
  destruct (expect "[" s5) as [s6|] eqn:E6; [|discriminate].
  destruct (digits1 s6) as [[r s7]|] eqn:E7; [|discriminate].
  destruct (expect "," s7) as [s8|] eqn:E8; [|discriminate].
  destruct (digits1 s8) as [[bt s9]|] eqn:E9; [|discriminate].
  destruct (expect "]" s9) as [[|? ?]|] eqn:E10; try discriminate.
  intros [= <- <- <- <-].
  apply expect_sound in E1, E3, E5, E6, E8, E10.
  apply digits1_sound in E2, E4, E7, E9.
  destruct E2 as (-> & ? & ? & _), E4 as (-> & ? & ? & _),
           E7 as (-> & ? & ? & _), E9 as (-> & ? & ? & _).
  subst. unfold bounds_text, is_numeral. simpl.
  repeat split; auto.
Qed.

(** ** [getScreenElementRect] *)

Lemma getScreenElementRect_bounds_of (node : attributes) (a b c d : N) :
  bounds node = Some (bounds_of a b c d) ->
  getScreenElementRect node =
  ScreenElementRect.mk (int (Z.of_N a)) (int (Z.of_N b))
    (num_sub (int (Z.of_N c)) (int (Z.of_N a)))
    (num_sub (int (Z.of_N d)) (int (Z.of_N b))).
Proof.
  intros H. unfold getScreenElementRect. rewrite H. unfold bounds_of.
  rewrite match_bounds_text by apply is_numeral_numeral.
  now rewrite !Number_of_digits_numeral.
Qed.

Lemma getScreenElementRect_invalid (node : attributes) :
  match_bounds (match bounds node with Some s => s | None => "undefined" end) = None ->
  getScreenElementRect node = ScreenElementRect.mk NaN NaN NaN NaN.
Proof. intros H. unfold getScreenElementRect. now rewrite H. Qed.

Lemma invalid_bounds_no_match (node : attributes) :
  ~ valid_bounds node ->
  match_bounds (match bounds node with Some s => s | None => "undefined" end) = None.
Proof.
  intros Hinv.
  destruct (match_bounds _) as [[[[a b] c] d]|] eqn:E; [|reflexivity].
  exfalso. apply match_bounds_sound in E. destruct E as (E & Ha & Hb & Hc & Hd).
  destruct (bounds node) as [s|] eqn:Eb; [|discriminate].
  apply Hinv. exists a, b, c, d. rewrite Eb, E. auto.
Qed.

Lemma rect_positive_iff (node : attributes) :
  rect_positive (getScreenElementRect node) = true <-> positive_size node.
Proof. unfold rect_positive, positive_size. now rewrite andb_true_iff. Qed.

Lemma not_positive_size (node : attributes) :
  ~ valid_bounds node \/ degenerate node -> ~ positive_size node.
Proof.
  intros [Hinv | Hdeg] [Hw Hh].
  - apply invalid_bounds_no_match in Hinv.
    rewrite (getScreenElementRect_invalid _ Hinv) in Hw. discriminate.
  - unfold degenerate, num_le, num_gt in *.
    destruct (ScreenElementRect.width (getScreenElementRect node)),
             (ScreenElementRect.height (getScreenElementRect node));
      simpl in *; try discriminate.
    destruct Hdeg as [H|H]; rewrite H in *; discriminate.
Qed.

(** ** [collectElements] *)

Lemma own_elements_eq (node : attributes) :
  own_elements node =
  if (hasTextOrLabel node || isInteractive node) && rect_positive (getScreenElementRect node)
  then [element_of node] else [].
Proof.
  unfold own_elements, rect_positive, element_of. simpl.
  now destruct (hasTextOrLabel node || isInteractive node).
Qed.

(** Induction on a dump: a node with no child, with one child, with an
    array of children. *)
Lemma node_induction (P : UiAutomatorXmlNode.t -> Prop) :
  (forall a, P (Node a Absent)) ->
  (forall a c, P c -> P (Node a (Single c))) ->
  (forall a cs, Forall P cs -> P (Node a (Array cs))) ->
  forall n, P n.
Proof.
  intros P_absent P_single P_array.
  fix IH 1. intros [a [|c|cs]].
  - apply P_absent.
  - apply P_single, IH.
  - apply P_array. induction cs as [|c cs IHcs]; constructor.
    + apply IH.
    + exact IHcs.
Qed.

(** The output is the concatenation, in post-order, of what each node
    pushes for itself. *)
Lemma collectElements_postorder (root : UiAutomatorXmlNode.t) :
  collectElements root = List.flat_map own_elements (postorder root).
Proof.
  induction root as [a | a c IH | a cs IH] using node_induction; simpl.
  - now rewrite List.app_nil_r.
  - rewrite flat_map_app, IH. simpl. now rewrite List.app_nil_r.
  - rewrite flat_map_app. simpl. rewrite List.app_nil_r. f_equal.
    induction IH as [| c cs Hc _ IHcs]; simpl; [reflexivity|].
    now rewrite flat_map_app, Hc, IHcs.
Qed.

Lemma in_collectElements (root : UiAutomatorXmlNode.t) (e : ScreenElement.t) :
  In e (collectElements root) <->
  exists node, In node (postorder root) /\
    (hasTextOrLabel node || isInteractive node) = true /\
    rect_positive (getScreenElementRect node) = true /\
    e = element_of node.
Proof.
  rewrite collectElements_postorder, in_flat_map. split.
  - intros (node & Hin & He). exists node. rewrite own_elements_eq in He.
    destruct (hasTextOrLabel node || isInteractive node); [|contradiction].
    destruct (rect_positive (getScreenElementRect node)); [|contradiction].
    destruct He as [<-|[]]. auto.
  - intros (node & Hin & Hi & Hr & ->). exists node. split; [exact Hin|].
    rewrite own_elements_eq, Hi, Hr. now left.
Qed.

(** Every element of the output has a positive width and a positive
    height. *)
Lemma collectElements_positive (root : UiAutomatorXmlNode.t) (e : ScreenElement.t) :
  In e (collectElements root) -> rect_positive (ScreenElement.rect e) = true.
Proof.
  rewrite in_collectElements. intros (node & _ & _ & Hr & ->). exact Hr.
Qed.

Lemma excluded_own (node : attributes) :
  ~ positive_size node -> own_elements node = [].
Proof.
  intros H. rewrite own_elements_eq.
  destruct (rect_positive (getScreenElementRect node)) eqn:E.
  - apply rect_positive_iff in E. contradiction.
  - now rewrite andb_false_r.
Qed.

Lemma excluded_everywhere (node : attributes) (root : UiAutomatorXmlNode.t) :
  ~ positive_size node -> ~ In (element_of node) (collectElements root).
Proof.
  intros H Hin. apply collectElements_positive in Hin.
  apply H. now apply rect_positive_iff.
Qed.

(** The tests of the code decide the inclusion rule of the specification. *)
Lemma hasTextOrLabel_iff (node : attributes) :
  hasTextOrLabel node = true <-> has_text_or_label node.
Proof.
  unfold hasTextOrLabel, has_text_or_label.
  rewrite !orb_true_iff, !truthy_iff. tauto.
Qed.

Lemma isInteractive_iff (node : attributes) :
  isInteractive node = true <-> is_interactive node.
Proof.
  unfold isInteractive, is_interactive.
  rewrite !orb_true_iff, !strict_eq_iff.
  assert (Hcls :
    match class node with
    | Some (String c r) =>
        includes (String c r) "Button" || includes (String c r) "ImageView" ||
        includes (String c r) "ImageButton" || includes (String c r) "View"
    | _ => false
    end = true <->
    exists cls, class node = Some cls /\
      (Contains cls "Button" \/ Contains cls "ImageView" \/
       Contains cls "ImageButton" \/ Contains cls "View")).
  { destruct (class node) as [[|c r]|].
    - split; [discriminate|]. intros (cls & [= <-] & H). unfold Contains in H.
      destruct H as [H|[H|[H|H]]]; destruct H as ([|? ?] & b & H); discriminate.
    - rewrite !orb_true_iff, !includes_spec. split.
      + intros H. exists (String c r). split; [reflexivity | tauto].
      + intros (cls & [= <-] & H). tauto.
    - split; [discriminate | intros (cls & H & _); discriminate]. }
  tauto.
Qed.

Lemma inclusion_rule_iff (node : attributes) :
  hasTextOrLabel node || isInteractive node = true <-> satisfies_inclusion_rule node.
Proof.
  unfold satisfies_inclusion_rule.
  now rewrite orb_true_iff, hasTextOrLabel_iff, isInteractive_iff.
Qed.

(** C3 as stated does not hold: a node that satisfies the inclusion rule is
    left out of the flat output when its bounds are missing (a leaf that
    carries only [clickable="true"]) or enclose no area (a labelled node
    with bounds [[0,40][200,40]]). *)
Lemma inclusion_rule_alone_counterexample :
  (satisfies_inclusion_rule Examples.only_clickable /\
   collectElements (Examples.leaf Examples.only_clickable) = []) /\
  (satisfies_inclusion_rule Examples.flat_label /\
   collectElements (Examples.leaf Examples.flat_label) = []).
Proof.
  split; split; try reflexivity.
  - right. left. reflexivity.
  - left. left. exists "OK". split; [reflexivity | discriminate].
Qed.

(** C3, amended: an element is in the flat output of the Android extractor
    if and only if it is the element of a node of the dump that satisfies
    the inclusion rule (a non-empty text, content-desc, hint or resource-id,
    or [clickable="true"], [focusable="true"] or a class name containing
    "Button", "ImageView", "ImageButton" or "View") and whose bounds parse to
    a rectangle of positive width and height; a tree of one leaf whose only
    mark is [clickable="true"], with valid bounds, yields that leaf, with a
    zero-length text. *)
Theorem collectElements_inclusion (root : UiAutomatorXmlNode.t) (e : ScreenElement.t) :
  (In e (collectElements root) <->
   exists node, In node (postorder root) /\ satisfies_inclusion_rule node /\
     positive_size node /\ e = element_of node) /\
  collectElements (Examples.leaf Examples.clickable_leaf) =
    [element_of Examples.clickable_leaf] /\
  ScreenElement.text (element_of Examples.clickable_leaf) = Some "".
Proof.
  split; [|split; reflexivity].
  rewrite in_collectElements. split.
  - intros (node & Hin & Hi & Hr & ->). exists node.
    rewrite <- inclusion_rule_iff, <- rect_positive_iff. auto.
  - intros (node & Hin & Hi & Hr & ->). exists node.
    rewrite inclusion_rule_iff, rect_positive_iff. auto.
Qed.

(** The labelled box is in the output of the dump that holds it. *)
Lemma collectElements_inclusion_witness :
  In (element_of Examples.box)
     (collectElements (Examples.hierarchy [Examples.only_clickable; Examples.box])).
Proof.
  apply (proj1 (collectElements_inclusion
                  (Examples.hierarchy [Examples.only_clickable; Examples.box])
                  (element_of Examples.box))).
  exists Examples.box. split; [|split; [|split]].
  - simpl. right. left. reflexivity.
  - left. left. exists "Hello". split; [reflexivity | discriminate].
  - split; reflexivity.
  - reflexivity.
Defined.

(** C4: for every bounds string "[a,b][c,d]" with c>a and d>b the parsed
    rectangle has x=a, y=b, width=c-a and height=d-b (and a positive size);
    a node whose bounds string is invalid, or whose parsed width or height
    is zero or less, pushes no element and its element is in the output of
    no dump, whether or not it satisfies the inclusion rule. *)
Theorem bounds_rect_and_exclusion
  (node : attributes) (a b c d : N) (root : UiAutomatorXmlNode.t) :
  (bounds node = Some (bounds_of a b c d) -> (a < c)%N -> (b < d)%N ->
   getScreenElementRect node =
     ScreenElementRect.mk (int (Z.of_N a)) (int (Z.of_N b))
       (Num (inject_Z (Z.of_N c) - inject_Z (Z.of_N a)))
       (Num (inject_Z (Z.of_N d) - inject_Z (Z.of_N b))) /\
   positive_size node) /\
  (~ valid_bounds node \/ degenerate node ->
   own_elements node = [] /\ ~ In (element_of node) (collectElements root)).
Proof.
  split.
  - intros Hb Hac Hbd. pose proof (getScreenElementRect_bounds_of _ _ _ _ _ Hb) as E.
    split; [exact E|]. unfold positive_size. rewrite E.
    cbn [ScreenElementRect.width ScreenElementRect.height].
    rewrite !num_gt_sub_int. split; apply Z.ltb_lt; lia.
  - intros H. apply not_positive_size in H.
    split; [now apply excluded_own | now apply excluded_everywhere].
Qed.

Lemma bounds_rect_and_exclusion_witness :
  (getScreenElementRect Examples.box =
     ScreenElementRect.mk (int 0) (int 12) (Num (inject_Z 100 - inject_Z 0))
       (Num (inject_Z 200 - inject_Z 12)) /\
   positive_size Examples.box) /\
  (own_elements Examples.flat_box = [] /\
   ~ In (element_of Examples.flat_box) (collectElements (Examples.leaf Examples.flat_box))).
Proof.
  split.
  - apply (proj1 (bounds_rect_and_exclusion Examples.box 0 12 100 200
                    (Examples.leaf Examples.box)));
      [reflexivity | reflexivity | reflexivity].
  - apply (proj2 (bounds_rect_and_exclusion Examples.flat_box 5 5 5 9
                    (Examples.leaf Examples.flat_box))).
    right. left. reflexivity.
Defined.

(** ** Gestures *)

Lemma unsupported_eqb (direction : string) :
  ~ supported direction ->
  String.eqb direction "up" = false /\ String.eqb direction "down" = false /\
  String.eqb direction "left" = false /\ String.eqb direction "right" = false.
Proof.
  unfold supported. intros H. repeat split; apply String.eqb_neq; intros ->; tauto.
Qed.

(** The coordinates of a swipe from the centre, on a screen of [w] by [h]
    pixels. *)
Lemma swipe_coordinates_center (w h : Z) (scale : number) :
  (0 <= w < 2 ^ 31)%Z ->
  let screenSize := ScreenSize.mk (int w) (int h) scale in
  swipe_coordinates screenSize "up" =
    inr (int (w / 2), int (h * 4 / 5), int (w / 2), int (h / 5)) /\
  swipe_coordinates screenSize "down" =
    inr (int (w / 2), int (h / 5), int (w / 2), int (h * 4 / 5)) /\
  swipe_coordinates screenSize "left" =
    inr (int (w * 4 / 5), int (h / 2), int (w / 5), int (h / 2)) /\
  swipe_coordinates screenSize "right" =
    inr (int (w / 5), int (h / 2), int (w * 4 / 5), int (h / 2)).
Proof.
  intros Hw screenSize.
  split; [|split; [|split]].
  - unfold swipe_coordinates, screenSize. simpl String.eqb. cbv iota.
    cbn [ScreenSize.width ScreenSize.height].
    now rewrite shr_1_int, !floor_fraction, percent_80, percent_20 by exact Hw.
  - unfold swipe_coordinates, screenSize. simpl String.eqb. cbv iota.
    cbn [ScreenSize.width ScreenSize.height].
    now rewrite shr_1_int, !floor_fraction, percent_80, percent_20 by exact Hw.
  - unfold swipe_coordinates, screenSize. simpl String.eqb. cbv iota.
    cbn [ScreenSize.width ScreenSize.height].
    now rewrite !floor_fraction, !percent_80, !percent_20, !percent_50.
  - unfold swipe_coordinates, screenSize. simpl String.eqb. cbv iota.
    cbn [ScreenSize.width ScreenSize.height].
    now rewrite !floor_fraction, !percent_80, !percent_20, !percent_50.
Qed.

Lemma swipe_coordinates_unsupported (screenSize : ScreenSize.t) (direction : string) :
  ~ supported direction ->
  swipe_coordinates screenSize direction = inl (unsupported_direction direction).
Proof.
  intros Hd. apply unsupported_eqb in Hd. destruct Hd as (H1 & H2 & H3 & H4).
  unfold swipe_coordinates. now rewrite H1, H2, H3, H4.
Qed.

Section Gestures.

Context {RT : Runtime}.
Variable adbPath : string.
Variable execFileSync : Trace -> NativeCommand -> Result Buffer.
Variable deviceId : string.

(** One run of [swipe]: the screen size is read, then the gesture is
    sent, unless the direction is not supported. *)
Lemma swipe_run (direction : string) (screenSize : ScreenSize.t) (tr tr' : Trace) :
  getScreenSize adbPath execFileSync deviceId tr = (inr screenSize, tr') ->
  swipe adbPath execFileSync deviceId direction tr =
  match swipe_coordinates screenSize direction with
  | inl e => (inl e, tr')
  | inr (x0, y0, x1, y1) =>
      spawn execFileSync (gesture_command adbPath deviceId x0 y0 x1 y1) tr'
  end.
Proof.
  intros Hs. unfold swipe. unfold bind at 1. rewrite Hs.
  destruct (swipe_coordinates screenSize direction) as [e|[[[x0 y0] x1] y1]];
    [reflexivity|].
  unfold bind, adb, ret, spawn, gesture_command.
  now destruct (execFileSync tr' _).
Qed.

Lemma swipeFromCoordinate_run (x y : number) (direction : string)
  (distance : option number) (screenSize : ScreenSize.t) (tr tr' : Trace) :
  getScreenSize adbPath execFileSync deviceId tr = (inr screenSize, tr') ->
  swipeFromCoordinate adbPath execFileSync deviceId x y direction distance tr =
  match swipeFromCoordinate_coordinates screenSize x y direction distance with
  | inl e => (inl e, tr')
  | inr (x0, y0, x1, y1) =>
      spawn execFileSync (gesture_command adbPath deviceId x0 y0 x1 y1) tr'
  end.
Proof.
  intros Hs. unfold swipeFromCoordinate. unfold bind at 1. rewrite Hs.
  destruct (swipeFromCoordinate_coordinates screenSize x y direction distance)
    as [e|[[[x0 y0] x1] y1]]; [reflexivity|].
  unfold bind, adb, ret, spawn, gesture_command.
  now destruct (execFileSync tr' _).
Qed.

(** C5: on a screen of [w] by [h] pixels (a width below 2^31, as every
    Android display has), [swipe] sends one gesture that starts and ends on
    the vertical midline [x = w/2] for "up" and "down" and on the horizontal
    midline [y = h/2] for "left" and "right"; it travels from 80% to 20% of
    the height for "up", from 20% to 80% for "down", and likewise along the
    width for "left" and "right" (pixel coordinates are rounded down); any
    other direction fails with an ActionableError and sends no gesture; on a
    1000x2000 screen "up" gives x0 = x1 = 500, y0 = 1600 and y1 = 400. *)
Theorem swipe_from_center (w h : Z) (scale : number) (direction : string)
  (tr tr' : Trace) :
  (0 <= w < 2 ^ 31)%Z ->
  getScreenSize adbPath execFileSync deviceId tr =
    (inr (ScreenSize.mk (int w) (int h) scale), tr') ->
  let gesture (x0 y0 x1 y1 : Z) :=
    spawn execFileSync
      (gesture_command adbPath deviceId (int x0) (int y0) (int x1) (int y1)) tr' in
  swipe adbPath execFileSync deviceId "up" tr =
    gesture (w / 2)%Z (h * 4 / 5)%Z (w / 2)%Z (h / 5)%Z /\
  swipe adbPath execFileSync deviceId "down" tr =
    gesture (w / 2)%Z (h / 5)%Z (w / 2)%Z (h * 4 / 5)%Z /\
  swipe adbPath execFileSync deviceId "left" tr =
    gesture (w * 4 / 5)%Z (h / 2)%Z (w / 5)%Z (h / 2)%Z /\
  swipe adbPath execFileSync deviceId "right" tr =
    gesture (w / 5)%Z (h / 2)%Z (w * 4 / 5)%Z (h / 2)%Z /\
  (~ supported direction ->
   swipe adbPath execFileSync deviceId direction tr =
     (inl (ActionableError
             ("Swipe direction " ++ quote ++ direction ++ quote ++ " is not supported")),
      tr')) /\
  swipe_coordinates (ScreenSize.mk (int 1000) (int 2000) scale) "up" =
    inr (int 500, int 1600, int 500, int 400).
Proof.
  intros Hw Hs gesture.
  destruct (swipe_coordinates_center w h scale Hw) as (Hu & Hd & Hl & Hr).
  split; [|split; [|split; [|split; [|split]]]].
  - now rewrite (swipe_run _ _ _ _ Hs), Hu.
  - now rewrite (swipe_run _ _ _ _ Hs), Hd.
  - now rewrite (swipe_run _ _ _ _ Hs), Hl.
  - now rewrite (swipe_run _ _ _ _ Hs), Hr.
  - intros Hdir. now rewrite (swipe_run _ _ _ _ Hs), swipe_coordinates_unsupported.
  - reflexivity.
Qed.

Lemma swipeDistanceY_travel (W H : Q) (scale : number) (distance : option number) :
  swipeDistanceY (ScreenSize.mk (Num W) (Num H) scale) distance = Num (travel H distance).
Proof.
  unfold swipeDistanceY, travel, or_num, truthy_num, Math_floor, num_mul, int.
  cbn [ScreenSize.height].
  destruct distance as [[q|]|]; try reflexivity.
  now destruct (Qeq_bool q 0).
Qed.

Lemma swipeDistanceX_travel (W H : Q) (scale : number) (distance : option number) :
  swipeDistanceX (ScreenSize.mk (Num W) (Num H) scale) distance = Num (travel W distance).
Proof.
  unfold swipeDistanceX, travel, or_num, truthy_num, Math_floor, num_mul, int.
  cbn [ScreenSize.width].
  destruct distance as [[q|]|]; try reflexivity.
  now destruct (Qeq_bool q 0).
Qed.

(** C6 as stated does not hold: from an anchor below the screen the end
    point stays below the screen, and with a negative distance a swipe
    "down" from (100, 100) ends above the screen, at y = -200. *)
Lemma swipeFromCoordinate_offscreen_counterexample :
  swipeFromCoordinate_coordinates (ScreenSize.mk (int 800) (int 1600) (int 1))
    (int 100) (int 5000) "up" None
  = inr (int 100, int 5000, int 100, int 4520) /\
  num_le (int 4520) (int 1600) = false /\
  swipeFromCoordinate_coordinates (ScreenSize.mk (int 800) (int 1600) (int 1))
    (int 100) (int 100) "down" (Some (int (-300)))
  = inr (int 100, int 100, int 100, int (-200)) /\
  num_le (int 0) (int (-200)) = false.
Proof. repeat split. Qed.

Lemma swipeFromCoordinate_coordinates_eq
  (W H x y : Q) (scale : number) (distance : option number) :
  let screenSize := ScreenSize.mk (Num W) (Num H) scale in
  let dX := travel W distance in
  let dY := travel H distance in
  swipeFromCoordinate_coordinates screenSize (Num x) (Num y) "up" distance =
    inr (Num x, Num y, Num x, Num (at_least_0 (y - dY))) /\
  swipeFromCoordinate_coordinates screenSize (Num x) (Num y) "down" distance =
    inr (Num x, Num y, Num x, Num (at_most H (y + dY))) /\
  swipeFromCoordinate_coordinates screenSize (Num x) (Num y) "left" distance =
    inr (Num x, Num y, Num (at_least_0 (x - dX)), Num y) /\
  swipeFromCoordinate_coordinates screenSize (Num x) (Num y) "right" distance =
    inr (Num x, Num y, Num (at_most W (x + dX)), Num y).
Proof.
  intros screenSize dX dY.
  unfold swipeFromCoordinate_coordinates, screenSize. simpl String.eqb. cbv iota.
  rewrite swipeDistanceY_travel, swipeDistanceX_travel.
  cbn [ScreenSize.width ScreenSize.height num_sub num_add].
  now rewrite !Math_max_0, !Math_min_Num.
Qed.

(** C6, amended: [swipeFromCoordinate] starts the gesture at (x, y) and
    travels the given distance or, when none is given (or it is zero), 30% of
    the relevant screen dimension; the end coordinate is clamped on the side
    of travel, never below 0 for "up" and "left" and never above the screen
    dimension for "down" and "right"; when the anchor lies on the screen and
    the distance is not negative the end coordinate lies in
    [0, screenDimension]; from (100, 100) on an 800x1600 screen, "up" with no
    distance ends at y1 = 0. *)
Theorem swipeFromCoordinate_clamped
  (W H x y : Q) (scale : number) (distance : option number) (tr tr' : Trace) :
  getScreenSize adbPath execFileSync deviceId tr =
    (inr (ScreenSize.mk (Num W) (Num H) scale), tr') ->
  let dX := travel W distance in
  let dY := travel H distance in
  let gesture (x1 y1 : Q) :=
    spawn execFileSync
      (gesture_command adbPath deviceId (Num x) (Num y) (Num x1) (Num y1)) tr' in
  (swipeFromCoordinate adbPath execFileSync deviceId (Num x) (Num y) "up" distance tr =
     gesture x (at_least_0 (y - dY)) /\
   swipeFromCoordinate adbPath execFileSync deviceId (Num x) (Num y) "down" distance tr =
     gesture x (at_most H (y + dY)) /\
   swipeFromCoordinate adbPath execFileSync deviceId (Num x) (Num y) "left" distance tr =
     gesture (at_least_0 (x - dX)) y /\
   swipeFromCoordinate adbPath execFileSync deviceId (Num x) (Num y) "right" distance tr =
     gesture (at_most W (x + dX)) y) /\
  (0 <= at_least_0 (y - dY) /\ at_most H (y + dY) <= H /\
   0 <= at_least_0 (x - dX) /\ at_most W (x + dX) <= W)%Q /\
  ((0 <= y <= H)%Q -> (0 <= dY)%Q ->
   (0 <= at_least_0 (y - dY) <= H /\ 0 <= at_most H (y + dY) <= H)%Q) /\
  ((0 <= x <= W)%Q -> (0 <= dX)%Q ->
   (0 <= at_least_0 (x - dX) <= W /\ 0 <= at_most W (x + dX) <= W)%Q) /\
  swipeFromCoordinate_coordinates (ScreenSize.mk (int 800) (int 1600) scale)
    (int 100) (int 100) "up" None
  = inr (int 100, int 100, int 100, int 0).
Proof.
  intros Hs dX dY gesture.
  destruct (swipeFromCoordinate_coordinates_eq W H x y scale distance)
    as (Hu & Hd & Hl & Hr).
  split; [|split; [|split; [|split]]].
  - rewrite !(swipeFromCoordinate_run _ _ _ _ _ _ _ Hs), Hu, Hd, Hl, Hr.
    repeat split.
  - repeat split; auto using at_least_0_nonneg, at_most_le.
  - intros [Hy0 Hy1] Hd'. repeat split.
    + apply at_least_0_nonneg.
    + apply at_least_0_le; lra.
    + apply at_most_nonneg; lra.
    + apply at_most_le.
  - intros [Hx0 Hx1] Hd'. repeat split.
    + apply at_least_0_nonneg.
    + apply at_least_0_le; lra.
    + apply at_most_nonneg; lra.
    + apply at_most_le.
  - reflexivity.
Qed.

(** The default distance, 30% of a dimension rounded down, is one pixel or
    more on a dimension of four pixels or more. *)
Lemma default_distance_positive (dim : Z) :
  (4 <= dim)%Z -> (1 <= inject_Z (Qfloor (inject_Z dim * 0.3)))%Q.
Proof.
  intros Hdim.
  assert (E : inject_Z (Qfloor (inject_Z dim * 0.3)) = inject_Z (dim * 3 / 10))
    by reflexivity.
  rewrite E. change 1%Q with (inject_Z 1). rewrite <- Zle_Qle.
  apply Z.div_le_lower_bound; lia.
Qed.

(** A clamped end point is the anchor only at the edge. *)
Lemma at_least_0_fixed (v d : Q) :
  (1 <= d)%Q -> (at_least_0 (v - d) == v <-> v == 0)%Q.
Proof.
  intros Hd. unfold at_least_0. destruct (Qle_bool 0 (v - d)) eqn:E.
  - apply Qle_bool_iff in E. split; intros H; lra.
  - assert (~ (0 <= v - d)%Q) as N by (rewrite <- Qle_bool_iff; congruence).
    split; intros H; lra.
Qed.

Lemma at_most_fixed (m v d : Q) :
  (1 <= d)%Q -> (at_most m (v + d) == v <-> v == m)%Q.
Proof.
  intros Hd. unfold at_most. destruct (Qle_bool m (v + d)) eqn:E.
  - apply Qle_bool_iff in E. split; intros H; lra.
  - assert (~ (m <= v + d)%Q) as N by (rewrite <- Qle_bool_iff; congruence).
    split; intros H; lra.
Qed.

(** C10, amended: with an explicit distance of 0, [swipeFromCoordinate]
    computes the start and end coordinates it computes with the distance
    omitted and runs the same commands: the zero distance is replaced by 30%
    of the screen dimension, rounded down, which is one pixel or more on a
    dimension of four pixels or more.  The gesture starts at the anchor and
    ends at the anchor moved by that default and clamped at the edge of the
    screen on the side of travel; it has zero length exactly when the anchor
    lies on that edge. *)
Theorem swipeFromCoordinate_zero_distance
  (W H : Z) (x y : Q) (scale : number) (tr tr' : Trace) :
  getScreenSize adbPath execFileSync deviceId tr =
    (inr (ScreenSize.mk (int W) (int H) scale), tr') ->
  let dX := inject_Z (Qfloor (inject_Z W * 0.3)) in
  let dY := inject_Z (Qfloor (inject_Z H * 0.3)) in
  let gesture (x1 y1 : Q) :=
    spawn execFileSync
      (gesture_command adbPath deviceId (Num x) (Num y) (Num x1) (Num y1)) tr' in
  (forall (screenSize : ScreenSize.t) (a b : number) (direction : string) (t : Trace),
     swipeFromCoordinate_coordinates screenSize a b direction (Some (int 0)) =
     swipeFromCoordinate_coordinates screenSize a b direction None /\
     swipeFromCoordinate adbPath execFileSync deviceId a b direction (Some (int 0)) t =
     swipeFromCoordinate adbPath execFileSync deviceId a b direction None t) /\
  (swipeFromCoordinate adbPath execFileSync deviceId (Num x) (Num y) "up" (Some (int 0)) tr =
     gesture x (at_least_0 (y - dY)) /\
   swipeFromCoordinate adbPath execFileSync deviceId (Num x) (Num y) "down" (Some (int 0)) tr =
     gesture x (at_most (inject_Z H) (y + dY)) /\
   swipeFromCoordinate adbPath execFileSync deviceId (Num x) (Num y) "left" (Some (int 0)) tr =
     gesture (at_least_0 (x - dX)) y /\
   swipeFromCoordinate adbPath execFileSync deviceId (Num x) (Num y) "right" (Some (int 0)) tr =
     gesture (at_most (inject_Z W) (x + dX)) y) /\
  ((4 <= H)%Z ->
   (1 <= dY)%Q /\
   (at_least_0 (y - dY) == y <-> y == 0)%Q /\
   (at_most (inject_Z H) (y + dY) == y <-> y == inject_Z H)%Q) /\
  ((4 <= W)%Z ->
   (1 <= dX)%Q /\
   (at_least_0 (x - dX) == x <-> x == 0)%Q /\
   (at_most (inject_Z W) (x + dX) == x <-> x == inject_Z W)%Q).
Proof.
  intros Hs dX dY gesture. split; [|split; [|split]].
  - intros screenSize a b direction t. split; reflexivity.
  - destruct (swipeFromCoordinate_coordinates_eq (inject_Z W) (inject_Z H) x y scale
                (Some (int 0))) as (Eu & Ed & El & Er).
    rewrite !(swipeFromCoordinate_run _ _ _ _ _ _ _ Hs).
    change (ScreenSize.mk (int W) (int H) scale)
      with (ScreenSize.mk (Num (inject_Z W)) (Num (inject_Z H)) scale).
    rewrite Eu, Ed, El, Er. repeat split.
  - intros HH. pose proof (default_distance_positive H HH) as Hd. fold dY in Hd.
    split; [exact Hd|]. split; [now apply at_least_0_fixed | now apply at_most_fixed].
  - intros HW. pose proof (default_distance_positive W HW) as Hd. fold dX in Hd.
    split; [exact Hd|]. split; [now apply at_least_0_fixed | now apply at_most_fixed].
Qed.

End Gestures.

(** ** The log filter *)

Lemma user_line_not_blank (line : string) :
  is_user_line line = true -> String.eqb (trim line) "" = false.
Proof.
  intros H. apply String.eqb_neq. intros Hblank. apply trim_empty in Hblank.
  unfold is_user_line in H.
  rewrite !(blank_not_includes line) in H by (exact Hblank || reflexivity).
  simpl in H. discriminate.
Qed.

Lemma mine_keeps_eq (t line : string) :
  mine_keeps t line =
  negb (String.eqb (trim line) "") && is_user_line line &&
  includes (toLowerCase line) (toLowerCase t).
Proof.
  unfold mine_keeps. rewrite !negb_orb.
  change (negb (includes line "com.android.") && negb (includes line "android.") &&
          negb (includes line "system_") &&
          (includes line "com." || includes line "io." || includes line "net." ||
           includes line "app.")) with (is_user_line line).
  destruct (is_user_line line) eqn:E; [|now rewrite andb_false_r].
  now rewrite (user_line_not_blank _ E).
Qed.

(** The post-processing is four filters in a row: blank lines, the
    package, the user lines, the search text. *)
Lemma post_process_stages (filter packageFilter searchQuery : option string)
  (output : string) :
  post_process filter packageFilter searchQuery output =
  join (String LF "")
    (List.filter (search_keeps searchQuery)
       (List.filter
          (fun line =>
             match filter with
             | Some (String c r) =>
                 if startsWith (String c r) "package:mine" then is_user_line line else true
             | _ => true
             end)
          (List.filter
             (fun line =>
                match specific_package packageFilter with
                | Some p => includes line p
                | None => true
                end)
             (List.filter (fun line => negb (String.eqb (trim line) ""))
                (split LF output))))).
Proof.
  unfold post_process. f_equal.
  destruct (specific_package packageFilter) as [p|];
  destruct filter as [[|c r]|]; try destruct (startsWith (String c r) "package:mine");
  destruct searchQuery as [[|c' r']|]; unfold search_keeps;
  now rewrite ?filter_true.
Qed.

Lemma post_process_mine (t output : string) :
  trim t = t ->
  post_process (Some ("package:mine " ++ t)) None (nonempty t) output =
  join (String LF "") (List.filter (mine_keeps t) (split LF output)).
Proof.
  intros Ht. rewrite post_process_stages. f_equal.
  cbn [specific_package append]. rewrite filter_true.
  assert (E : startsWith
                (String "p" (String "a" (String "c" (String "k" (String "a"
                (String "g" (String "e" (String ":" (String "m" (String "i"
                (String "n" (String "e" (String " " t)))))))))))))
                "package:mine" = true)
    by (apply (prefix_app "package:mine" (String " " t))).
  rewrite E. rewrite !filter_filter. apply filter_ext. intros line.
  rewrite mine_keeps_eq, <- andb_assoc. do 2 f_equal.
  destruct t; [symmetry; apply includes_empty | reflexivity].
Qed.

Lemma post_process_filter_irrelevant (f g packageFilter searchQuery : option string)
  (output : string) :
  (forall s, f = Some s -> startsWith s "package:mine" = false) ->
  (forall s, g = Some s -> startsWith s "package:mine" = false) ->
  post_process f packageFilter searchQuery output =
  post_process g packageFilter searchQuery output.
Proof.
  intros Hf Hg. rewrite !post_process_stages. do 3 f_equal.
  destruct f as [[|c r]|], g as [[|c' r']|]; try reflexivity;
    try rewrite (Hf _ eq_refl); try rewrite (Hg _ eq_refl); reflexivity.
Qed.

Lemma effectiveFilter_of_package (F : string) (processFilter : option string) :
  includes F "package:" = true -> effectiveFilter_of (Some F) processFilter = Some F.
Proof.
  intros H. destruct F as [|c r]; [discriminate|].
  unfold effectiveFilter_of. rewrite H.
  now destruct processFilter as [[|pc pr]|].
Qed.

Lemma effectiveFilter_of_no_process (filter : option string) :
  effectiveFilter_of filter None = filter.
Proof. reflexivity. Qed.

Lemma parse_filter_mine_prefix (F : string) :
  startsWith F "package:mine" = true ->
  parse_filter (Some F) = (None, nonempty (trim (replace F "package:mine" ""))).
Proof.
  intros H. destruct F as [|c r]; [discriminate|].
  unfold parse_filter. now rewrite H.
Qed.

Lemma parse_filter_mine (t : string) :
  trim t = t -> parse_filter (Some ("package:mine " ++ t)) = (None, nonempty t).
Proof.
  intros Ht. change ("package:mine " ++ t) with ("package:mine" ++ String " " t).
  rewrite parse_filter_mine_prefix by apply prefix_app.
  rewrite replace_prefix. cbn [append].
  change (trim (String " " t)) with (trim t). now rewrite Ht.
Qed.

Lemma startsWith_mine_includes (f : string) :
  startsWith f "package:mine" = true -> includes f "package:" = true.
Proof.
  intros H. apply prefix_spec in H. destruct H as [r ->].
  apply includes_spec. exists "", ("mine" ++ r). reflexivity.
Qed.

Lemma not_mine_prefix (p f r : string) :
  p <> "" -> startsWith p "mine" = false -> p ++ " " ++ f <> "mine" ++ r.
Proof.
  intros Hp Hmine E.
  destruct p as [|c1 [|c2 [|c3 [|c4 p]]]]; [contradiction | | | |];
    cbn [append] in E; injection E; intros; subst; try discriminate.
  pose proof (prefix_app "mine" p) as H. cbn [append] in H.
  unfold startsWith in Hmine. congruence.
Qed.

(** ** Time windows *)

Lemma match_timeWindow_complete (ds : string) (u : ascii) :
  is_numeral ds -> is_unit u -> match_timeWindow (ds ++ String u "") = Some (ds, u).
Proof.
  intros [Hne Hds] Hu. unfold match_timeWindow.
  rewrite digits1_app; auto.
  - destruct Hu as [-> | [-> | ->]]; reflexivity.
  - destruct Hu as [-> | [-> | ->]]; reflexivity.
Qed.

Lemma match_timeWindow_sound (s ds : string) (u : ascii) :
  match_timeWindow s = Some (ds, u) ->
  s = ds ++ String u "" /\ is_numeral ds /\ is_unit u.
Proof.
  unfold match_timeWindow. destruct (digits1 s) as [[d r]|] eqn:E; [|discriminate].
  destruct r as [|c [|c' r]]; try discriminate.
  destruct (Ascii.eqb_spec c "s") as [->|Hs]; simpl.
  - intros [= <- <-]. apply digits1_sound in E. unfold is_numeral, is_unit. tauto.
  - destruct (Ascii.eqb_spec c "m") as [->|Hm]; simpl.
    + intros [= <- <-]. apply digits1_sound in E. unfold is_numeral, is_unit. tauto.
    + destruct (Ascii.eqb_spec c "h") as [->|Hh]; simpl; [|discriminate].
      intros [= <- <-]. apply digits1_sound in E. unfold is_numeral, is_unit. tauto.
Qed.

Lemma parseTimeWindow_syntax (ds : string) (u : ascii) (v : N) :
  is_numeral ds -> is_unit u -> decimal ds = Some v ->
  parseTimeWindow (ds ++ String u "") = (Z.of_N v * seconds_per u)%Z.
Proof.
  intros Hds Hu Hv. unfold parseTimeWindow.
  rewrite match_timeWindow_complete, Hv by assumption.
  destruct Hu as [-> | [-> | ->]]; unfold seconds_per; cbn -[Z.mul Z.of_N]; lia.
Qed.

Lemma parseTimeWindow_default (timeWindow : string) :
  ~ time_window_syntax timeWindow -> parseTimeWindow timeWindow = 60%Z.
Proof.
  intros H. unfold parseTimeWindow.
  destruct (match_timeWindow timeWindow) as [[ds u]|] eqn:E; [|reflexivity].
  exfalso. apply match_timeWindow_sound in E. destruct E as (-> & Hds & Hu).
  apply H. now exists ds, u.
Qed.

(** ** [getDeviceLogs] *)

Section Logs.

Context {RT : Runtime}.
Variable adbPath : string.
Variable execFileSync : Trace -> NativeCommand -> Result Buffer.
Variable Date_now : Z.
Variable deviceId : string.

Lemma time_args_T (timeWindow : option string) :
  time_args Date_now (or_lit timeWindow "1m") =
  ["-T"; timeFormat (Date_now - parseTimeWindow (or_lit timeWindow "1m") * 1000)].
Proof. now destruct timeWindow as [[|c r]|]. Qed.

(** The [--pid] lookup never throws. *)
Lemma pid_args_total (packageFilter : option string) (tr : Trace) :
  exists pids tr',
    pid_args adbPath execFileSync deviceId packageFilter tr = (inr pids, tr').
Proof.
  unfold pid_args. destruct (specific_package packageFilter) as [p|].
  - unfold try_catch, bind, adb, ret.
    destruct (execFileSync tr _) as [e|out]; [now eauto|].
    destruct (trim out); eauto.
  - unfold ret. eauto.
Qed.

(** One run of [getDeviceLogs]: the [--pid] lookup, one [logcat] command
    with a start time, and the post-processing of its output. *)
Lemma getDeviceLogs_run (options : option LogOptions.t) (tr : Trace) :
  let filter := option_filter options in
  let parsed := parse_filter (effectiveFilter_of filter (option_process options)) in
  let start := timeFormat (Date_now - parseTimeWindow (option_timeWindow options) * 1000) in
  exists pids tr',
    pid_args adbPath execFileSync deviceId (fst parsed) tr = (inr pids, tr') /\
    getDeviceLogs adbPath execFileSync Date_now deviceId options tr =
    (match execFileSync tr' (logcat_command adbPath deviceId start pids) with
     | inl e => inl e
     | inr output => inr (post_process filter (fst parsed) (snd parsed) output)
     end, (tr' ++ [logcat_command adbPath deviceId start pids])%list).
Proof.
  intros filter parsed start.
  destruct (pid_args_total (fst parsed) tr) as (pids & tr' & Hp).
  exists pids, tr'. split; [exact Hp|].
  unfold getDeviceLogs.
  fold (option_filter options) (option_process options) (option_timeWindow options).
  fold filter. fold parsed. destruct parsed as [pf sq] eqn:E. simpl fst in *. simpl snd.
  unfold bind at 1. rewrite Hp. unfold bind, adb, ret.
  unfold option_timeWindow. rewrite time_args_T.
  fold (option_timeWindow options). fold start.
  unfold logcat_command. simpl app.
  now destruct (execFileSync tr' _).
Qed.

(** C7: with the filter "package:mine t" (t a text term, without white
    space around it), [getDeviceLogs] spawns one [logcat] command and returns
    exactly the lines of its output that contain none of "com.android.",
    "android.", "system_", contain one of "com.", "io.", "net.", "app.", and
    contain t whatever the case of the letters, in their order. *)
Theorem mine_filter (t : string) (options : LogOptions.t) (tr : Trace) :
  trim t = t ->
  LogOptions.filter options = Some ("package:mine " ++ t) ->
  let start :=
    timeFormat (Date_now - parseTimeWindow (or_lit (LogOptions.timeWindow options) "1m") * 1000) in
  let command := logcat_command adbPath deviceId start [] in
  getDeviceLogs adbPath execFileSync Date_now deviceId (Some options) tr =
  (match execFileSync tr command with
   | inl e => inl e
   | inr output =>
       inr (join (String LF "") (List.filter (mine_keeps t) (split LF output)))
   end, (tr ++ [command])%list).
Proof.
  intros Ht Hf start command.
  destruct (getDeviceLogs_run (Some options) tr) as (pids & tr' & Hp & Hrun).
  rewrite Hrun. clear Hrun. unfold option_filter, option_process, option_timeWindow in *.
  rewrite Hf in *.
  rewrite effectiveFilter_of_package in *
    by (apply includes_spec; exists "", ("mine " ++ t); reflexivity).
  rewrite (parse_filter_mine t Ht) in *. cbn [fst snd] in *.
  injection Hp as <- <-. fold start. fold command.
  destruct (execFileSync tr command); [reflexivity|].
  now rewrite post_process_mine.
Qed.

(** Where the folding of [process] is an equivalence: a process name that
    does not begin with "mine". *)
Lemma process_folded (p f : string) (tw : option string) (ios : option bool) (tr : Trace) :
  p <> "" -> f <> "" -> includes f "package:" = false ->
  startsWith p "mine" = false ->
  getDeviceLogs adbPath execFileSync Date_now deviceId
    (Some (LogOptions.mk tw (Some f) ios (Some p))) tr =
  getDeviceLogs adbPath execFileSync Date_now deviceId
    (Some (LogOptions.mk tw (Some ("package:" ++ p ++ " " ++ f)) ios None)) tr.
Proof.
  intros Hp Hf Hbare Hmine.
  destruct (getDeviceLogs_run (Some (LogOptions.mk tw (Some f) ios (Some p))) tr)
    as (pids & tr' & Hp1 & ->).
  destruct (getDeviceLogs_run
              (Some (LogOptions.mk tw (Some ("package:" ++ p ++ " " ++ f)) ios None)) tr)
    as (pids' & tr'' & Hp2 & ->).
  unfold option_filter, option_process, option_timeWindow in *.
  cbn [LogOptions.filter LogOptions.process LogOptions.timeWindow] in *.
  assert (E1 : effectiveFilter_of (Some f) (Some p) = Some ("package:" ++ p ++ " " ++ f)).
  { destruct p as [|pc pr]; [contradiction|]. destruct f as [|fc fr]; [contradiction|].
    unfold effectiveFilter_of. now rewrite Hbare. }
  rewrite E1 in *. rewrite effectiveFilter_of_no_process in *.
  rewrite Hp1 in Hp2. injection Hp2 as <- <-.
  destruct (execFileSync tr' _); [reflexivity|]. do 2 f_equal.
  apply post_process_filter_irrelevant.
  - intros s [= <-]. destruct (startsWith f "package:mine") eqn:E; [|reflexivity].
    apply startsWith_mine_includes in E. congruence.
  - intros s [= <-]. destruct (startsWith _ "package:mine") eqn:E; [|reflexivity].
    apply prefix_spec in E. destruct E as [r E].
    apply (append_cancel_l "package:" (p ++ " " ++ f) ("mine" ++ r)) in E.
    exfalso. now apply (not_mine_prefix p f r).
Qed.

(** The same for [process] alone. *)
Lemma process_alone_folded (p : string) (tw : option string) (ios : option bool)
  (tr : Trace) :
  p <> "" -> startsWith p "mine" = false ->
  getDeviceLogs adbPath execFileSync Date_now deviceId
    (Some (LogOptions.mk tw None ios (Some p))) tr =
  getDeviceLogs adbPath execFileSync Date_now deviceId
    (Some (LogOptions.mk tw (Some ("package:" ++ p)) ios None)) tr.
Proof.
  intros Hp Hmine.
  destruct (getDeviceLogs_run (Some (LogOptions.mk tw None ios (Some p))) tr)
    as (pids & tr' & Hp1 & ->).
  destruct (getDeviceLogs_run
              (Some (LogOptions.mk tw (Some ("package:" ++ p)) ios None)) tr)
    as (pids' & tr'' & Hp2 & ->).
  unfold option_filter, option_process, option_timeWindow in *.
  cbn [LogOptions.filter LogOptions.process LogOptions.timeWindow] in *.
  assert (E1 : effectiveFilter_of None (Some p) = Some ("package:" ++ p))
    by (destruct p as [|pc pr]; [contradiction | reflexivity]).
  rewrite E1 in *. rewrite effectiveFilter_of_no_process in *.
  rewrite Hp1 in Hp2. injection Hp2 as <- <-.
  destruct (execFileSync tr' _); [reflexivity|]. do 2 f_equal.
  apply post_process_filter_irrelevant.
  - intros s [=].
  - intros s [= <-]. destruct (startsWith _ "package:mine") eqn:E; [|reflexivity].
    apply prefix_spec in E. destruct E as [r E].
    apply (append_cancel_l "package:" p ("mine" ++ r)) in E.
    subst p. unfold startsWith in Hmine. now rewrite prefix_app in Hmine.
Qed.

(** The [--pid] lookup, exactly: no command without a specific package,
    one [pidof] command otherwise, and the arguments for what it printed. *)
Lemma pid_args_exact (packageFilter : option string) (tr : Trace) :
  pid_args adbPath execFileSync deviceId packageFilter tr =
  match specific_package packageFilter with
  | Some p =>
      (inr (Props.pid_arguments (execFileSync tr (Props.pidof_command adbPath deviceId p))),
       (tr ++ [Props.pidof_command adbPath deviceId p])%list)
  | None => (inr [], tr)
  end.
Proof.
  unfold pid_args. destruct (specific_package packageFilter) as [p|]; [|reflexivity].
  unfold try_catch, bind, adb, ret, Props.pid_arguments.
  fold (Props.pidof_command adbPath deviceId p).
  destruct (execFileSync tr _) as [e|out]; [reflexivity|].
  now destruct (trim out).
Qed.

(** C9, amended: a time window of the shape <integer><s|m|h> is converted
    to that many seconds, minutes of 60 seconds or hours of 3600 seconds, and
    any other string to 60 seconds; [getDeviceLogs] always passes the
    resulting start time to [logcat] with [-T]: whatever the options, its
    commands are the [pidof] lookup of a specific package, if the filter
    names one, and then [logcat -T <start>] followed by nothing but a
    [--pid] pair for each process the lookup printed; when the option is
    omitted (or empty) the window is "1m", a start 60 seconds back: the
    dump-existing-buffer flag [-d] is not used. *)
Theorem time_window_start (ds : string) (u : ascii) (v : N) (timeWindow : string)
  (options : option LogOptions.t) (tr : Trace) :
  (is_numeral ds -> is_unit u -> decimal ds = Some v ->
   parseTimeWindow (ds ++ String u "") = (Z.of_N v * seconds_per u)%Z) /\
  (~ time_window_syntax timeWindow -> parseTimeWindow timeWindow = 60%Z) /\
  (let start :=
     timeFormat (Date_now - parseTimeWindow (option_timeWindow options) * 1000) in
   snd (getDeviceLogs adbPath execFileSync Date_now deviceId options tr) =
   match
     specific_package
       (fst (parse_filter
               (effectiveFilter_of (option_filter options) (option_process options))))
   with
   | Some p =>
       let lookup := Props.pidof_command adbPath deviceId p in
       (tr ++ [lookup;
               logcat_command adbPath deviceId start
                 (Props.pid_arguments (execFileSync tr lookup))])%list
   | None => (tr ++ [logcat_command adbPath deviceId start []])%list
   end) /\
  (option_timeWindow None = "1m" /\
   (forall o, truthy (LogOptions.timeWindow o) = false ->
              option_timeWindow (Some o) = "1m") /\
   parseTimeWindow "1m" = 60%Z).
Proof.
  split; [|split; [|split]].
  - apply parseTimeWindow_syntax.
  - apply parseTimeWindow_default.
  - cbv zeta.
    destruct (getDeviceLogs_run options tr) as (pids & tr' & Hp & ->).
    rewrite pid_args_exact in Hp. cbn [snd].
    destruct (specific_package _) as [p|]; injection Hp as <- <-.
    + now rewrite <- List.app_assoc.
    + reflexivity.
  - split; [reflexivity | split; [|reflexivity]].
    intros o Ho. unfold option_timeWindow.
    now destruct (LogOptions.timeWindow o) as [[|c r]|].
Qed.

End Logs.

(** ** The element matcher and the tools *)

Lemma in_searchFields (e : ScreenElement.t) (field : string) :
  In field (searchFields e) <-> In (Some field) (fields_of e) /\ trim field <> "".
Proof.
  unfold searchFields. fold (fields_of e). rewrite in_flat_map. split.
  - intros (o & Hin & Hf). destruct o as [[|c r]|]; try contradiction.
    destruct (String.eqb_spec (trim (String c r)) ""); simpl in Hf; [contradiction|].
    destruct Hf as [<-|[]]. auto.
  - intros (Hin & Ht). exists (Some field). split; [exact Hin|].
    destruct field as [|c r]; [now elim Ht|].
    destruct (String.eqb_spec (trim (String c r)) ""); simpl; [contradiction | now left].
Qed.

(** The test of the code decides the match: a field that is not blank
    contains the query, whatever the case of the letters. *)
Lemma element_matches_iff (query : string) (e : ScreenElement.t) :
  element_matches query e = true <-> matches query e.
Proof.
  unfold element_matches, matches. rewrite existsb_exists. split.
  - intros (field & Hin & Hinc). apply in_searchFields in Hin.
    apply includes_spec in Hinc. exists field. tauto.
  - intros (field & Hin & Ht & Hc). exists field. split.
    + apply in_searchFields. tauto.
    + now apply includes_spec.
Qed.

Lemma display_truthy (e : ScreenElement.t) :
  match display e with
  | Some (String c r) => [String c r]
  | _ => []
  end =
  match first_nonempty (fields_of e) with
  | Some s => [s]
  | None => []
  end.
Proof.
  unfold display, fields_of, or_else. simpl.
  destruct (ScreenElement.text e) as [[|? ?]|]; simpl; try reflexivity;
  destruct (ScreenElement.label e) as [[|? ?]|]; simpl; try reflexivity;
  destruct (ScreenElement.name e) as [[|? ?]|]; simpl; try reflexivity;
  destruct (ScreenElement.value e) as [[|? ?]|]; simpl; try reflexivity;
  destruct (ScreenElement.identifier e) as [[|? ?]|]; reflexivity.
Qed.

(** The elements listed by the zero-match error: for each element that has
    one, its first non-empty field. *)
Lemma available_elements_eq (elements : list ScreenElement.t) :
  available_elements elements =
  List.flat_map
    (fun e => match first_nonempty (fields_of e) with Some s => [s] | None => [] end)
    elements.
Proof.
  unfold available_elements. induction elements as [|e l IH]; simpl; [reflexivity|].
  now rewrite IH, display_truthy.
Qed.

Section Tools.

Context {RT : Runtime}.

(** C1, amended: once the robot has listed the elements on screen,
    [mobile_tap_element] is decided by the number of elements one of whose
    text, label, name, value or identifier fields is not blank (not empty
    and not only white space) and contains the query, whatever the case of
    the letters: none, it fails with an ActionableError that lists the first
    non-empty of these fields of every element that has one; two or more, it
    fails with an ActionableError that lists every match with its fields, its
    centre and its rectangle, and taps nothing; exactly one, it taps at the
    centre (rect.x + rect.width/2, rect.y + rect.height/2) of that
    element. *)
Theorem tap_element_decided (r : Robot.t) (query : string)
  (elements : list ScreenElement.t) (tr tr' : Trace) :
  Robot.getElementsOnScreen r tr = (inr elements, tr') ->
  mobile_tap_element (Some r) query tr = tap_outcome r query elements tr' /\
  (forall e, In e (List.filter (element_matches query) elements) <->
             In e elements /\ matches query e) /\
  available_elements elements =
    List.flat_map
      (fun e => match first_nonempty (fields_of e) with Some s => [s] | None => [] end)
      elements.
Proof.
  intros Hel. split; [|split].
  - unfold mobile_tap_element, tap_outcome, requireRobot, bind, ret, throw.
    rewrite Hel.
    now destruct (List.filter (element_matches query) elements) as [|m [|m' rest]].
  - intros e. now rewrite filter_In, element_matches_iff.
  - apply available_elements_eq.
Qed.

Lemma call_tool_no_device (c : ToolCall) (tr : Trace) :
  call_tool None c tr = (no_device_answer c, tr).
Proof. now destruct c. Qed.

End Tools.

Section Session.

Context {RT : Runtime}.
Variable getSimulator : string -> Robot.t.
Variable IosRobot : string -> Robot.t.
Variable newAndroidRobot : string -> Robot.t.

Lemma serve_no_device (calls : list ToolCall) (tr : Trace) :
  serve getSimulator IosRobot newAndroidRobot None (List.map Operate calls) tr =
  (List.map no_device_answer calls, None, tr).
Proof.
  induction calls as [|c calls IH]; [reflexivity|].
  cbn [List.map serve handle]. rewrite call_tool_no_device, IH. reflexivity.
Qed.

(** C2: with no device selected, the callback of every tool that
    operates the device fails with the "no device selected" ActionableError
    and spawns no native command (the trace is unchanged); and over any
    sequence of such calls made before a device is selected, every call is
    answered with that error, no device becomes selected and no native
    command is spawned.  The MCP server receives the error as a text answer
    from every tool registered through [tool], and as the exception itself
    from [mobile_take_screenshot]. *)
Theorem no_device_selected_everywhere (c : ToolCall) (calls : list ToolCall)
  (tr : Trace) :
  run_callback None c tr = (inl no_device_selected, tr) /\
  no_device_selected =
    ActionableError
      "No device selected. Use the mobile_use_device tool to select a device." /\
  serve getSimulator IosRobot newAndroidRobot None (List.map Operate calls) tr =
    (List.map no_device_answer calls, None, tr).
Proof.
  split; [|split].
  - now destruct c.
  - reflexivity.
  - apply serve_no_device.
Qed.

End Session.


(* ================================================================== *)
(** * Part II, continued: further properties of the code               *)
(* ================================================================== *)

Import AndroidDevices Props.

(** ** The shape of the extracted elements *)

Lemma digit_char (c : ascii) (u : Decimal.uint) :
  isDigit c = true -> exists v, DecimalString.uint_of_char c (Some u) = Some v.
Proof.
  destruct c as [[] [] [] [] [] [] [] []]; intros H; try discriminate H;
    eexists; reflexivity.
Qed.

(** A string of digits has a decimal value. *)
Lemma decimal_digits (s : string) :
  all_chars isDigit s = true -> exists n, decimal s = Some n.
Proof.
  intros H. unfold decimal.
  assert (exists u, NilEmpty.uint_of_string s = Some u) as [u ->].
  { induction s as [|c s IH]; [now exists Decimal.Nil|].
    simpl in H. apply andb_true_iff in H. destruct H as [Hc Hs].
    destruct (IH Hs) as [u Hu]. simpl. rewrite Hu. now apply digit_char. }
  now eexists.
Qed.

Lemma num_sub_int (c a : Z) : num_sub (int c) (int a) = int (c - a).
Proof.
  unfold num_sub, int, inject_Z, Qminus, Qplus, Qopp. simpl. do 2 f_equal. lia.
Qed.

(** A rectangle that passes the size test of [collectElements] comes from
    bounds that matched: whole numbers, positive width and height. *)
Lemma positive_rect_whole (node : attributes) :
  rect_positive (getScreenElementRect node) = true ->
  exists x y w h : Z,
    (0 <= x)%Z /\ (0 <= y)%Z /\ (0 < w)%Z /\ (0 < h)%Z /\
    getScreenElementRect node = ScreenElementRect.mk (int x) (int y) (int w) (int h).
Proof.
  unfold getScreenElementRect.
  destruct (match_bounds _) as [[[[a b] c] d]|] eqn:E; [|discriminate].
  apply match_bounds_sound in E. destruct E as (_ & [_ Ha] & [_ Hb] & [_ Hc] & [_ Hd]).
  unfold Number_of_digits.
  destruct (decimal_digits a Ha) as [na ->], (decimal_digits b Hb) as [nb ->],
           (decimal_digits c Hc) as [nc ->], (decimal_digits d Hd) as [nd ->].
  unfold rect_positive. cbn [ScreenElementRect.width ScreenElementRect.height].
  rewrite !num_gt_sub_int, andb_true_iff, !Z.ltb_lt. intros [Hw Hh].
  exists (Z.of_N na), (Z.of_N nb), (Z.of_N nc - Z.of_N na)%Z, (Z.of_N nd - Z.of_N nb)%Z.
  rewrite !num_sub_int. repeat (split; [lia|]). reflexivity.
Qed.

(** X1.  Every element that [collectElements] returns has the shape the
    object literal of lines 220-241 gives it: a non-empty type (the class,
    or "element"), a label (possibly empty), no name and no value, an
    identifier that is never the empty string, [focused] absent or true,
    and a rectangle of whole numbers with non-negative corner and positive
    width and height. *)
Theorem collectElements_extracted (root : UiAutomatorXmlNode.t) (e : ScreenElement.t) :
  In e (collectElements root) -> extracted e.
Proof.
  intros H. apply in_collectElements in H.
  destruct H as (node & _ & _ & Hpos & ->).
  unfold extracted, element_of; cbn.
  split; [|split; [|split; [|split; [|split; [|split]]]]].
  - destruct (class node) as [[|c r]|]; discriminate.
  - eexists; reflexivity.
  - reflexivity.
  - reflexivity.
  - destruct (resource_id node) as [[|c r]|]; discriminate.
  - destruct (strict_eq (focused node) "true"); discriminate.
  - now apply positive_rect_whole.
Qed.

(** X2.  [collectElements] pushes at most one element per node of the
    hierarchy. *)
Theorem collectElements_at_most_one_per_node (root : UiAutomatorXmlNode.t) :
  (List.length (collectElements root) <= List.length (postorder root))%nat.
Proof.
  rewrite collectElements_postorder.
  induction (postorder root) as [|node l IH]; simpl; [lia|].
  rewrite length_app, own_elements_eq.
  destruct (_ && _); simpl; lia.
Qed.

(** ** The UiAutomator dump and its retries *)

Lemma includes_suffix (a b p : string) :
  includes (a ++ b) p = false -> includes b p = false.
Proof.
  intros H. destruct (includes b p) eqn:E; [|reflexivity].
  apply includes_spec in E. destruct E as (x & y & ->).
  assert (includes (a ++ x ++ p ++ y) p = true) as H'.
  { apply includes_spec. exists (a ++ x), y. now rewrite append_assoc. }
  congruence.
Qed.

Lemma from_first_cons (pat : string) (c : ascii) (r : string) :
  from_first pat (String c r) =
  if String.prefix pat (String c r) then Some (String c r) else from_first pat r.
Proof. reflexivity. Qed.

Lemma from_first_nil (pat : string) :
  from_first pat "" = if String.prefix pat "" then Some "" else None.
Proof. reflexivity. Qed.

Lemma from_first_spec (pat s : string) :
  match from_first pat s with
  | Some r =>
      exists junk, s = junk ++ r /\ startsWith r pat = true /\
        forall a b, s = a ++ pat ++ b -> (String.length junk <= String.length a)%nat
  | None => includes s pat = false
  end.
Proof.
  induction s as [|c s IH].
  - rewrite from_first_nil, includes_nil.
    destruct (String.prefix pat "") eqn:E; [|reflexivity].
    exists "". repeat split; [exact E | simpl; lia].
  - rewrite from_first_cons, includes_cons.
    destruct (String.prefix pat (String c s)) eqn:E.
    + exists "". repeat split; [exact E | simpl; lia].
    + destruct (from_first pat s) as [r|]; [|exact IH].
      destruct IH as (junk & -> & Hr & Hleft).
      exists (String c junk). split; [reflexivity|]. split; [exact Hr|].
      intros a b Hab. destruct a as [|c' a].
      * exfalso. simpl in Hab.
        assert (String.prefix pat (String c (junk ++ r)) = true) as H'
          by (rewrite Hab; apply prefix_app).
        congruence.
      * simpl in Hab. injection Hab as _ Hab. apply Hleft in Hab. simpl. lia.
Qed.

(** X3.  [dump.substring(dump.indexOf(pat))] drops what comes before the
    leftmost occurrence of [pat] and nothing else; when [pat] does not occur
    the index is -1 and the whole dump is returned. *)
Theorem substring_from_leftmost (dump pat : string) :
  if includes dump pat
  then exists junk,
         dump = junk ++ substring_from_indexOf dump pat /\
         startsWith (substring_from_indexOf dump pat) pat = true /\
         forall a b, dump = a ++ pat ++ b -> (String.length junk <= String.length a)%nat
  else substring_from_indexOf dump pat = dump.
Proof.
  unfold substring_from_indexOf. pose proof (from_first_spec pat dump) as H.
  destruct (from_first pat dump) as [r|].
  - destruct H as (junk & E & Hr & Hleft).
    assert (includes dump pat = true) as ->.
    { apply includes_spec. apply prefix_spec in Hr. destruct Hr as [t ->].
      exists junk, t. exact E. }
    exists junk. auto.
  - now rewrite H.
Qed.

Lemma substring_keeps_out (dump pat p : string) :
  includes dump p = false -> includes (substring_from_indexOf dump pat) p = false.
Proof.
  intros H. unfold substring_from_indexOf. pose proof (from_first_spec pat dump) as S.
  destruct (from_first pat dump) as [r|]; [|exact H].
  destruct S as (junk & E & _). rewrite E in H. now apply includes_suffix in H.
Qed.

Section Dump.

Variable adbPath : string.
Variable execFileSync : Trace -> NativeCommand -> Result Buffer.
Variable deviceId : string.

Lemma getUiAutomatorDump_from_S (n : nat) (tr : Trace) :
  getUiAutomatorDump_from adbPath execFileSync deviceId (S n) tr =
  match execFileSync tr (dump_command adbPath deviceId) with
  | inr dump =>
      if includes dump null_root
      then getUiAutomatorDump_from adbPath execFileSync deviceId n
             (tr ++ [dump_command adbPath deviceId])%list
      else (inr (substring_from_indexOf dump "<?xml"), (tr ++ [dump_command adbPath deviceId])%list)
  | inl e => (inl e, (tr ++ [dump_command adbPath deviceId])%list)
  end.
Proof.
  cbn [getUiAutomatorDump_from]. unfold bind, adb, dump_command, null_root.
  destruct (execFileSync tr _) as [e|dump]; [reflexivity|].
  now destruct (includes dump _).
Qed.

Lemma getUiAutomatorDump_from_bounded (n : nat) (tr : Trace) :
  exists k, (k <= n)%nat /\ (0 < n -> 0 < k)%nat /\
    snd (getUiAutomatorDump_from adbPath execFileSync deviceId n tr) =
      (tr ++ List.repeat (dump_command adbPath deviceId) k)%list /\
    forall xml,
      fst (getUiAutomatorDump_from adbPath execFileSync deviceId n tr) = inr xml ->
      includes xml null_root = false.
Proof.
  revert tr. induction n as [|n IH]; intros tr.
  - exists 0%nat. simpl. rewrite List.app_nil_r.
    split; [lia|]. split; [lia|]. split; [reflexivity | discriminate].
  - rewrite getUiAutomatorDump_from_S.
    destruct (execFileSync tr _) as [e|dump].
    + exists 1%nat. simpl.
      split; [lia|]. split; [lia|]. split; [reflexivity | discriminate].
    + destruct (includes dump null_root) eqn:E.
      * destruct (IH (tr ++ [dump_command adbPath deviceId])%list) as (k & Hk & _ & Htr & Hxml).
        exists (S k). split; [lia|]. split; [lia|]. split; [|exact Hxml].
        rewrite Htr, <- List.app_assoc. reflexivity.
      * exists 1%nat. simpl. split; [lia|]. split; [lia|]. split; [reflexivity|].
        intros xml [= <-]. now apply substring_keeps_out.
Qed.

(** X4.  [getUiAutomatorDump] spawns the dump command at least once and at
    most ten times and nothing else, whatever the device answers; a dump it
    returns never carries the transient "null root node" message. *)
Theorem getUiAutomatorDump_bounded (tr : Trace) :
  exists k, (1 <= k <= 10)%nat /\
    snd (getUiAutomatorDump adbPath execFileSync deviceId tr) =
      (tr ++ List.repeat (dump_command adbPath deviceId) k)%list /\
    match fst (getUiAutomatorDump adbPath execFileSync deviceId tr) with
    | inr xml => includes xml null_root = false
    | inl _ => True
    end.
Proof.
  destruct (getUiAutomatorDump_from_bounded 10 tr) as (k & Hk & Hpos & Htr & Hxml).
  exists k. split; [lia|]. split; [exact Htr|].
  unfold getUiAutomatorDump.
  destruct (fst (getUiAutomatorDump_from adbPath execFileSync deviceId 10 tr));
    [exact I | now apply Hxml].
Qed.

Lemma getUiAutomatorDump_from_exhausted (n : nat) (tr : Trace) :
  (forall t, exists dump,
     execFileSync t (dump_command adbPath deviceId) = inr dump /\
     includes dump null_root = true) ->
  getUiAutomatorDump_from adbPath execFileSync deviceId n tr =
  (inl (ActionableError "Failed to get UIAutomator XML"),
   (tr ++ List.repeat (dump_command adbPath deviceId) n)%list).
Proof.
  intros H. revert tr. induction n as [|n IH]; intros tr.
  - simpl. now rewrite List.app_nil_r.
  - rewrite getUiAutomatorDump_from_S. destruct (H tr) as (dump & -> & ->).
    rewrite IH, <- List.app_assoc. reflexivity.
Qed.

(** X5.  On a device whose every dump reports a null root node,
    [getUiAutomatorDump] gives up after exactly ten dumps with the
    actionable error "Failed to get UIAutomator XML". *)
Theorem getUiAutomatorDump_gives_up (tr : Trace) :
  (forall t, exists dump,
     execFileSync t (dump_command adbPath deviceId) = inr dump /\
     includes dump null_root = true) ->
  getUiAutomatorDump adbPath execFileSync deviceId tr =
  (inl (ActionableError "Failed to get UIAutomator XML"),
   (tr ++ List.repeat (dump_command adbPath deviceId) 10)%list).
Proof. apply getUiAutomatorDump_from_exhausted. Qed.

End Dump.

(** ** Typed text *)

Lemma escape_spaces_cons (c : ascii) (r : string) :
  escape_spaces (String c r) =
  if Ascii.eqb c " " then String "\" (String " " (escape_spaces r))
  else String c (escape_spaces r).
Proof. reflexivity. Qed.

Lemma escape_spaces_escaped (text a b : string) :
  escape_spaces text = a ++ String " " b -> exists a', a = a' ++ "\".
Proof.
  revert a. induction text as [|c r IH]; intros a H.
  - destruct a; discriminate.
  - rewrite escape_spaces_cons in H. destruct (Ascii.eqb c " ") eqn:E.
    + destruct a as [|x [|y a]]; simpl in H.
      * discriminate.
      * injection H as <- _. now exists "".
      * injection H as <- <- H. apply IH in H. destruct H as [a' ->].
        now exists (String "\" (String " " a')).
    + destruct a as [|x a]; simpl in H.
      * injection H as -> _. discriminate.
      * injection H as <- H. apply IH in H. destruct H as [a' ->].
        now exists (String c a').
Qed.

Lemma escape_spaces_injective (s t : string) :
  escape_spaces s = escape_spaces t -> s = t.
Proof.
  revert t. induction s as [|c s IH]; intros [|d t]; rewrite ?escape_spaces_cons.
  - reflexivity.
  - destruct (Ascii.eqb d " "); discriminate.
  - destruct (Ascii.eqb c " "); discriminate.
  - destruct (Ascii.eqb c " ") eqn:Ec, (Ascii.eqb d " ") eqn:Ed.
    + apply Ascii.eqb_eq in Ec, Ed. subst. intros [= H]. f_equal. now apply IH.
    + intros [= <- H]. exfalso.
      destruct (escape_spaces_escaped t "" (escape_spaces s) (eq_sym H)) as [a' Ha].
      destruct a'; discriminate.
    + intros [= -> H]. exfalso.
      destruct (escape_spaces_escaped s "" (escape_spaces t) H) as [a' Ha].
      destruct a'; discriminate.
    + intros [= -> H]. f_equal. now apply IH.
Qed.

(** X6.  The argument [sendKeys] hands to [input text]: every space of it
    comes right after a backslash, and two different texts never give the
    same argument. *)
Theorem sendKeys_argument (text : string) :
  (forall a b, escape_spaces text = a ++ String " " b -> exists a', a = a' ++ "\") /\
  (forall other, escape_spaces other = escape_spaces text -> other = text).
Proof.
  split.
  - apply escape_spaces_escaped.
  - intros other. apply escape_spaces_injective.
Qed.

(** ** The list of applications *)

Lemma existsb_eqb_In (v : string) (seen : list string) :
  List.existsb (String.eqb v) seen = true <-> In v seen.
Proof.
  rewrite existsb_exists. split.
  - intros (x & Hx & E). apply String.eqb_eq in E. now subst.
  - intros H. exists v. split; [exact H | apply String.eqb_refl].
Qed.

Lemma first_occurrences_spec (l seen : list string) :
  NoDup (first_occurrences seen l) /\
  forall x, In x (first_occurrences seen l) <-> In x l /\ ~ In x seen.
Proof.
  revert seen. induction l as [|v r IH]; intros seen; simpl.
  - split; [constructor | tauto].
  - destruct (List.existsb (String.eqb v) seen) eqn:E.
    + apply existsb_eqb_In in E. destruct (IH seen) as [Hnd Hin].
      split; [exact Hnd|]. intros x. rewrite Hin.
      split; [tauto|]. intros [[-> | H] Hn]; [contradiction | tauto].
    + assert (~ In v seen) as Hv by (rewrite <- existsb_eqb_In; congruence).
      destruct (IH (v :: seen)) as [Hnd Hin]. split.
      * constructor; [|exact Hnd]. rewrite Hin. simpl. tauto.
      * intros x. simpl. rewrite Hin. simpl.
        destruct (string_dec v x) as [-> | Hne]; tauto.
Qed.

(** The lines [<key><v>] of an output, white space around them ignored *)
Lemma keyed_lines (key out v : string) :
  In v (List.map (skip (String.length key))
          (List.filter (fun line => startsWith line key) (List.map trim (split LF out)))) <->
  exists line, In line (split LF out) /\ trim line = key ++ v.
Proof.
  rewrite in_map_iff. split.
  - intros (line & <- & Hl). apply filter_In in Hl. destruct Hl as [Hl Hp].
    apply in_map_iff in Hl. destruct Hl as (raw & <- & Hraw).
    exists raw. split; [exact Hraw|].
    unfold startsWith in Hp. apply prefix_spec in Hp. destruct Hp as [r Hr].
    rewrite Hr. now rewrite skip_app.
  - intros (raw & Hraw & E). exists (trim raw). split.
    + rewrite E. apply skip_app.
    + apply filter_In. split; [apply in_map; exact Hraw|].
      rewrite E. apply prefix_app.
Qed.

(** X7.  [listApps] names every package once: on the output [out] of the
    query it returns one entry for each package that a line
    [packageName=<p>] of [out] names (white space around the line
    ignored), no two entries with the same package, each with the package
    name as its application name. *)
Theorem listApps_distinct (adbPath : string)
  (execFileSync : Trace -> NativeCommand -> Result Buffer) (deviceId : string)
  (tr : Trace) (out : string) :
  execFileSync tr (list_apps_command adbPath deviceId) = inr out ->
  exists apps,
    listApps adbPath execFileSync deviceId tr =
      (inr apps, (tr ++ [list_apps_command adbPath deviceId])%list) /\
    NoDup (List.map packageName apps) /\
    (forall app, In app apps -> appName app = packageName app) /\
    (forall p, In p (List.map packageName apps) <->
               exists line, In line (split LF out) /\ trim line = "packageName=" ++ p).
Proof.
  intros H. unfold listApps, bind, adb, ret. fold (list_apps_command adbPath deviceId).
  rewrite H.
  set (names := first_occurrences [] _).
  exists (List.map (fun packageName => Build_InstalledApp packageName packageName) names).
  split; [reflexivity|].
  assert (List.map packageName
            (List.map (fun packageName => Build_InstalledApp packageName packageName) names)
          = names) as ->.
  { rewrite List.map_map. simpl. apply List.map_id. }
  destruct (first_occurrences_spec
              (List.map (skip (String.length "packageName="))
                 (List.filter (fun line => startsWith line "packageName=")
                    (List.map trim (split LF out)))) []) as [Hnd Hin].
  split; [exact Hnd|]. split.
  - intros app Happ. apply in_map_iff in Happ. destruct Happ as (p & <- & _). reflexivity.
  - intros p. subst names. rewrite Hin, keyed_lines. simpl. tauto.
Qed.

(** ** Splitting *)

Lemma append_empty_r (s : string) : s ++ "" = s.
Proof. induction s; simpl; congruence. Qed.

Lemma split_cons (sep c : ascii) (r : string) :
  split sep (String c r) =
  if Ascii.eqb c sep then "" :: split sep r
  else match split sep r with
       | h :: t => String c h :: t
       | [] => [String c ""]
       end.
Proof. reflexivity. Qed.

Lemma split_nonempty (sep : ascii) (s : string) : split sep s <> [].
Proof.
  destruct s as [|c r]; [discriminate|]. rewrite split_cons.
  destruct (Ascii.eqb c sep); [discriminate|]. destruct (split sep r); discriminate.
Qed.

Lemma split_app (sep : ascii) (a b : string) :
  split sep (a ++ String sep b) = (split sep a ++ split sep b)%list.
Proof.
  induction a as [|c a IH].
  - simpl. now rewrite Ascii.eqb_refl.
  - cbn [append]. rewrite !split_cons, IH.
    destruct (Ascii.eqb c sep); [reflexivity|].
    pose proof (split_nonempty sep a) as Hne.
    destruct (split sep a); [contradiction | reflexivity].
Qed.

Lemma split_none (sep : ascii) (s : string) :
  all_chars (fun c => negb (Ascii.eqb c sep)) s = true -> split sep s = [s].
Proof.
  induction s as [|c s IH]; [reflexivity|]. simpl.
  intros H. apply andb_true_iff in H. destruct H as [Hc Hs].
  apply negb_true_iff in Hc. rewrite Hc, (IH Hs). reflexivity.
Qed.

Lemma last_app_nonempty {A : Type} (l1 l2 : list A) (d : A) :
  l2 <> [] -> List.last (l1 ++ l2)%list d = List.last l2 d.
Proof.
  intros H. induction l1 as [|x l1 IH]; [reflexivity|].
  cbn [app]. destruct (l1 ++ l2)%list eqn:E.
  - apply app_eq_nil in E. destruct E. contradiction.
  - rewrite <- IH. reflexivity.
Qed.

Lemma all_chars_impl (f g : ascii -> bool) (s : string) :
  (forall c, f c = true -> g c = true) ->
  all_chars f s = true -> all_chars g s = true.
Proof.
  intros Hfg. induction s as [|c s IH]; [reflexivity|]. simpl.
  rewrite !andb_true_iff. intros [Hc Hs]. auto.
Qed.

(** ** The screen size *)

Lemma digit_not_ws (c : ascii) : isDigit c = true -> isWhiteSpace c = false.
Proof.
  destruct c as [[] [] [] [] [] [] [] []]; intros H; try discriminate H; reflexivity.
Qed.

Lemma digit_not_x (c : ascii) : isDigit c = true -> negb (Ascii.eqb c "x") = true.
Proof.
  destruct c as [[] [] [] [] [] [] [] []]; intros H; try discriminate H; reflexivity.
Qed.

Lemma digit_not_space (c : ascii) : isDigit c = true -> negb (Ascii.eqb c " ") = true.
Proof.
  destruct c as [[] [] [] [] [] [] [] []]; intros H; try discriminate H; reflexivity.
Qed.

Lemma trimEnd_app_ws (d w : string) :
  all_chars (fun c => negb (isWhiteSpace c)) d = true ->
  all_chars isWhiteSpace w = true -> trimEnd (d ++ w) = d.
Proof.
  intros Hd Hw. induction d as [|c d IH].
  - now apply trimEnd_empty.
  - simpl in Hd. apply andb_true_iff in Hd. destruct Hd as [Hc Hd].
    apply negb_true_iff in Hc. cbn [append trimEnd]. rewrite (IH Hd).
    destruct d; [now rewrite Hc | reflexivity].
Qed.

(** [Number] reads a numeral, whatever white space follows it. *)
Lemma Number_numeral (n : N) (w : string) :
  all_chars isWhiteSpace w = true -> Number (numeral n ++ w) = int (Z.of_N n).
Proof.
  intros Hw. destruct (is_numeral_numeral n) as [Hne Hd].
  assert (trim (numeral n ++ w) = numeral n) as E.
  { unfold trim.
    assert (trimStart (numeral n ++ w) = numeral n ++ w) as ->.
    { destruct (numeral n) as [|c r]; [contradiction|].
      simpl in Hd. apply andb_true_iff in Hd. destruct Hd as [Hc _].
      cbn [append trimStart]. now rewrite (digit_not_ws c Hc). }
    apply trimEnd_app_ws; [|exact Hw].
    revert Hd. apply all_chars_impl. intros c Hc. now rewrite (digit_not_ws c Hc). }
  unfold Number. rewrite E.
  destruct (numeral n) as [|c r] eqn:En; [contradiction|].
  rewrite <- En. unfold Number_of_digits. now rewrite decimal_numeral.
Qed.

Section ScreenSizeRun.

Context {RT : Runtime}.
Variable adbPath : string.
Variable execFileSync : Trace -> NativeCommand -> Result Buffer.
Variable deviceId : string.

Lemma getScreenSize_of_last (tr : Trace) (out : string) :
  execFileSync tr (screen_size_command adbPath deviceId) = inr out ->
  getScreenSize adbPath execFileSync deviceId tr =
  (match List.last (split " " out) "" with
   | EmptyString => inl (Error "Failed to get screen size")
   | String c r =>
       let fields := List.map Number (split "x" (String c r)) in
       inr (ScreenSize.mk (List.nth 0 fields NaN) (List.nth 1 fields NaN) (int 1))
   end, (tr ++ [screen_size_command adbPath deviceId])%list).
Proof.
  intros H. unfold getScreenSize, bind, adb.
  fold (screen_size_command adbPath deviceId). rewrite H.
  now destruct (List.last (split " " out) "").
Qed.

(** X8.  [getScreenSize] reads the last field of the output of [wm size]:
    whatever precedes the last space, an output that ends with
    [<w>x<h>] and a line feed gives the size [w] by [h] at scale 1, from
    one command. *)
Theorem getScreenSize_reads (tr : Trace) (banner : string) (w h : N) :
  execFileSync tr (screen_size_command adbPath deviceId) =
    inr (banner ++ " " ++ numeral w ++ "x" ++ numeral h ++ String LF "") ->
  getScreenSize adbPath execFileSync deviceId tr =
  (inr (ScreenSize.mk (int (Z.of_N w)) (int (Z.of_N h)) (int 1)),
   (tr ++ [screen_size_command adbPath deviceId])%list).
Proof.
  intros H. rewrite (getScreenSize_of_last _ _ H).
  destruct (is_numeral_numeral w) as [Hwne Hwd], (is_numeral_numeral h) as [Hhne Hhd].
  set (field := numeral w ++ "x" ++ numeral h ++ String LF "").
  assert (List.last (split " " (banner ++ " " ++ field)) "" = field) as ->.
  { change (banner ++ " " ++ field) with (banner ++ String " " field).
    rewrite split_app, last_app_nonempty by apply split_nonempty.
    rewrite split_none; [reflexivity|].
    unfold field. rewrite !all_chars_app.
    rewrite (all_chars_impl _ _ _ digit_not_space Hwd).
    rewrite (all_chars_impl _ _ _ digit_not_space Hhd). reflexivity. }
  assert (split "x" field = [numeral w; numeral h ++ String LF ""]) as Hs.
  { unfold field. change ("x" ++ numeral h ++ String LF "")
      with (String "x" (numeral h ++ String LF "")).
    rewrite split_app.
    rewrite (split_none "x" (numeral w)) by (revert Hwd; apply all_chars_impl, digit_not_x).
    rewrite split_none; [reflexivity|].
    rewrite all_chars_app. rewrite (all_chars_impl _ _ _ digit_not_x Hhd). reflexivity. }
  destruct field as [|c r] eqn:Ef.
  - unfold field in Ef. destruct (numeral w); [contradiction | discriminate].
  - cbn zeta. rewrite Hs. cbn [List.map List.nth].
    rewrite <- (append_empty_r (numeral w)) at 1.
    rewrite !Number_numeral by reflexivity. reflexivity.
Qed.

(** An output without a last field: empty, or ending with a space *)
Lemma getScreenSize_fails (tr : Trace) (out : string) :
  execFileSync tr (screen_size_command adbPath deviceId) = inr out ->
  out = "" \/ (exists p, out = p ++ " ") ->
  getScreenSize adbPath execFileSync deviceId tr =
  (inl (Error "Failed to get screen size"),
   (tr ++ [screen_size_command adbPath deviceId])%list).
Proof.
  intros H Hout. rewrite (getScreenSize_of_last _ _ H).
  assert (List.last (split " " out) "" = "") as ->; [|reflexivity].
  destruct Hout as [-> | [p ->]]; [reflexivity|].
  change (p ++ " ") with (p ++ String " " "").
  rewrite split_app, last_app_nonempty by apply split_nonempty. reflexivity.
Qed.

Variable XMLParser_parse : string -> Result UiAutomatorXmlNode.t.
Variable Date_now : Z.

(** X9.  When the output of [wm size] is empty or ends with a space, the
    size cannot be read: a swipe request, anchored or not, is answered
    "Error: Failed to get screen size" with the error flag set (the
    exception is not an actionable one), and no gesture reaches the
    device. *)
Theorem swipe_without_screen_size (direction : string) (x y distance : option number)
  (tr : Trace) (out : string) :
  execFileSync tr (screen_size_command adbPath deviceId) = inr out ->
  out = "" \/ (exists p, out = p ++ " ") ->
  call_tool (Some (AndroidRobot adbPath execFileSync XMLParser_parse Date_now deviceId))
    (Call_swipe_on_screen direction x y distance) tr =
  (inr (failed "Failed to get screen size"),
   (tr ++ [screen_size_command adbPath deviceId])%list).
Proof.
  intros H Hout. pose proof (getScreenSize_fails tr out H Hout) as F.
  unfold call_tool, callback_of, wrappedCb, swipe_on_screen, requireRobot, bind, ret.
  destruct x as [x|], y as [y|]; cbn [AndroidRobot Robot.swipe Robot.swipeFromCoordinate];
    unfold Android.swipe, Android.swipeFromCoordinate, bind; rewrite F; reflexivity.
Qed.

End ScreenSizeRun.

(** ** Buttons and typed text, from the tool to the device *)

(** The own properties of [BUTTON_MAP]: ten names, each mapped to its
    name after [KEYCODE_]. *)
Lemma BUTTON_MAP_spec (button : string) :
  BUTTON_MAP button =
  if List.existsb (String.eqb button) supported_buttons
  then Some ("KEYCODE_" ++ button) else None.
Proof.
  unfold BUTTON_MAP, supported_buttons. cbn [List.existsb].
  repeat (destruct (String.eqb button _) eqn:E;
          [apply String.eqb_eq in E; subst button; reflexivity | clear E]).
  reflexivity.
Qed.

Section Keys.

Context {RT : Runtime}.
Variable adbPath : string.
Variable execFileSync : Trace -> NativeCommand -> Result Buffer.
Variable XMLParser_parse : string -> Result UiAutomatorXmlNode.t.
Variable Date_now : Z.
Variable deviceId : string.

(** X10.  [mobile_press_button] on an Android device: a button of the table
    sends the one key event [KEYCODE_<button>]; a name that the table
    inherits from [Object.prototype] ("constructor", "toString",
    "__proto__", ...) is not refused either, it sends one key event whose
    key code is the inherited value as [String] prints it; any other name
    is refused with the actionable error [Button "<button>" is not
    supported] and nothing is sent to the device. *)
Theorem press_button_android (button : string) (tr : Trace) :
  let pressed (keycode : string) :=
    (@inr exn _
       match execFileSync tr (keyevent_command adbPath deviceId keycode) with
       | inr _ => answered ("Pressed the button: " ++ button)
       | inl e => reported e
       end,
     (tr ++ [keyevent_command adbPath deviceId keycode])%list) in
  call_tool (Some (AndroidRobot adbPath execFileSync XMLParser_parse Date_now deviceId))
    (Call_press_button button) tr =
  if List.existsb (String.eqb button) supported_buttons
  then pressed ("KEYCODE_" ++ button)
  else if List.existsb (String.eqb button) Object_prototype
  then pressed (Object_prototype_String button)
  else
    (inr (reported (ActionableError ("Button " ++ quote ++ button ++ quote ++ " is not supported"))),
     tr).
Proof.
  intros pressed. subst pressed.
  unfold call_tool, callback_of, wrappedCb, mobile_press_button, requireRobot, bind, ret.
  cbn [AndroidRobot Robot.pressButton]. unfold pressButton, BUTTON_MAP_get.
  rewrite BUTTON_MAP_spec.
  destruct (List.existsb (String.eqb button) supported_buttons).
  - unfold bind, adb, ret. fold (keyevent_command adbPath deviceId ("KEYCODE_" ++ button)).
    destruct (execFileSync tr _) as [[m|m]|out]; reflexivity.
  - destruct (List.existsb (String.eqb button) Object_prototype); [|reflexivity].
    unfold bind, adb, ret.
    fold (keyevent_command adbPath deviceId (Object_prototype_String button)).
    destruct (execFileSync tr _) as [[m|m]|out]; reflexivity.
Qed.

(** X11.  [mobile_type_keys] on an Android device: the text goes first, in
    one [input text] command; with [submit], the key event [KEYCODE_ENTER]
    follows, and only if the text command succeeded. *)
Theorem type_keys_android (text : string) (submit : bool) (tr : Trace) :
  call_tool (Some (AndroidRobot adbPath execFileSync XMLParser_parse Date_now deviceId))
    (Call_type_keys text submit) tr =
  let typing := text_command adbPath deviceId text in
  let enter := keyevent_command adbPath deviceId "KEYCODE_ENTER" in
  match execFileSync tr typing with
  | inl e => (inr (reported e), (tr ++ [typing])%list)
  | inr _ =>
      if submit then
        (inr match execFileSync (tr ++ [typing])%list enter with
             | inl e => reported e
             | inr _ => answered ("Typed text: " ++ text)
             end, ((tr ++ [typing]) ++ [enter])%list)
      else (inr (answered ("Typed text: " ++ text)), (tr ++ [typing])%list)
  end.
Proof.
  unfold call_tool, callback_of, wrappedCb, mobile_type_keys, requireRobot, bind, ret.
  cbn [AndroidRobot Robot.pressButton Robot.sendKeys].
  unfold sendKeys, pressButton, bind, adb, ret.
  fold (text_command adbPath deviceId text).
  destruct (execFileSync tr _) as [[m|m]|out]; [reflexivity | reflexivity |].
  destruct submit; [|reflexivity].
  change (BUTTON_MAP_get "ENTER") with (Some "KEYCODE_ENTER"). cbv iota beta.
  fold (keyevent_command adbPath deviceId "KEYCODE_ENTER").
  destruct (execFileSync (tr ++ _)%list _) as [[m|m]|out']; reflexivity.
Qed.

End Keys.

(** ** What leaves a tool callback *)

Section Callbacks.

Context {RT : Runtime}.

(** X12.  The only exception that ever leaves a tool callback is the
    "No device selected" error of [mobile_take_screenshot], which calls
    [requireRobot] outside its [try]: every other tool is wrapped, and with
    a device selected the screenshot tool catches what its body throws. *)
Theorem only_screenshot_throws (robot : option Robot.t) (c : ToolCall) (tr : Trace)
  (e : exn) :
  fst (call_tool robot c tr) = inl e <->
  robot = None /\ (exists ios_use_booted save, c = Call_take_screenshot ios_use_booted save) /\
  e = no_device_selected.
Proof.
  assert (forall cb : M string,
            fst (let (res, t') := wrappedCb cb tr in (@inr exn _ res, t')) = inl e <-> False)
    as W by (intros cb; destruct (wrappedCb cb tr); simpl; split; [discriminate | tauto]).
  destruct c; unfold call_tool, callback_of;
    try (rewrite W; split; [tauto | intros (_ & (b & s & [=]) & _)]).
  unfold mobile_take_screenshot, requireRobot, bind, try_catch, throw, ret.
  destruct robot as [r|].
  - destruct (take_screenshot r _ _ tr) as [[err|res] t']; simpl;
      split; [discriminate | intros ([=] & _) | discriminate | intros ([=] & _)].
  - simpl. split.
    + intros [= <-]. split; [reflexivity|]. split; [eauto | reflexivity].
    + intros (_ & _ & ->). reflexivity.
Qed.

End Callbacks.

(** ** Where a tap lands *)

(** X13.  The point at which [mobile_tap_element] taps an element of the
    Android extractor, [rect.x + rect.width / 2] by
    [rect.y + rect.height / 2], is a number and lies strictly inside the
    element's rectangle. *)
Theorem tap_point_inside (root : UiAutomatorXmlNode.t) (e : ScreenElement.t) :
  In e (collectElements root) ->
  exists x y w h cx cy : Q,
    ScreenElement.rect e = ScreenElementRect.mk (Num x) (Num y) (Num w) (Num h) /\
    centerX (ScreenElement.rect e) = Num cx /\
    centerY (ScreenElement.rect e) = Num cy /\
    (x < cx /\ cx < x + w)%Q /\ (y < cy /\ cy < y + h)%Q.
Proof.
  intros H. apply in_collectElements in H. destruct H as (node & _ & _ & Hpos & ->).
  apply positive_rect_whole in Hpos.
  destruct Hpos as (x & y & w & h & _ & _ & Hw & Hh & E).
  cbn [element_of ScreenElement.rect]. rewrite E.
  exists (inject_Z x), (inject_Z y), (inject_Z w), (inject_Z h),
         (inject_Z x + inject_Z w / inject_Z 2)%Q, (inject_Z y + inject_Z h / inject_Z 2)%Q.
  split; [reflexivity|]. split; [reflexivity|]. split; [reflexivity|].
  rewrite Zlt_Qlt in Hw, Hh.
  change (inject_Z 0) with 0%Q in Hw, Hh. change (inject_Z 2) with 2%Q.
  clear E. revert Hw Hh.
  generalize (inject_Z x) (inject_Z y) (inject_Z w) (inject_Z h).
  intros qx qy qw qh Hw Hh. unfold Qdiv. change (/ 2)%Q with (1 # 2)%Q.
  split; split; lra.
Qed.

(** ** The filter grammar of the logs *)

Lemma match_package_eq (s : string) :
  match_package s =
  match match_package_here s with
  | Some m => Some m
  | None =>
      match s with
      | EmptyString => None
      | String _ r => match_package r
      end
  end.
Proof. destruct s; reflexivity. Qed.

Lemma span_nonspace_word (p rest : string) :
  all_chars (fun c => negb (isWhiteSpace c)) p = true ->
  rest = "" \/ (exists c r, rest = String c r /\ isWhiteSpace c = true) ->
  span_nonspace (p ++ rest) = (p, rest).
Proof.
  intros Hp Hrest. induction p as [|c p IH].
  - destruct Hrest as [-> | (c & r & -> & Hc)]; simpl; [reflexivity | now rewrite Hc].
  - simpl in Hp. apply andb_true_iff in Hp. destruct Hp as [Hc Hp].
    apply negb_true_iff in Hc. cbn [append span_nonspace]. now rewrite Hc, (IH Hp).
Qed.

Lemma span_dots_line (q : string) :
  all_chars (fun c => negb (isLineTerminator c)) q = true -> span_dots q = q.
Proof.
  induction q as [|c q IH]; [reflexivity|]. simpl.
  intros H. apply andb_true_iff in H. destruct H as [Hc Hq].
  apply negb_true_iff in Hc. now rewrite Hc, (IH Hq).
Qed.

Lemma match_tail_phrase (q : string) : phrase q -> match_tail (String " " q) = Some q.
Proof.
  intros [(c & r & -> & Hc) Hq].
  cbn [match_tail]. change (isWhiteSpace " ") with true. cbv iota.
  rewrite Hc. rewrite (span_dots_line _ Hq). reflexivity.
Qed.

Lemma package_filter_not_mine (p : string) (query : option string) :
  word p -> startsWith p "mine" = false ->
  startsWith (package_filter p query) "package:mine" = false.
Proof.
  intros [Hne Hp] Hmine.
  destruct (startsWith (package_filter p query) "package:mine") eqn:E; [|reflexivity].
  exfalso.
  unfold startsWith in E. apply prefix_spec in E. destruct E as [r E].
  unfold package_filter in E.
  change ("package:mine" ++ r) with ("package:" ++ "mine" ++ r) in E.
  apply append_cancel_l in E. destruct query as [q|].
  - exact (not_mine_prefix p q r Hne Hmine E).
  - rewrite append_empty_r in E. rewrite E in Hmine.
    unfold startsWith in Hmine. now rewrite prefix_app in Hmine.
Qed.

Lemma parse_package_filter (p : string) (query : option string) :
  word p -> startsWith p "mine" = false ->
  (forall q, query = Some q -> phrase q) ->
  parse_filter (Some (package_filter p query)) = (Some p, query).
Proof.
  intros Hw Hmine Hq. pose proof (package_filter_not_mine p query Hw Hmine) as Hnm.
  destruct Hw as [Hne Hp].
  assert (includes (package_filter p query) "package:" = true) as Hinc.
  { apply includes_spec. exists "", (p ++ match query with Some q => " " ++ q | None => "" end).
    reflexivity. }
  assert (match_package (package_filter p query) = Some (p, query)) as Hm.
  { rewrite match_package_eq. unfold match_package_here, package_filter.
    rewrite prefix_app. change 8%nat with (String.length "package:"). rewrite skip_app.
    destruct query as [q|].
    - change (" " ++ q) with (String " " q).
      rewrite span_nonspace_word; [|exact Hp | right; exists " "%char, q; now split].
      rewrite (match_tail_phrase q (Hq q eq_refl)). destruct p; [contradiction | reflexivity].
    - rewrite span_nonspace_word; [|exact Hp | now left].
      destruct p; [contradiction | reflexivity]. }
  unfold parse_filter. destruct (package_filter p query) as [|c r] eqn:E; [discriminate|].
  now rewrite Hnm, Hinc, Hm.
Qed.

Lemma specific_package_word (p : string) :
  p <> "" -> startsWith p "mine" = false -> specific_package (Some p) = Some p.
Proof.
  intros Hne Hmine. destruct p as [|c r]; [contradiction|]. unfold specific_package.
  destruct (String.eqb (String c r) "mine") eqn:E; [|reflexivity].
  apply String.eqb_eq in E. rewrite E in Hmine. discriminate.
Qed.

Lemma not_package_not_mine (f : string) :
  includes f "package:" = false -> startsWith f "package:mine" = false.
Proof.
  intros H. destruct (startsWith f "package:mine") eqn:E; [|reflexivity].
  apply startsWith_mine_includes in E. congruence.
Qed.

Lemma match_package_none (s : string) :
  includes s "package:" = false -> match_package s = None.
Proof.
  induction s as [|c s IH]; rewrite match_package_eq; unfold match_package_here.
  - rewrite includes_nil. now intros ->.
  - rewrite includes_cons. intros H. apply orb_false_iff in H. destruct H as [-> H].
    now apply IH.
Qed.

Lemma prefix_head_ne (c c' : ascii) (p s : string) :
  c <> c' -> String.prefix (String c p) (String c' s) = false.
Proof. intros H. simpl. destruct (ascii_dec c c'); [contradiction | reflexivity]. Qed.

(** [package:] followed by nothing, or by white space, names no package:
    the pattern [package:([^\s]+)] finds no match in it. *)
Lemma match_package_blank (t : string) :
  t = "" \/ (exists c r, t = String c r /\ isWhiteSpace c = true) ->
  includes t "package:" = false ->
  match_package ("package:" ++ t) = None.
Proof.
  intros Ht Hinc.
  rewrite match_package_eq. unfold match_package_here at 1.
  rewrite prefix_app. change 8%nat with (String.length "package:"). rewrite skip_app.
  assert (fst (span_nonspace t) = "") as E.
  { destruct Ht as [-> | (c & r & -> & Hc)]; simpl; [reflexivity | now rewrite Hc]. }
  destruct (span_nonspace t) as [g rest]. simpl in E. subst g.
  cbn [append].
  do 7 (rewrite match_package_eq; unfold match_package_here at 1;
        rewrite prefix_head_ne by discriminate).
  now apply match_package_none.
Qed.

Lemma parse_blank_package (t : string) :
  t = "" \/ (exists c r, t = String c r /\ isWhiteSpace c = true) ->
  includes t "package:" = false ->
  parse_filter (Some ("package:" ++ t)) = (None, None).
Proof.
  intros Ht Hinc. unfold parse_filter. cbn [append].
  assert (startsWith ("package:" ++ t) "package:mine" = false) as Hnm.
  { destruct (startsWith ("package:" ++ t) "package:mine") eqn:E; [|reflexivity]. exfalso.
    unfold startsWith in E. apply prefix_spec in E. destruct E as [r E].
    change ("package:mine" ++ r) with ("package:" ++ "mine" ++ r) in E.
    apply append_cancel_l in E.
    destruct Ht as [-> | (c & r' & -> & Hc)]; [discriminate|].
    injection E as -> _. discriminate. }
  assert (includes ("package:" ++ t) "package:" = true) as Hi.
  { apply includes_spec. exists "", t. reflexivity. }
  cbn [append] in Hnm, Hi. rewrite Hnm, Hi.
  pose proof (match_package_blank t Ht Hinc) as Hm. cbn [append] in Hm. now rewrite Hm.
Qed.

(** ** The post-processing of the logs *)

Lemma filter_idem {A : Type} (f : A -> bool) (l : list A) :
  List.filter f (List.filter f l) = List.filter f l.
Proof.
  rewrite filter_filter. apply List.filter_ext. intros x. now destruct (f x).
Qed.

Lemma split_parts_no_sep (sep : ascii) (s x : string) :
  In x (split sep s) -> all_chars (fun c => negb (Ascii.eqb c sep)) x = true.
Proof.
  revert x. induction s as [|c s IH]; intros x.
  - simpl. intros [<- | []]. reflexivity.
  - rewrite split_cons. destruct (Ascii.eqb c sep) eqn:E.
    + intros [<- | H]; [reflexivity | now apply IH].
    + pose proof (split_nonempty sep s) as Hne.
      destruct (split sep s) as [|h t]; [contradiction|].
      intros [<- | H].
      * simpl. rewrite E. simpl. apply IH. now left.
      * apply IH. now right.
Qed.

Lemma join_cons2 (sep x y : string) (l : list string) :
  join sep (x :: y :: l) = x ++ sep ++ join sep (y :: l).
Proof. reflexivity. Qed.

Lemma split_join (sep : ascii) (l : list string) :
  l <> [] ->
  (forall x, In x l -> all_chars (fun c => negb (Ascii.eqb c sep)) x = true) ->
  split sep (join (String sep "") l) = l.
Proof.
  intros Hne Hl. induction l as [|x l IH]; [contradiction|].
  destruct l as [|y l].
  - simpl. apply split_none. apply Hl. now left.
  - rewrite join_cons2. change (String sep "" ++ join (String sep "") (y :: l))
      with (String sep (join (String sep "") (y :: l))).
    rewrite split_app, IH; [|discriminate | intros z Hz; apply Hl; now right].
    rewrite split_none by (apply Hl; now left). reflexivity.
Qed.

(** The four stages of the post-processing are one filter. *)
Lemma post_process_one_filter (filter packageFilter searchQuery : option string) :
  exists keep : string -> bool,
    (forall line, keep line = true -> String.eqb (trim line) "" = false) /\
    forall output,
      post_process filter packageFilter searchQuery output =
      join (String LF "") (List.filter keep (split LF output)).
Proof.
  eexists. split; [|intros output; rewrite post_process_stages, !filter_filter; reflexivity].
  intros line H. cbv beta in H. apply andb_true_iff in H.
  destruct H as [H _]. now apply negb_true_iff in H.
Qed.

(** X16.  The post-processing of the logs only removes lines, and removes
    them for good: every line of its result is a line of the output, and
    post-processing the result again changes nothing. *)
Theorem post_process_idempotent (filter packageFilter searchQuery : option string)
  (output : string) :
  post_process filter packageFilter searchQuery
    (post_process filter packageFilter searchQuery output) =
  post_process filter packageFilter searchQuery output /\
  forall line,
    In line (split LF (post_process filter packageFilter searchQuery output)) ->
    line = "" \/ In line (split LF output).
Proof.
  destruct (post_process_one_filter filter packageFilter searchQuery) as (keep & Hk & E).
  rewrite !E.
  destruct (List.filter keep (split LF output)) as [|x l] eqn:F.
  - split.
    + simpl. destruct (keep "") eqn:K; [|reflexivity]. apply Hk in K. discriminate.
    + simpl. intros line [<- | []]. now left.
  - assert (split LF (join (String LF "") (x :: l)) = x :: l) as S.
    { apply split_join; [discriminate|]. intros z Hz. rewrite <- F in Hz.
      apply filter_In in Hz. destruct Hz as [Hz _]. now apply split_parts_no_sep in Hz. }
    rewrite S. split.
    + now rewrite <- F, filter_idem.
    + intros line Hl. right. rewrite <- F in Hl. apply filter_In in Hl. tauto.
Qed.

Section MoreLogs.

Context {RT : Runtime}.
Variable adbPath : string.
Variable execFileSync : Trace -> NativeCommand -> Result Buffer.
Variable Date_now : Z.
Variable deviceId : string.

Lemma pid_args_none (tr : Trace) :
  pid_args adbPath execFileSync deviceId None tr = (inr [], tr).
Proof. reflexivity. Qed.

Lemma pid_args_specific (p : string) (tr : Trace) :
  specific_package (Some p) = Some p ->
  exists pids,
    pid_args adbPath execFileSync deviceId (Some p) tr =
    (inr pids, (tr ++ [pidof_command adbPath deviceId p])%list).
Proof.
  intros H. unfold pid_args. rewrite H. unfold try_catch, bind, adb, ret.
  fold (pidof_command adbPath deviceId p).
  destruct (execFileSync tr _) as [e|out]; [now eexists|].
  destruct (trim out); now eexists.
Qed.

(** X14.  With the filter [package:<p>] or [package:<p> <q>] ([p] a word
    that does not begin with "mine", [q] a phrase), [getDeviceLogs] asks the
    device for the process of [p], then reads the log once, and returns
    exactly the lines that are not blank, contain [p] itself and, if there
    is a [q], contain [q] whatever the case of the letters. *)
Theorem package_filter_logs (p : string) (query : option string)
  (tw : option string) (ios : option bool) (tr : Trace) :
  word p -> startsWith p "mine" = false ->
  (forall q, query = Some q -> phrase q) ->
  let start := timeFormat (Date_now - parseTimeWindow (or_lit tw "1m") * 1000) in
  let lookup := pidof_command adbPath deviceId p in
  exists pids,
    getDeviceLogs adbPath execFileSync Date_now deviceId
      (Some (LogOptions.mk tw (Some (package_filter p query)) ios None)) tr =
    (match execFileSync (tr ++ [lookup])%list (logcat_command adbPath deviceId start pids) with
     | inl e => inl e
     | inr output =>
         inr (join (String LF "") (List.filter (package_keeps p query) (split LF output)))
     end,
     ((tr ++ [lookup]) ++ [logcat_command adbPath deviceId start pids])%list).
Proof.
  intros Hw Hmine Hq start lookup.
  pose proof (getDeviceLogs_run adbPath execFileSync Date_now deviceId
                (Some (LogOptions.mk tw (Some (package_filter p query)) ios None)) tr) as R.
  cbv zeta in R.
  unfold option_filter, option_process, option_timeWindow in R.
  cbn [LogOptions.filter LogOptions.process LogOptions.timeWindow] in R.
  rewrite effectiveFilter_of_no_process, (parse_package_filter p query Hw Hmine Hq) in R.
  cbn [fst snd] in R. destruct R as (pids & tr' & Hp & R).
  pose proof (specific_package_word p (proj1 Hw) Hmine) as Hs.
  destruct (pid_args_specific p tr Hs) as (pids' & Hp').
  rewrite Hp' in Hp. injection Hp as <- <-.
  exists pids'. rewrite R. fold start. fold lookup. f_equal.
  destruct (execFileSync _ _) as [e|output]; [reflexivity|]. f_equal.
  rewrite post_process_stages, !filter_filter, Hs.
  pose proof (package_filter_not_mine p query Hw Hmine) as Hnm.
  destruct (package_filter p query) as [|c r] eqn:E; [discriminate|]. rewrite Hnm.
  f_equal. apply List.filter_ext. intros line. unfold package_keeps.
  cbn [andb]. now rewrite andb_assoc.
Qed.

(** X15.  With no filter, or a filter that does not mention [package:],
    and no process, [getDeviceLogs] spawns the one [logcat] command and
    returns exactly the lines that are not blank and contain the filter
    text, whatever the case of the letters. *)
Theorem text_filter_logs (filter tw : option string) (ios : option bool) (tr : Trace) :
  (forall f, filter = Some f -> includes f "package:" = false) ->
  let start := timeFormat (Date_now - parseTimeWindow (or_lit tw "1m") * 1000) in
  let command := logcat_command adbPath deviceId start [] in
  getDeviceLogs adbPath execFileSync Date_now deviceId
    (Some (LogOptions.mk tw filter ios None)) tr =
  (match execFileSync tr command with
   | inl e => inl e
   | inr output =>
       inr (join (String LF "") (List.filter (text_keeps filter) (split LF output)))
   end, (tr ++ [command])%list).
Proof.
  intros Hf start command.
  pose proof (getDeviceLogs_run adbPath execFileSync Date_now deviceId
                (Some (LogOptions.mk tw filter ios None)) tr) as R.
  cbv zeta in R.
  unfold option_filter, option_process, option_timeWindow in R.
  cbn [LogOptions.filter LogOptions.process LogOptions.timeWindow] in R.
  rewrite effectiveFilter_of_no_process in R.
  assert (exists sq, parse_filter filter = (None, sq) /\
                     search_keeps sq = search_keeps filter) as (sq & Hparse & Hsq).
  { destruct filter as [[|c r]|]; [now exists None | | now exists None].
    exists (Some (String c r)). split; [|reflexivity].
    pose proof (Hf _ eq_refl) as Hi. unfold parse_filter.
    now rewrite (not_package_not_mine _ Hi), Hi. }
  rewrite Hparse in R. cbn [fst snd] in R. destruct R as (pids & tr' & Hp & R).
  rewrite pid_args_none in Hp. injection Hp as <- <-.
  rewrite R. fold start. fold command. f_equal.
  destruct (execFileSync tr command) as [e|output]; [reflexivity|]. f_equal.
  rewrite post_process_stages, !filter_filter. f_equal.
  apply List.filter_ext. intros line. unfold text_keeps. rewrite Hsq.
  assert (match filter with
          | Some (String c r) =>
              if startsWith (String c r) "package:mine" then is_user_line line else true
          | _ => true
          end = true) as ->.
  { destruct filter as [[|c r]|]; try reflexivity.
    now rewrite (not_package_not_mine _ (Hf _ eq_refl)). }
  cbn [specific_package andb]. reflexivity.
Qed.

(** X17.  A filter [package:] that names no package (nothing, or white
    space, follows the colon) filters nothing: the pattern of line 315
    finds no match, neither a package nor a text is kept, and
    [getDeviceLogs] returns every line that is not blank. *)
Theorem blank_package_filter_logs (t : string) (tw : option string) (ios : option bool)
  (tr : Trace) :
  t = "" \/ (exists c r, t = String c r /\ isWhiteSpace c = true) ->
  includes t "package:" = false ->
  let start := timeFormat (Date_now - parseTimeWindow (or_lit tw "1m") * 1000) in
  let command := logcat_command adbPath deviceId start [] in
  getDeviceLogs adbPath execFileSync Date_now deviceId
    (Some (LogOptions.mk tw (Some ("package:" ++ t)) ios None)) tr =
  (match execFileSync tr command with
   | inl e => inl e
   | inr output =>
       inr (join (String LF "")
              (List.filter (fun line => negb (String.eqb (trim line) "")) (split LF output)))
   end, (tr ++ [command])%list).
Proof.
  intros Ht Hinc start command.
  pose proof (getDeviceLogs_run adbPath execFileSync Date_now deviceId
                (Some (LogOptions.mk tw (Some ("package:" ++ t)) ios None)) tr) as R.
  cbv zeta in R.
  unfold option_filter, option_process, option_timeWindow in R.
  cbn [LogOptions.filter LogOptions.process LogOptions.timeWindow] in R.
  rewrite effectiveFilter_of_no_process, (parse_blank_package t Ht Hinc) in R.
  cbn [fst snd] in R. destruct R as (pids & tr' & Hp & R).
  rewrite pid_args_none in Hp. injection Hp as <- <-.
  rewrite R. fold start. fold command. f_equal.
  destruct (execFileSync tr command) as [e|output]; [reflexivity|]. f_equal.
  rewrite post_process_stages. cbn [specific_package search_keeps].
  assert (startsWith ("package:" ++ t) "package:mine" = false) as Hnm.
  { destruct (startsWith ("package:" ++ t) "package:mine") eqn:E; [|reflexivity]. exfalso.
    unfold startsWith in E. apply prefix_spec in E. destruct E as [r E].
    change ("package:mine" ++ r) with ("package:" ++ "mine" ++ r) in E.
    apply append_cancel_l in E.
    destruct Ht as [-> | (c & r' & -> & Hc)]; [discriminate|].
    injection E as -> _. discriminate. }
  cbn [append] in Hnm |- *. rewrite Hnm. now rewrite !filter_true.
Qed.

End MoreLogs.

(** ** The start time of the logs *)

Lemma padStart0_below (k : nat) (bound : nat) :
  List.forallb
    (fun i =>
       let s := padStart0 k (numeral (N.of_nat i)) in
       Nat.eqb (String.length s) k && all_chars isDigit s &&
       match decimal s with Some m => N.eqb m (N.of_nat i) | None => false end)
    (List.seq 0 bound) = true ->
  forall n, (n < N.of_nat bound)%N -> padded k n (padStart0 k (numeral n)).
Proof.
  intros H n Hn. rewrite forallb_forall in H.
  specialize (H (N.to_nat n)). rewrite Nnat.N2Nat.id in H.
  assert (In (N.to_nat n) (List.seq 0 bound)) as Hin by (apply in_seq; lia).
  apply H in Hin. cbv zeta in Hin.
  apply andb_true_iff in Hin. destruct Hin as [Hin Hd].
  apply andb_true_iff in Hin. destruct Hin as [Hl Hc].
  apply Nat.eqb_eq in Hl. split; [exact Hl|]. split; [exact Hc|].
  destruct (decimal _) as [m|]; [|discriminate]. apply N.eqb_eq in Hd. now subst.
Qed.

Lemma padStart0_2 (n : N) : (n < 100)%N -> padded 2 n (padStart0 2 (numeral n)).
Proof. apply (padStart0_below 2 100). vm_compute. reflexivity. Qed.

Lemma padStart0_3 (n : N) : (n < 1000)%N -> padded 3 n (padStart0 3 (numeral n)).
Proof. apply (padStart0_below 3 1000). vm_compute. reflexivity. Qed.

Section StartTime.

Context {RT : Runtime}.

(** X18.  The start time handed to [logcat -T] has the shape
    [MM-dd HH:mm:ss.mmm]: for calendar fields in their ranges, each field
    is written with two digits, the milliseconds with three, padded with
    zeros; the month is written one more than [getMonth] gives it. *)
Theorem timeFormat_shape (ms : Z) :
  let startTime := Date_fields ms in
  (getMonth startTime < 12)%N -> (getDate startTime <= 31)%N ->
  (getHours startTime < 24)%N -> (getMinutes startTime < 60)%N ->
  (getSeconds startTime < 60)%N -> (getMilliseconds startTime < 1000)%N ->
  exists month day hours minutes seconds milliseconds,
    timeFormat ms =
      month ++ "-" ++ day ++ " " ++ hours ++ ":" ++ minutes ++ ":" ++ seconds ++ "." ++
      milliseconds /\
    padded 2 (getMonth startTime + 1) month /\
    padded 2 (getDate startTime) day /\
    padded 2 (getHours startTime) hours /\
    padded 2 (getMinutes startTime) minutes /\
    padded 2 (getSeconds startTime) seconds /\
    padded 3 (getMilliseconds startTime) milliseconds.
Proof.
  intros startTime Hmo Hd Hh Hmi Hs Hms.
  do 6 eexists. split; [unfold timeFormat; fold startTime; reflexivity|].
  repeat split; try (apply padStart0_2; lia); try (apply padStart0_3; lia).
Qed.

End StartTime.

(** ** The orientation *)

Section Orientation.

Variable adbPath : string.
Variable execFileSync : Trace -> NativeCommand -> Result Buffer.
Variable deviceId : string.

(** X19.  Setting the orientation and reading it back: on a device that
    runs the two setting commands and then answers the rotation last
    inserted, followed by a line feed, [getOrientation] after
    [setOrientation(o)] gives "portrait" for "portrait" and "landscape" for
    anything else, in three commands. *)
Theorem orientation_round_trip (orientation : string) (tr : Trace) :
  (forall t command, exists out, execFileSync t command = inr out) ->
  (forall t value,
     execFileSync (t ++ [set_rotation_command adbPath deviceId value])%list
       (get_rotation_command adbPath deviceId) = inr (value ++ String LF "")) ->
  (setOrientation adbPath execFileSync deviceId orientation ;;
   getOrientation adbPath execFileSync deviceId) tr =
  (inr (if String.eqb orientation "portrait" then "portrait" else "landscape"),
   (tr ++ [rotation_lock_command adbPath deviceId;
           set_rotation_command adbPath deviceId
             (if String.eqb orientation "portrait" then "0" else "1");
           get_rotation_command adbPath deviceId])%list).
Proof.
  intros Hrun Hget.
  unfold rotation_lock_command, set_rotation_command, get_rotation_command in *.
  unfold setOrientation, getOrientation, bind, adb, ret. cbv zeta.
  set (value := if String.eqb orientation "portrait" then "0" else "1").
  destruct (Hrun tr [adbPath; "-s"; deviceId; "shell"; "settings"; "put"; "system";
                     "accelerometer_rotation"; "0"]) as [o1 ->].
  match goal with
  | |- context [execFileSync ?t ?c] =>
      lazymatch c with
      | context ["insert"] => destruct (Hrun t c) as [o2 ->]
      end
  end.
  rewrite Hget. rewrite <- !List.app_assoc. cbn [app]. f_equal. f_equal.
  unfold value. destruct (String.eqb orientation "portrait"); reflexivity.
Qed.

End Orientation.

(** ** The connected devices *)

Lemma split_parts_all (f : ascii -> bool) (sep : ascii) (s x : string) :
  all_chars f s = true -> In x (split sep s) -> all_chars f x = true.
Proof.
  revert x. induction s as [|c s IH]; intros x Hs.
  - simpl. intros [<- | []]. reflexivity.
  - simpl in Hs. apply andb_true_iff in Hs. destruct Hs as [Hc Hs].
    rewrite split_cons. destruct (Ascii.eqb c sep).
    + intros [<- | H]; [reflexivity | now apply IH].
    + pose proof (split_nonempty sep s) as Hne.
      destruct (split sep s) as [|h t]; [contradiction|].
      intros [<- | H].
      * simpl. rewrite Hc. simpl. apply IH; [exact Hs | now left].
      * apply IH; [exact Hs | now right].
Qed.

Lemma hd_split_in (sep : ascii) (s : string) : In (List.hd "" (split sep s)) (split sep s).
Proof.
  pose proof (split_nonempty sep s) as H.
  destruct (split sep s); [contradiction | now left].
Qed.

(** A device name holds no tab and no line feed. *)
Lemma device_names_clean (out name : string) :
  In name (device_names out) ->
  all_chars (fun c => negb (Ascii.eqb c TAB)) name = true /\
  all_chars (fun c => negb (Ascii.eqb c LF)) name = true.
Proof.
  unfold device_names. rewrite in_map_iff. intros (line & <- & Hl).
  apply filter_In in Hl. destruct Hl as [Hl _]. apply filter_In in Hl. destruct Hl as [Hl _].
  split.
  - apply (split_parts_no_sep TAB line). apply hd_split_in.
  - apply (split_parts_all _ TAB line); [|apply hd_split_in].
    now apply (split_parts_no_sep LF out).
Qed.

Section Devices.

Variable adbPath : string.
Variable execFileSync : Trace -> NativeCommand -> Result Buffer.

Lemma getSystemFeatures_run (deviceId : string) (tr : Trace) :
  getSystemFeatures adbPath execFileSync deviceId tr =
  (match execFileSync tr (features_command adbPath deviceId) with
   | inl e => inl e
   | inr out => inr (feature_names out)
   end, (tr ++ [features_command adbPath deviceId])%list).
Proof.
  unfold getSystemFeatures, bind, adb, ret. fold (features_command adbPath deviceId).
  now destruct (execFileSync tr _).
Qed.

(** X20.  [getDeviceType] asks the device for its features once and
    answers "tv" exactly when a line of the answer, white space around it
    ignored, is [feature:android.software.leanback] or
    [feature:android.hardware.type.television]; "mobile" otherwise. *)
Theorem getDeviceType_tv (name : string) (tr : Trace) (out : string) :
  execFileSync tr (features_command adbPath name) = inr out ->
  exists type,
    getDeviceType adbPath execFileSync name tr =
      (inr type, (tr ++ [features_command adbPath name])%list) /\
    (type = tv <->
     exists line, In line (split LF out) /\
       (trim line = "feature:android.software.leanback" \/
        trim line = "feature:android.hardware.type.television")).
Proof.
  intros H. unfold getDeviceType, bind. rewrite getSystemFeatures_run, H.
  eexists. split; [reflexivity|].
  unfold type_of_features, feature_names.
  pose proof (keyed_lines "feature:" out "android.software.leanback") as K1.
  pose proof (keyed_lines "feature:" out "android.hardware.type.television") as K2.
  rewrite <- existsb_eqb_In in K1, K2.
  destruct (List.existsb (String.eqb "android.software.leanback") _);
  destruct (List.existsb (String.eqb "android.hardware.type.television") _); simpl.
  - split; [intros _ | reflexivity]. destruct (proj1 K1 eq_refl) as (l & Hl & E). eauto.
  - split; [intros _ | reflexivity]. destruct (proj1 K1 eq_refl) as (l & Hl & E). eauto.
  - split; [intros _ | reflexivity]. destruct (proj1 K2 eq_refl) as (l & Hl & E). eauto.
  - split; [discriminate|]. intros (l & Hl & [E | E]).
    + assert (false = true) by (apply K1; eauto). discriminate.
    + assert (false = true) by (apply K2; eauto). discriminate.
Qed.

Lemma getDeviceType_run (name : string) (tr : Trace) :
  getDeviceType adbPath execFileSync name tr =
  (match execFileSync tr (features_command adbPath name) with
   | inl e => inl e
   | inr out => inr (type_of_features (feature_names out))
   end, (tr ++ [features_command adbPath name])%list).
Proof.
  unfold getDeviceType, bind. rewrite getSystemFeatures_run.
  now destruct (execFileSync tr _).
Qed.

Lemma describe_devices_names (names : list string) (tr tr' : Trace)
  (devices : list AndroidDevice) :
  describe_devices adbPath execFileSync names tr = (inr devices, tr') ->
  List.map AndroidDevices.deviceId devices = names.
Proof.
  revert tr tr' devices. induction names as [|name rest IH]; intros tr tr' devices.
  - simpl. unfold ret. now intros [= <- _].
  - cbn [describe_devices]. unfold bind at 1.
    destruct (getDeviceType adbPath execFileSync name tr) as [[e|type] t1]; [discriminate|].
    unfold bind at 1.
    destruct (describe_devices adbPath execFileSync rest t1) as [[e|ds] t2] eqn:E;
      [discriminate|].
    unfold ret. intros [= <- _]. simpl. f_equal. exact (IH _ _ _ E).
Qed.

(** One feature query that fails makes the whole description fail. *)
Lemma describe_devices_fails (names : list string) (name : string) (tr : Trace) :
  In name names ->
  (forall t, exists e, execFileSync t (features_command adbPath name) = inl e) ->
  exists e tr', describe_devices adbPath execFileSync names tr = (inl e, tr').
Proof.
  intros Hin Hfail. revert tr. induction names as [|first rest IH]; intros tr;
    [contradiction|].
  cbn [describe_devices]. unfold bind at 1. rewrite getDeviceType_run.
  destruct (execFileSync tr (features_command adbPath first)) as [e|out] eqn:E;
    [now eauto|].
  destruct Hin as [-> | Hin].
  - destruct (Hfail tr) as [e He]. congruence.
  - destruct (IH Hin (tr ++ [features_command adbPath first])%list) as (e & tr' & D).
    unfold bind. rewrite D. eauto.
Qed.

(** When every feature query succeeds, every name is described. *)
Lemma describe_devices_succeeds (names : list string) (tr : Trace) :
  (forall name t, In name names ->
     exists out, execFileSync t (features_command adbPath name) = inr out) ->
  exists devices tr',
    describe_devices adbPath execFileSync names tr = (inr devices, tr') /\
    List.map AndroidDevices.deviceId devices = names /\
    List.Forall
      (fun device =>
         exists t out,
           execFileSync t (features_command adbPath (AndroidDevices.deviceId device)) =
             inr out /\
           AndroidDevices.deviceType device = type_of_features (feature_names out))
      devices.
Proof.
  intros Hok. revert tr. induction names as [|first rest IH]; intros tr.
  - exists [], tr. split; [reflexivity|]. split; [reflexivity | constructor].
  - cbn [describe_devices]. unfold bind at 1. rewrite getDeviceType_run.
    destruct (Hok first tr (or_introl eq_refl)) as [out E]. rewrite E.
    destruct (IH (fun name t H => Hok name t (or_intror H))
                (tr ++ [features_command adbPath first])%list)
      as (devices & tr' & D & Hn & Ht).
    unfold bind, ret. rewrite D. do 2 eexists. split; [reflexivity|].
    split; [simpl; now rewrite Hn|].
    constructor; [|exact Ht]. exists tr, out. now split.
Qed.

(** X21.  [getConnectedDevices] never throws, and it is all or nothing.
    When [adb devices] fails the answer is empty.  When it prints names and
    the feature query of one of them fails, the answer is empty too.  When
    the feature queries all succeed, the answer holds one device for each
    name printed, in the order printed, each with the type its features
    give it.  In every case the answer is empty or lists every name, and no
    name holds a tab or a line feed. *)
Theorem getConnectedDevices_all_or_nothing (tr : Trace) :
  exists devices,
    fst (getConnectedDevices adbPath execFileSync tr) = inr devices /\
    match execFileSync tr (devices_command adbPath) with
    | inl _ => devices = []
    | inr out =>
        ((exists name,
            In name (device_names out) /\
            forall t, exists e, execFileSync t (features_command adbPath name) = inl e) ->
         devices = []) /\
        ((forall name t, In name (device_names out) ->
            exists features, execFileSync t (features_command adbPath name) = inr features) ->
         List.map AndroidDevices.deviceId devices = device_names out /\
         List.Forall
           (fun device =>
              exists t features,
                execFileSync t (features_command adbPath (AndroidDevices.deviceId device)) =
                  inr features /\
                AndroidDevices.deviceType device = type_of_features (feature_names features))
           devices) /\
        (devices = [] \/ List.map AndroidDevices.deviceId devices = device_names out) /\
        forall name, In name (device_names out) ->
          includes name (String TAB "") = false /\ includes name (String LF "") = false
    end.
Proof.
  unfold getConnectedDevices, try_catch, bind at 1, adb_devices.
  fold (devices_command adbPath).
  destruct (execFileSync tr (devices_command adbPath)) as [e|out] eqn:E.
  - exists []. split; reflexivity.
  - unfold devices_command in *.
    destruct (describe_devices adbPath execFileSync (device_names out) _)
      as [[e|devices] t'] eqn:D.
    + exists []. split; [reflexivity|]. split; [reflexivity|]. split.
      * intros Hok. exfalso.
        destruct (describe_devices_succeeds (device_names out)
                    (tr ++ [[adbPath; "devices"]])%list Hok) as (ds & t2 & D' & _).
        congruence.
      * split; [now left|]. intros name Hin. apply device_names_clean in Hin.
        destruct Hin as [Ht Hl]. split.
        -- destruct (includes name (String TAB "")) eqn:I; [|reflexivity]. exfalso.
           apply includes_spec in I. destruct I as (a & b & I). rewrite I in Ht.
           rewrite !all_chars_app in Ht. simpl in Ht.
           rewrite andb_false_r in Ht. discriminate.
        -- destruct (includes name (String LF "")) eqn:I; [|reflexivity]. exfalso.
           apply includes_spec in I. destruct I as (a & b & I). rewrite I in Hl.
           rewrite !all_chars_app in Hl. simpl in Hl.
           rewrite andb_false_r in Hl. discriminate.
    + exists devices. split; [reflexivity|]. split; [|split; [|split]].
      * intros (name & Hin & Hfail). exfalso.
        destruct (describe_devices_fails (device_names out) name
                    (tr ++ [[adbPath; "devices"]])%list Hin Hfail) as (e & t2 & D').
        congruence.
      * intros Hok.
        destruct (describe_devices_succeeds (device_names out)
                    (tr ++ [[adbPath; "devices"]])%list Hok) as (ds & t2 & D' & Hn & Ht).
        rewrite D in D'. injection D' as <- <-. now split.
      * right. exact (describe_devices_names _ _ _ _ D).
      * intros name Hin. apply device_names_clean in Hin.
        destruct Hin as [Ht Hl]. split.
        -- destruct (includes name (String TAB "")) eqn:I; [|reflexivity]. exfalso.
           apply includes_spec in I. destruct I as (a & b & I). rewrite I in Ht.
           rewrite !all_chars_app in Ht. simpl in Ht.
           rewrite andb_false_r in Ht. discriminate.
        -- destruct (includes name (String LF "")) eqn:I; [|reflexivity]. exfalso.
           apply includes_spec in I. destruct I as (a & b & I). rewrite I in Hl.
           rewrite !all_chars_app in Hl. simpl in Hl.
           rewrite andb_false_r in Hl. discriminate.
Qed.

End Devices.


(** ** Every command goes to the selected device *)

Lemma extends_with_refl (P : NativeCommand -> Prop) (t : Trace) : extends_with P t t.
Proof. exists []. split; [now rewrite List.app_nil_r | constructor]. Qed.

Lemma extends_with_trans (P : NativeCommand -> Prop) (t1 t2 t3 : Trace) :
  extends_with P t1 t2 -> extends_with P t2 t3 -> extends_with P t1 t3.
Proof.
  intros (c1 & -> & H1) (c2 & -> & H2). exists (c1 ++ c2)%list.
  split; [now rewrite List.app_assoc | now apply Forall_app].
Qed.

Lemma only_spawns_ret {A : Type} (P : NativeCommand -> Prop) (a : A) :
  only_spawns P (ret a).
Proof. intros t. apply extends_with_refl. Qed.

Lemma only_spawns_throw {A : Type} (P : NativeCommand -> Prop) (e : exn) :
  only_spawns P (@throw A e).
Proof. intros t. apply extends_with_refl. Qed.

Lemma only_spawns_bind {A B : Type} (P : NativeCommand -> Prop) (m : M A) (k : A -> M B) :
  only_spawns P m -> (forall a, only_spawns P (k a)) -> only_spawns P (bind m k).
Proof.
  intros Hm Hk t. unfold bind. specialize (Hm t).
  destruct (m t) as [[e|a] t']; [exact Hm|].
  exact (extends_with_trans P _ _ _ Hm (Hk a t')).
Qed.


Lemma only_spawns_try_catch {A : Type} (P : NativeCommand -> Prop) (m : M A)
  (h : exn -> M A) :
  only_spawns P m -> (forall e, only_spawns P (h e)) -> only_spawns P (try_catch m h).
Proof.
  intros Hm Hh t. unfold try_catch. specialize (Hm t).
  destruct (m t) as [[e|a] t']; [|exact Hm].
  exact (extends_with_trans P _ _ _ Hm (Hh e t')).
Qed.

Lemma only_spawns_adb (adbPath : string)
  (execFileSync : Trace -> NativeCommand -> Result Buffer) (deviceId : string)
  (args : list string) :
  only_spawns (addressed adbPath deviceId) (adb adbPath execFileSync deviceId args).
Proof.
  intros t. unfold adb. simpl. eexists. split; [reflexivity|].
  constructor; [now exists args | constructor].
Qed.

Create HintDb spawns.

#[local] Hint Resolve only_spawns_ret only_spawns_throw only_spawns_adb : spawns.

Ltac spawns :=
  repeat first
    [ solve [auto with spawns]
    | apply only_spawns_bind; [|intros ?]
    | apply only_spawns_try_catch; [|intros ?]
    | progress cbv zeta
    | match goal with
      | |- only_spawns _ (match ?x with _ => _ end) => destruct x
      end ].

Section Addressed.

Context {RT : Runtime}.
Variable adbPath : string.
Variable execFileSync : Trace -> NativeCommand -> Result Buffer.
Variable XMLParser_parse : string -> Result UiAutomatorXmlNode.t.
Variable Date_now : Z.
Variable deviceId : string.

Lemma getScreenSize_spawns :
  only_spawns (addressed adbPath deviceId) (getScreenSize adbPath execFileSync deviceId).
Proof. unfold getScreenSize. spawns. Qed.

Lemma getUiAutomatorDump_spawns :
  only_spawns (addressed adbPath deviceId) (getUiAutomatorDump adbPath execFileSync deviceId).
Proof.
  unfold getUiAutomatorDump. generalize 10%nat. intros n.
  induction n as [|n IH]; cbn [getUiAutomatorDump_from]; spawns.
Qed.

Lemma getElementsOnScreen_spawns :
  only_spawns (addressed adbPath deviceId) (getElementsOnScreen adbPath execFileSync XMLParser_parse deviceId).
Proof.
  unfold getElementsOnScreen, getUiAutomatorXml.
  apply only_spawns_bind; [|intros ?; spawns].
  apply only_spawns_bind; [apply getUiAutomatorDump_spawns | intros ?; spawns].
Qed.

Lemma swipe_spawns (direction : string) :
  only_spawns (addressed adbPath deviceId) (swipe adbPath execFileSync deviceId direction).
Proof.
  unfold swipe. apply only_spawns_bind; [apply getScreenSize_spawns | intros ?; spawns].
Qed.

Lemma swipeFromCoordinate_spawns (x y : number) (direction : string)
  (distance : option number) :
  only_spawns (addressed adbPath deviceId) (swipeFromCoordinate adbPath execFileSync deviceId x y direction distance).
Proof.
  unfold swipeFromCoordinate.
  apply only_spawns_bind; [apply getScreenSize_spawns | intros ?; spawns].
Qed.

Lemma pressButton_spawns (button : string) :
  only_spawns (addressed adbPath deviceId) (pressButton adbPath execFileSync deviceId button).
Proof. unfold pressButton. spawns. Qed.

Lemma getDeviceLogs_spawns (options : option LogOptions.t) :
  only_spawns (addressed adbPath deviceId) (getDeviceLogs adbPath execFileSync Date_now deviceId options).
Proof.
  unfold getDeviceLogs. cbv zeta.
  destruct (parse_filter _) as [packageFilter searchQuery].
  apply only_spawns_bind; [unfold pid_args; spawns | intros ?; spawns].
Qed.

#[local] Hint Resolve getScreenSize_spawns getElementsOnScreen_spawns swipe_spawns
  swipeFromCoordinate_spawns pressButton_spawns getDeviceLogs_spawns : spawns.



End Addressed.

(** ** The flag [ios_use_booted] and the screenshot *)

Section Screenshot.

Context {RT : Runtime}.

(** X24.  On an Android device the flag [ios_use_booted] changes nothing:
    the robot has no "booted" variant of its methods, so the four tools that
    take the flag run the same commands and give the same answer whatever
    its value. *)
Theorem booted_flag_ignored_on_android (adbPath : string)
  (execFileSync : Trace -> NativeCommand -> Result Buffer)
  (XMLParser_parse : string -> Result UiAutomatorXmlNode.t) (Date_now : Z)
  (deviceId : string) (flag flag' : option bool) (packageName : string)
  (save : option bool) (tr : Trace) :
  let robot := Some (AndroidRobot adbPath execFileSync XMLParser_parse Date_now deviceId) in
  call_tool robot (Call_list_apps flag) tr = call_tool robot (Call_list_apps flag') tr /\
  call_tool robot (Call_launch_app packageName flag) tr =
    call_tool robot (Call_launch_app packageName flag') tr /\
  call_tool robot (Call_terminate_app packageName flag) tr =
    call_tool robot (Call_terminate_app packageName flag') tr /\
  call_tool robot (Call_take_screenshot flag save) tr =
    call_tool robot (Call_take_screenshot flag' save) tr.
Proof.
  intros robot. destruct flag as [[]|], flag' as [[]|]; repeat split; reflexivity.
Qed.

(** X25.  With a device selected, [mobile_take_screenshot] always answers:
    either one text "Error: ..." with the error flag set (whatever was
    thrown, an actionable error included), or a text and an image without
    the flag, the image a JPEG exactly when ImageMagick is installed. *)
Theorem screenshot_answer (r : Robot.t) (ios_use_booted save : option bool) (tr : Trace) :
  exists res tr',
    call_tool (Some r) (Call_take_screenshot ios_use_booted save) tr = (inr res, tr') /\
    ((isError res = true /\ exists message, content res = [TextContent ("Error: " ++ message)]) \/
     (isError res = false /\
      exists text data,
        content res =
          [TextContent text;
           ImageContent data (if isImageMagickInstalled then "image/jpeg" else "image/png")])).
Proof.
  unfold call_tool, callback_of, mobile_take_screenshot, requireRobot, take_screenshot.
  unfold try_catch, bind, ret, throw.
  destruct (Robot.getScreenSize r tr) as [[e|screenSize] t1];
    [do 2 eexists; split; [reflexivity | left; split; [reflexivity | eexists; reflexivity]]|].
  set (shoot := match _ with true => _ | false => _ end).
  destruct (shoot t1) as [[e|screenshot] t2];
    [do 2 eexists; split; [reflexivity | left; split; [reflexivity | eexists; reflexivity]]|].
  destruct (PNG_getDimensions screenshot) as [e|[pngWidth pngHeight]];
    [do 2 eexists; split; [reflexivity | left; split; [reflexivity | eexists; reflexivity]]|].
  destruct (num_le pngWidth (int 0) || num_le pngHeight (int 0));
    [do 2 eexists; split; [reflexivity | left; split; [reflexivity | eexists; reflexivity]]|].
  do 2 eexists; split; [reflexivity|]. right. split; [reflexivity|]. do 2 eexists. reflexivity.
Qed.

End Screenshot.

(** ** The running processes *)

Lemma split_ws_from_nonempty (b : bool) (s : string) : split_ws_from b s <> [].
Proof.
  revert b. induction s as [|c s IH]; intros b; [discriminate|]. simpl.
  destruct (isWhiteSpace c).
  - destruct b; [apply IH | discriminate].
  - destruct (split_ws_from false s); discriminate.
Qed.

Lemma split_ws_from_word (b : bool) (w rest : string) :
  w <> "" -> all_chars (fun c => negb (isWhiteSpace c)) w = true ->
  split_ws_from b (w ++ rest) =
  match split_ws_from false rest with
  | h :: t => (w ++ h) :: t
  | [] => [w]
  end.
Proof.
  intros Hne Hw. revert b. induction w as [|c w IH]; intros b; [contradiction|].
  simpl in Hw. apply andb_true_iff in Hw. destruct Hw as [Hc Hw].
  apply negb_true_iff in Hc. cbn [append split_ws_from]. rewrite Hc.
  destruct w as [|c' w'].
  - simpl. pose proof (split_ws_from_nonempty false rest).
    destruct (split_ws_from false rest); [contradiction | reflexivity].
  - rewrite (IH ltac:(discriminate) Hw false).
    pose proof (split_ws_from_nonempty false rest).
    destruct (split_ws_from false rest); [contradiction | reflexivity].
Qed.

Lemma split_ws_from_blank (s rest : string) :
  all_chars isWhiteSpace s = true ->
  split_ws_from true (s ++ rest) = split_ws_from true rest.
Proof.
  induction s as [|c s IH]; [reflexivity|]. simpl.
  intros H. apply andb_true_iff in H. destruct H as [Hc Hs]. now rewrite Hc, IH.
Qed.

Lemma split_ws_from_gap (s rest : string) :
  s <> "" -> all_chars isWhiteSpace s = true ->
  split_ws_from false (s ++ rest) = "" :: split_ws_from true rest.
Proof.
  intros Hne H. destruct s as [|c s]; [contradiction|]. simpl in H.
  apply andb_true_iff in H. destruct H as [Hc Hs].
  cbn [append split_ws_from]. now rewrite Hc, split_ws_from_blank.
Qed.

Lemma split_ws_from_flag (w rest : string) :
  w <> "" -> all_chars (fun c => negb (isWhiteSpace c)) w = true ->
  split_ws_from true (w ++ rest) = split_ws_from false (w ++ rest).
Proof. intros Hne Hw. now rewrite !split_ws_from_word. Qed.

Lemma columns_head (first : string) (others : list (string * string)) :
  exists rest, columns first others = first ++ rest.
Proof.
  destruct others as [|[blank column] others]; simpl.
  - exists "". now rewrite append_empty_r.
  - now eexists.
Qed.

(** Splitting a row at white space gives its columns. *)
Lemma split_ws_columns (row : string * list (string * string)) :
  well_formed_row row -> split_ws (row_text row) = row_columns row.
Proof.
  destruct row as [first others]. unfold well_formed_row, row_text, row_columns, split_ws.
  cbn [fst snd]. revert first. induction others as [|[blank column] others IH];
    intros first [[Hne Hw] Hothers].
  - simpl. rewrite <- (append_empty_r first) at 1.
    rewrite split_ws_from_word by assumption. simpl. now rewrite append_empty_r.
  - inversion Hothers as [|x l [[Hg [Hgw _]] Hc] Hrest]; subst. cbn [fst snd] in *.
    cbn [columns]. rewrite split_ws_from_word by assumption.
    rewrite split_ws_from_gap by assumption.
    destruct (columns_head column others) as [rest Hr].
    rewrite Hr, split_ws_from_flag by apply Hc. rewrite <- Hr.
    rewrite IH by (split; assumption). simpl. now rewrite append_empty_r.
Qed.

Lemma trimStart_word (w rest : string) :
  w <> "" -> all_chars (fun c => negb (isWhiteSpace c)) w = true ->
  trimStart (w ++ rest) = w ++ rest.
Proof.
  intros Hne Hw. destruct w as [|c w]; [contradiction|]. simpl in Hw.
  apply andb_true_iff in Hw. destruct Hw as [Hc _]. apply negb_true_iff in Hc.
  cbn [append trimStart]. now rewrite Hc.
Qed.

Lemma trimEnd_app_fixed (a b : string) :
  b <> "" -> trimEnd b = b -> trimEnd (a ++ b) = a ++ b.
Proof.
  intros Hne Hb. induction a as [|c a IH]; [exact Hb|].
  cbn [append trimEnd]. rewrite IH.
  destruct (a ++ b) eqn:E; [|reflexivity].
  destruct a; [simpl in E; contradiction | discriminate].
Qed.

Lemma trimEnd_word (w : string) :
  all_chars (fun c => negb (isWhiteSpace c)) w = true -> trimEnd w = w.
Proof.
  intros Hw. rewrite <- (append_empty_r w) at 1. now apply trimEnd_app_ws.
Qed.

Lemma columns_nonempty (first : string) (others : list (string * string)) :
  first <> "" -> columns first others <> "".
Proof.
  intros H. destruct (columns_head first others) as [rest ->].
  destruct first; [contradiction | discriminate].
Qed.

Lemma trim_row (row : string * list (string * string)) :
  well_formed_row row -> trim (row_text row) = row_text row.
Proof.
  destruct row as [first others]. unfold well_formed_row, row_text, trim. cbn [fst snd].
  intros [[Hne Hw] Hothers].
  destruct (columns_head first others) as [rest Hr].
  rewrite Hr, trimStart_word by assumption. rewrite <- Hr. clear rest Hr.
  revert first Hne Hw. induction others as [|[blank column] others IH]; intros first Hne Hw.
  - simpl. now apply trimEnd_word.
  - inversion Hothers as [|x l [Hg [Hcne Hcw]] Hrest]; subst. cbn [fst snd] in *.
    cbn [columns]. rewrite <- append_assoc.
    apply trimEnd_app_fixed; [now apply columns_nonempty | now apply IH].
Qed.

Lemma row_no_LF (row : string * list (string * string)) :
  well_formed_row row ->
  all_chars (fun c => negb (Ascii.eqb c LF)) (row_text row) = true.
Proof.
  assert (forall w, all_chars (fun c => negb (isWhiteSpace c)) w = true ->
                    all_chars (fun c => negb (Ascii.eqb c LF)) w = true) as Hword.
  { intros w. apply all_chars_impl. intros c Hc.
    destruct (Ascii.eqb c LF) eqn:E; [|reflexivity].
    apply Ascii.eqb_eq in E. subst c. discriminate. }
  destruct row as [first others]. unfold well_formed_row, row_text. cbn [fst snd].
  intros [[_ Hw] Hothers]. revert first Hw.
  induction others as [|[blank column] others IH]; intros first Hw.
  - now apply Hword.
  - inversion Hothers as [|x l [[_ [_ Hg]] [_ Hcw]] Hrest]; subst. cbn [fst snd] in *.
    cbn [columns]. rewrite !all_chars_app, (Hword _ Hw), Hg. now rewrite IH.
Qed.

Lemma startsWith_row (row : string * list (string * string)) (p : string) :
  String.length p = 1%nat -> fst row <> "" ->
  startsWith (row_text row) p = startsWith (fst row) p.
Proof.
  destruct row as [first others]. unfold row_text. cbn [fst snd]. intros Hp Hne.
  destruct (columns_head first others) as [rest ->].
  destruct p as [|c [|c' p]]; try discriminate.
  destruct first as [|f first]; [contradiction|].
  unfold startsWith. simpl. destruct (ascii_dec c f); [|reflexivity].
  now destruct (first ++ rest), first.
Qed.

(** X26.  [listRunningProcesses] on a process table: for rows of columns
    separated by blanks, one row a line, it returns the ninth column of
    every row whose first column begins with "u", in the order of the
    table, and [undefined] for such a row of fewer than nine columns; the
    other rows, the header among them, are dropped. *)
Theorem listRunningProcesses_table (adbPath : string)
  (execFileSync : Trace -> NativeCommand -> Result Buffer) (deviceId : string)
  (rows : list (string * list (string * string))) (tr : Trace) :
  List.Forall well_formed_row rows ->
  execFileSync tr (ps_command adbPath deviceId) =
    inr (join (String LF "") (List.map row_text rows) ++ String LF "") ->
  listRunningProcesses adbPath execFileSync deviceId tr =
  (inr (List.map (fun row => List.nth_error (row_columns row) 8)
          (List.filter (fun row => startsWith (fst row) "u") rows)),
   (tr ++ [ps_command adbPath deviceId])%list).
Proof.
  intros Hrows H. unfold listRunningProcesses, bind, adb, ret.
  fold (ps_command adbPath deviceId). rewrite H. f_equal. f_equal.
  destruct rows as [|row0 rows0]; [reflexivity|].
  set (rows := row0 :: rows0) in *.
  assert (split LF (join (String LF "") (List.map row_text rows) ++ String LF "") =
          (List.map row_text rows ++ [""])%list) as ->.
  { rewrite split_app, split_join; [reflexivity | discriminate |].
    intros x Hx. apply in_map_iff in Hx. destruct Hx as (r & <- & Hr).
    apply row_no_LF. rewrite Forall_forall in Hrows. now apply Hrows. }
  rewrite List.map_app, List.filter_app. cbn [List.map List.filter].
  change (startsWith (trim "") "u") with false. cbv iota. rewrite List.app_nil_r.
  clearbody rows. clear H.
  induction Hrows as [|row rows Hrow Hrows IH]; [reflexivity|].
  cbn [List.map List.filter]. rewrite (trim_row row Hrow).
  rewrite (startsWith_row row "u" eq_refl (proj1 (proj1 Hrow))).
  destruct (startsWith (fst row) "u"); [|exact IH].
  cbn [List.map]. now rewrite IH, (split_ws_columns row Hrow).
Qed.


(* ================================================================== *)
(** * Part III: the examples of the specification, run                 *)
(* ================================================================== *)

#[local] Existing Instance Examples.runtime.

(** On a 1000x2000 screen, [swipe("up")] asks the screen size and swipes
    from (500, 1600) to (500, 400). *)
Example swipe_up_1000x2000 :
  swipe "adb" (Examples.device "1000x2000" "") "emulator-5554" "up" [] =
  (inr tt,
   [["adb"; "-s"; "emulator-5554"; "shell"; "wm"; "size"];
    ["adb"; "-s"; "emulator-5554"; "shell"; "input"; "swipe";
     "500"; "1600"; "500"; "400"; "1000"]]).
Proof. reflexivity. Qed.

(** On an 800x1600 screen, [swipeFromCoordinate(100, 100, "up")] ends at
    y1 = 0. *)
Example swipeFromCoordinate_up_800x1600 :
  swipeFromCoordinate "adb" (Examples.device "800x1600" "") "emulator-5554"
    (int 100) (int 100) "up" None [] =
  (inr tt,
   [["adb"; "-s"; "emulator-5554"; "shell"; "wm"; "size"];
    ["adb"; "-s"; "emulator-5554"; "shell"; "input"; "swipe";
     "100"; "100"; "100"; "0"; "1000"]]).
Proof. reflexivity. Qed.

(** An unsupported direction fails after the screen size has been read and
    before any gesture is sent. *)
Example swipe_diagonal :
  swipe "adb" (Examples.device "1000x2000" "") "emulator-5554" "diagonal" [] =
  (inl (unsupported_direction "diagonal"),
   [["adb"; "-s"; "emulator-5554"; "shell"; "wm"; "size"]]).
Proof. reflexivity. Qed.

(** On a 1080x1920 screen, "up" swipes along x = 540 from y = 1536 to
    y = 384, and "diagonal" is refused before any gesture. *)
Lemma swipe_from_center_witness :
  swipe "adb" (Examples.device "1080x1920" "") "emulator-5554" "up" [] =
  (inr tt,
   [["adb"; "-s"; "emulator-5554"; "shell"; "wm"; "size"];
    ["adb"; "-s"; "emulator-5554"; "shell"; "input"; "swipe";
     "540"; "1536"; "540"; "384"; "1000"]]) /\
  swipe "adb" (Examples.device "1080x1920" "") "emulator-5554" "diagonal" [] =
  (inl (unsupported_direction "diagonal"),
   [["adb"; "-s"; "emulator-5554"; "shell"; "wm"; "size"]]).
Proof.
  assert (Hw : (0 <= 1080 < 2 ^ 31)%Z) by lia.
  pose proof (swipe_from_center "adb" (Examples.device "1080x1920" "") "emulator-5554"
                1080 1920 (int 1) "diagonal" []
                [["adb"; "-s"; "emulator-5554"; "shell"; "wm"; "size"]] Hw eq_refl)
    as (Hup & _ & _ & _ & Hbad & _).
  split.
  - rewrite Hup. reflexivity.
  - rewrite Hbad; [reflexivity|].
    unfold supported. intros [E|[E|[E|E]]]; discriminate.
Defined.

(** C10 as stated does not hold: a zero-length swipe can be requested.
    From the anchor (100, 0), on the top edge of an 800x1600 screen, "up"
    with a distance of 0 starts and ends at (100, 0). *)
Lemma swipeFromCoordinate_zero_length_counterexample :
  swipeFromCoordinate_coordinates (ScreenSize.mk (int 800) (int 1600) (int 1))
    (int 100) (int 0) "up" (Some (int 0))
  = inr (int 100, int 0, int 100, int 0) /\
  swipeFromCoordinate "adb" (Examples.device "800x1600" "") "emulator-5554"
    (int 100) (int 0) "up" (Some (int 0)) [] =
  (inr tt,
   [["adb"; "-s"; "emulator-5554"; "shell"; "wm"; "size"];
    ["adb"; "-s"; "emulator-5554"; "shell"; "input"; "swipe";
     "100"; "0"; "100"; "0"; "1000"]]).
Proof. split; reflexivity. Qed.

(** On an 800x1600 screen a distance of 0 travels 480 pixels: from
    (100, 1000), "up" ends at y1 = 520, and only an anchor at y = 0 would
    stay in place. *)
Lemma swipeFromCoordinate_zero_distance_witness :
  swipeFromCoordinate "adb" (Examples.device "800x1600" "") "emulator-5554"
    (Num 100) (Num 1000) "up" (Some (int 0)) [] =
  (inr tt,
   [["adb"; "-s"; "emulator-5554"; "shell"; "wm"; "size"];
    ["adb"; "-s"; "emulator-5554"; "shell"; "input"; "swipe";
     "100"; "1000"; "100"; "520"; "1000"]]) /\
  (at_least_0 (1000 - inject_Z (Qfloor (inject_Z 1600 * 0.3))) == 1000 <-> 1000 == 0)%Q.
Proof.
  pose proof (swipeFromCoordinate_zero_distance "adb" (Examples.device "800x1600" "")
                "emulator-5554" 800 1600 100 1000 (int 1) []
                [["adb"; "-s"; "emulator-5554"; "shell"; "wm"; "size"]] eq_refl)
    as (_ & (Hup & _) & HH & _).
  split.
  - rewrite Hup. reflexivity.
  - apply HH. lia.
Defined.

(** From (100, 100) on an 800x1600 screen, "up" with no distance ends
    at y1 = 0, inside the screen. *)
Lemma swipeFromCoordinate_clamped_witness :
  swipeFromCoordinate "adb" (Examples.device "800x1600" "") "emulator-5554"
    (Num 100) (Num 100) "up" None [] =
  (inr tt,
   [["adb"; "-s"; "emulator-5554"; "shell"; "wm"; "size"];
    ["adb"; "-s"; "emulator-5554"; "shell"; "input"; "swipe";
     "100"; "100"; "100"; "0"; "1000"]]) /\
  (0 <= at_least_0 (100 - travel 1600 None) <= 1600 /\
   0 <= at_most 1600 (100 + travel 1600 None) <= 1600)%Q.
Proof.
  pose proof (swipeFromCoordinate_clamped "adb" (Examples.device "800x1600" "")
                "emulator-5554" 800 1600 100 100 (int 1) None []
                [["adb"; "-s"; "emulator-5554"; "shell"; "wm"; "size"]] eq_refl)
    as ((Hup & _) & _ & Hy & _).
  split.
  - rewrite Hup. reflexivity.
  - apply Hy.
    + split; unfold Qle; simpl; lia.
    + unfold Qle; simpl; lia.
Defined.

(** The filter "package:mine error" on the two lines of the
    specification keeps the second. *)
Lemma mine_filter_witness :
  Examples.logs_of Examples.two_lines (Some Examples.mine_error) =
  (inr "com.example.app: error seen",
   [["adb"; "-s"; "emulator-5554"; "shell"; "logcat"; "-T"; "01-01 00:00:00.000"]]).
Proof.
  unfold Examples.logs_of.
  rewrite (mine_filter "adb" (Examples.device "1080x1920" Examples.two_lines) 0
             "emulator-5554" "error" Examples.mine_error []); reflexivity.
Defined.

(** C8, the code at the failing input: with the process "mine",
    [{process: "mine", filter: "error"}] returns both lines whereas
    [{filter: "package:mine error"}] returns the user line only; the same
    for [{process: "mine"}] against [{filter: "package:mine"}]. *)
Theorem process_mine_divergence :
  fst (Examples.logs_of Examples.two_errors
         (Some (LogOptions.mk None (Some "error") None (Some "mine")))) =
    inr Examples.two_errors /\
  fst (Examples.logs_of Examples.two_errors
         (Some (LogOptions.mk None (Some "package:mine error") None None))) =
    inr "com.example.app: error seen" /\
  fst (Examples.logs_of Examples.two_errors
         (Some (LogOptions.mk None None None (Some "mine")))) =
    inr Examples.two_errors /\
  fst (Examples.logs_of Examples.two_errors
         (Some (LogOptions.mk None (Some "package:mine") None None))) =
    inr "com.example.app: error seen".
Proof. repeat split. Qed.

(** C9 as stated does not hold: with no time window at all, [logcat]
    is still given a start time with [-T], 60 seconds back, and no [-d]. *)
Lemma omitted_timeWindow_counterexample :
  Examples.logs_of Examples.two_lines None =
  (inr Examples.two_lines,
   [["adb"; "-s"; "emulator-5554"; "shell"; "logcat"; "-T"; "01-01 00:00:00.000"]]) /\
  parseTimeWindow (option_timeWindow None) = 60%Z.
Proof. split; reflexivity. Qed.

Lemma time_window_start_witness :
  parseTimeWindow "5m" = 300%Z /\ parseTimeWindow "soon" = 60%Z /\
  option_timeWindow (Some (LogOptions.mk (Some "") None None None)) = "1m" /\
  snd (getDeviceLogs "adb" (Examples.device "1080x1920" "") 0 "emulator-5554" None []) =
  [["adb"; "-s"; "emulator-5554"; "shell"; "logcat"; "-T"; "01-01 00:00:00.000"]].
Proof.
  pose proof (time_window_start "adb" (Examples.device "1080x1920" "") 0 "emulator-5554"
                "5" "m"%char 5 "soon" None []) as (H1 & H2 & H3 & _ & H4 & _).
  split; [|split; [|split]].
  - apply H1; [split; [discriminate | reflexivity] | right; left; reflexivity | reflexivity].
  - apply H2. intros (ds & u & [Hne Hds] & Hu & E).
    destruct ds as [|c ds]; [now apply Hne|].
    injection E as <- E. discriminate.
  - apply H4. reflexivity.
  - rewrite H3. reflexivity.
Defined.

(** C1 as stated does not hold: the only element of the screen has the
    non-empty text " ", which contains the query " ", yet the code finds no
    match (a blank field is not searched) and fails without tapping. *)
Lemma blank_field_counterexample :
  List.length
    (List.filter (claimed_match " ") (collectElements Examples.blank_screen)) = 1%nat /\
  Examples.tap_element_on Examples.blank_screen " " =
  (inl (ActionableError
          ("No element found matching query: " ++ quote ++ " " ++ quote ++
           ". Available elements:  ")),
   [["adb"; "-s"; "emulator-5554"; "exec-out"; "uiautomator"; "dump"; "/dev/tty"]]).
Proof. split; reflexivity. Qed.

(** One match: the button identified as "submit_button", tapped at its
    centre (50.5, 85.5). *)
Lemma tap_element_decided_witness :
  Examples.tap_element_on Examples.submit_screen "button" =
  (inr ("Tapped element " ++ quote ++ "submit_button" ++ quote ++
        " at coordinates: 50.5, 85.5"),
   [["adb"; "-s"; "emulator-5554"; "exec-out"; "uiautomator"; "dump"; "/dev/tty"];
    ["adb"; "-s"; "emulator-5554"; "shell"; "input"; "tap"; "50.5"; "85.5"]]).
Proof.
  unfold Examples.tap_element_on.
  rewrite (proj1 (tap_element_decided
                    (Examples.robot_on "1080x1920" "<?xml" Examples.submit_screen)
                    "button" (collectElements Examples.submit_screen) []
                    [["adb"; "-s"; "emulator-5554"; "exec-out"; "uiautomator"; "dump";
                      "/dev/tty"]] eq_refl)).
  reflexivity.
Defined.

(** The query "submit" matches both elements of the specification's
    example: the multi-match error, and no tap. *)
Example tap_element_submit :
  Examples.tap_element_on Examples.submit_screen "submit" =
  (inl (multiple_elements_found "submit" (collectElements Examples.submit_screen)),
   [["adb"; "-s"; "emulator-5554"; "exec-out"; "uiautomator"; "dump"; "/dev/tty"]]) /\
  List.map (fun e => (centerX (ScreenElement.rect e), centerY (ScreenElement.rect e)))
    (collectElements Examples.submit_screen) =
  [(Num (100 # 2), Num (50 # 2)); (Num (101 # 2), Num (171 # 2))].
Proof. split; reflexivity. Qed.

(** With no device selected, a tap request reaches no device. *)
Example tap_without_device :
  call_tool None (Call_tap_element "OK") [] =
  (inr (Build_CallToolResult
          [TextContent
             "No device selected. Use the mobile_use_device tool to select a device.. Please fix the issue and try again."]
          false), []).
Proof. reflexivity. Qed.

(** Once a device is selected, the same request reaches it. *)
Example tap_after_use_device :
  serve (fun _ => Examples.robot_on "1080x1920" "<?xml" Examples.submit_screen)
        (fun _ => Examples.robot_on "1080x1920" "<?xml" Examples.submit_screen)
        (fun _ => Examples.robot_on "1080x1920" "<?xml" Examples.submit_screen)
        None
        [Operate (Call_click_on_screen_at_coordinates (int 5) (int 7));
         Use_device "emulator-5554" android;
         Operate (Call_click_on_screen_at_coordinates (int 5) (int 7))] [] =
  ([inr (please_fix no_device_selected);
    inr (Build_CallToolResult [TextContent "Selected device: emulator-5554"] false);
    inr (Build_CallToolResult [TextContent "Clicked on screen at coordinates: 5, 7"] false)],
   Some (Examples.robot_on "1080x1920" "<?xml" Examples.submit_screen),
   [["adb"; "-s"; "emulator-5554"; "shell"; "input"; "tap"; "5"; "7"]]).
Proof. reflexivity. Qed.

(** ** The further properties, at examples *)

(** The button of the example screen has the shape of an extracted
    element. *)
Lemma collectElements_extracted_witness :
  In (element_of (Examples.widget "android.widget.Button" "" "" "submit_button" "true"
                    "[0,60][101,111]"))
     (collectElements Examples.submit_screen) /\
  extracted (element_of (Examples.widget "android.widget.Button" "" "" "submit_button" "true"
                           "[0,60][101,111]")).
Proof.
  assert (In (element_of (Examples.widget "android.widget.Button" "" "" "submit_button" "true"
                            "[0,60][101,111]"))
             (collectElements Examples.submit_screen)) as H
    by (right; left; reflexivity).
  split; [exact H | exact (collectElements_extracted Examples.submit_screen _ H)].
Defined.

(** A device that only ever reports a null root node is asked ten times. *)
Lemma getUiAutomatorDump_gives_up_witness :
  (forall t, exists dump,
     Emulators.answering "ERROR: null root node returned by UiTestAutomationBridge."
       t (dump_command "adb" "emulator-5554") = inr dump /\
     includes dump null_root = true) /\
  getUiAutomatorDump "adb"
    (Emulators.answering "ERROR: null root node returned by UiTestAutomationBridge.")
    "emulator-5554" [] =
  (inl (ActionableError "Failed to get UIAutomator XML"),
   List.repeat (dump_command "adb" "emulator-5554") 10).
Proof.
  assert (forall t, exists dump,
            Emulators.answering "ERROR: null root node returned by UiTestAutomationBridge."
              t (dump_command "adb" "emulator-5554") = inr dump /\
            includes dump null_root = true) as H
    by (intros t; eexists; split; reflexivity).
  split; [exact H|].
  exact (getUiAutomatorDump_gives_up "adb" _ "emulator-5554" [] H).
Defined.

(** A package listed twice is named once. *)
Lemma listApps_distinct_witness :
  exists apps,
    listApps "adb"
      (Emulators.answering
         ("packageName=com.a" ++ String LF " packageName=com.b " ++ String LF "packageName=com.a"))
      "emulator-5554" [] =
      (inr apps, [list_apps_command "adb" "emulator-5554"]) /\
    NoDup (List.map packageName apps) /\
    (forall app, In app apps -> appName app = packageName app) /\
    (forall p, In p (List.map packageName apps) <->
               exists line,
                 In line (split LF ("packageName=com.a" ++ String LF " packageName=com.b " ++
                                    String LF "packageName=com.a")) /\
                 trim line = "packageName=" ++ p).
Proof.
  exact (listApps_distinct "adb"
           (Emulators.answering
              ("packageName=com.a" ++ String LF " packageName=com.b " ++ String LF "packageName=com.a"))
           "emulator-5554" [] _ eq_refl).
Defined.

(** The size of a 1080x1920 screen, read off the answer of [wm size] *)
Lemma getScreenSize_reads_witness :
  getScreenSize "adb" (Examples.device "1080x1920" "") "emulator-5554" [] =
  (inr (ScreenSize.mk (int 1080) (int 1920) (int 1)),
   [screen_size_command "adb" "emulator-5554"]).
Proof.
  exact (getScreenSize_reads "adb" (Examples.device "1080x1920" "") "emulator-5554" []
           "Physical size:" 1080 1920 eq_refl).
Defined.

(** A device that prints nothing for [wm size]: the swipe is not sent. *)
Lemma swipe_without_screen_size_witness :
  call_tool (Some (AndroidRobot "adb" (Emulators.answering "") (fun _ => inl (Error "no XML"))
                     0 "emulator-5554"))
    (Call_swipe_on_screen "up" None None None) [] =
  (inr (failed "Failed to get screen size"), [screen_size_command "adb" "emulator-5554"]).
Proof.
  exact (swipe_without_screen_size "adb" (Emulators.answering "")
           "emulator-5554" (fun _ => inl (Error "no XML")) 0 "up" None None None [] ""
           eq_refl (or_introl eq_refl)).
Defined.

(** The tap point of the button of the example screen *)
Lemma tap_point_inside_witness :
  exists x y w h cx cy : Q,
    ScreenElement.rect
      (element_of (Examples.widget "android.widget.Button" "" "" "submit_button" "true"
                     "[0,60][101,111]")) =
      ScreenElementRect.mk (Num x) (Num y) (Num w) (Num h) /\
    centerX (ScreenElement.rect
      (element_of (Examples.widget "android.widget.Button" "" "" "submit_button" "true"
                     "[0,60][101,111]"))) = Num cx /\
    centerY (ScreenElement.rect
      (element_of (Examples.widget "android.widget.Button" "" "" "submit_button" "true"
                     "[0,60][101,111]"))) = Num cy /\
    (x < cx /\ cx < x + w)%Q /\ (y < cy /\ cy < y + h)%Q.
Proof.
  apply (tap_point_inside Examples.submit_screen). right; left; reflexivity.
Defined.

(** The logs of one package, searched for "error" *)
Lemma package_filter_logs_witness :
  exists pids,
    getDeviceLogs "adb" (Examples.device "1080x1920" Examples.two_errors) 0 "emulator-5554"
      (Some (LogOptions.mk None (Some (package_filter "com.example.app" (Some "error")))
               None None)) [] =
    (match
       Examples.device "1080x1920" Examples.two_errors
         ([] ++ [pidof_command "adb" "emulator-5554" "com.example.app"])%list
         (logcat_command "adb" "emulator-5554"
            (timeFormat (0 - parseTimeWindow (or_lit None "1m") * 1000)) pids)
     with
     | inl e => inl e
     | inr output =>
         inr (join (String LF "")
                (List.filter (package_keeps "com.example.app" (Some "error"))
                   (split LF output)))
     end,
     (([] ++ [pidof_command "adb" "emulator-5554" "com.example.app"]) ++
      [logcat_command "adb" "emulator-5554"
         (timeFormat (0 - parseTimeWindow (or_lit None "1m") * 1000)) pids])%list).
Proof.
  apply (package_filter_logs "adb" (Examples.device "1080x1920" Examples.two_errors) 0
           "emulator-5554" "com.example.app" (Some "error") None None []).
  - split; [discriminate | reflexivity].
  - reflexivity.
  - intros q [= <-]. split; [exists "e"%char, "rror"; split; reflexivity | reflexivity].
Defined.

(** The logs searched for "ERROR": both lines of the example *)
Lemma text_filter_logs_witness :
  getDeviceLogs "adb" (Examples.device "1080x1920" Examples.two_errors) 0 "emulator-5554"
    (Some (LogOptions.mk None (Some "ERROR") None None)) [] =
  (inr Examples.two_errors,
   [logcat_command "adb" "emulator-5554" "01-01 00:00:00.000" []]).
Proof.
  rewrite (text_filter_logs "adb" (Examples.device "1080x1920" Examples.two_errors) 0
             "emulator-5554" (Some "ERROR") None None []).
  - reflexivity.
  - intros f [= <-]. reflexivity.
Defined.

(** The filter "package: x" filters nothing. *)
Lemma blank_package_filter_logs_witness :
  getDeviceLogs "adb" (Examples.device "1080x1920" Examples.two_lines) 0 "emulator-5554"
    (Some (LogOptions.mk None (Some "package: x") None None)) [] =
  (inr Examples.two_lines,
   [logcat_command "adb" "emulator-5554" "01-01 00:00:00.000" []]).
Proof.
  rewrite (blank_package_filter_logs "adb" (Examples.device "1080x1920" Examples.two_lines) 0
             "emulator-5554" " x" None None []).
  - reflexivity.
  - right. exists " "%char, "x". split; reflexivity.
  - reflexivity.
Defined.

(** The first instant of the year of the example runtime *)
Lemma timeFormat_shape_witness :
  exists month day hours minutes seconds milliseconds,
    timeFormat 0 =
      month ++ "-" ++ day ++ " " ++ hours ++ ":" ++ minutes ++ ":" ++ seconds ++ "." ++
      milliseconds /\
    padded 2 (getMonth (Date_fields 0) + 1) month /\
    padded 2 (getDate (Date_fields 0)) day /\
    padded 2 (getHours (Date_fields 0)) hours /\
    padded 2 (getMinutes (Date_fields 0)) minutes /\
    padded 2 (getSeconds (Date_fields 0)) seconds /\
    padded 3 (getMilliseconds (Date_fields 0)) milliseconds.
Proof.
  apply (timeFormat_shape 0); simpl; lia.
Defined.

(** "upside-down" reads back as landscape. *)
Lemma orientation_round_trip_witness :
  (setOrientation "adb" Emulators.rotating "emulator-5554" "upside-down" ;;
   getOrientation "adb" Emulators.rotating "emulator-5554") [] =
  (inr "landscape",
   [rotation_lock_command "adb" "emulator-5554";
    set_rotation_command "adb" "emulator-5554" "1";
    get_rotation_command "adb" "emulator-5554"]).
Proof.
  apply (orientation_round_trip "adb" Emulators.rotating "emulator-5554" "upside-down" []).
  - intros t command. unfold Emulators.rotating.
    destruct (List.existsb (String.eqb "get") command); eexists; reflexivity.
  - intros t value. unfold Emulators.rotating.
    change (List.existsb (String.eqb "get") (get_rotation_command "adb" "emulator-5554"))
      with true.
    cbv iota. now rewrite List.last_last.
Defined.

(** A television *)
Lemma getDeviceType_tv_witness :
  exists type,
    getDeviceType "adb"
      (Emulators.answering
         ("feature:android.hardware.camera" ++ String LF "feature:android.software.leanback"))
      "emulator-5554" [] =
      (inr type, [features_command "adb" "emulator-5554"]) /\
    (type = tv <->
     exists line,
       In line (split LF ("feature:android.hardware.camera" ++
                          String LF "feature:android.software.leanback")) /\
       (trim line = "feature:android.software.leanback" \/
        trim line = "feature:android.hardware.type.television")).
Proof.
  exact (getDeviceType_tv "adb"
           (Emulators.answering
              ("feature:android.hardware.camera" ++ String LF "feature:android.software.leanback"))
           "emulator-5554" [] _ eq_refl).
Defined.

(** The process table of the example: the header is dropped, the
    application is named. *)
Lemma listRunningProcesses_table_witness :
  listRunningProcesses "adb"
    (Emulators.answering
       (join (String LF "") (List.map row_text Emulators.process_table) ++ String LF ""))
    "emulator-5554" [] =
  (inr [Some "com.example.app"], [ps_command "adb" "emulator-5554"]).
Proof.
  apply (listRunningProcesses_table "adb"
           (Emulators.answering
              (join (String LF "") (List.map row_text Emulators.process_table) ++ String LF ""))
           "emulator-5554" Emulators.process_table []).
  - repeat constructor; discriminate.
  - reflexivity.
Defined.



(** Two devices attached, a television and a telephone: both are listed,
    each after one feature query. *)
Example connected_devices_listed :
  getConnectedDevices "adb"
    (fun _ command =>
       if List.existsb (String.eqb "devices") command
       then inr ("List of devices attached" ++ String LF "emulator-5554" ++ String TAB "device" ++
                 String LF "R58M123" ++ String TAB "unauthorized" ++ String LF (String LF ""))
       else if List.existsb (String.eqb "emulator-5554") command
       then inr ("feature:android.hardware.camera" ++ String LF "feature:android.software.leanback")
       else inr "feature:android.hardware.camera")
    [] =
  (inr [Build_AndroidDevice "emulator-5554" tv; Build_AndroidDevice "R58M123" mobile],
   [devices_command "adb"; features_command "adb" "emulator-5554";
    features_command "adb" "R58M123"]).
Proof. reflexivity. Qed.

(** The key "constructor" is not in the table of buttons, yet it is not
    refused: a key event is sent. *)
Example press_constructor :
  call_tool (Some (Examples.robot_on "1080x1920" "" Examples.submit_screen))
    (Call_press_button "constructor") [] =
  (inr (answered "Pressed the button: constructor"),
   [keyevent_command "adb" "emulator-5554" "function Object() { [native code] }"]).
Proof. reflexivity. Qed.
